(** * The funding ledger of glide-TIC: account router

  A shallow embedding of [server/routers/account.ts] (module [AccountTs])
  and of its later revision, the copy that draws account numbers from
  [crypto.randomBytes] and checks the amount again in the handler (module
  [Part002]).  Both are embedded over one model of the SQLite store they
  share.

  Conventions.
  - A JavaScript number is a [number]: NaN, the two infinities, or a
    finite value, a rational.  The result of [+] and of [*] is rounded to
    the nearest binary64 number, ties to even, and becomes an infinity
    from 2^1024 on, as IEEE 754 has it and as both JavaScript and SQLite
    compute; the sign of zero is not kept.
  - A table is the list of its rows in rowid order; a transaction row
    refers to an account row (a foreign key), and the engine refuses one
    that does not.
  - What a handler reads from its surroundings (the clock, the random
    source, what other requests do to the database while the handler is
    suspended at an [await], whether a statement of the storage engine
    throws) is an explicit argument. *)

From Stdlib Require Import ZArith NArith QArith Qround Qabs Qpower.
From Stdlib Require Import List String Ascii Bool Lia Lqa.
From Stdlib Require Import SpecFloat.
From Stdlib Require Import Permutation Sorted.
From Stdlib.Strings Require Import Byte.
Import ListNotations.

Set Implicit Arguments.

Close Scope Q_scope.
Open Scope Z_scope.
Open Scope string_scope.

(** ** JavaScript values *)

Module JS.

Inductive number : Type :=
| NaN
| PosInf
| NegInf
| Fin (q : Q).

Definition zero : number := Fin 0%Q.

(** *** binary64 *)

(** [2^e] *)
Definition pow2 (e : Z) : Q := (2 ^ e)%Q.

(** The number [m * 2^e]; it is a binary64 number when [|m| < 2^53] and
    [-1074 <= e] and it is below 2^1024 in magnitude. *)
Definition double (m e : Z) : Q := (inject_Z m * pow2 e)%Q.

(** The integer nearest to [x]; of two that are equally near, the even
    one. *)
Definition roundHalfEven (x : Q) : Z :=
  let f := Qfloor x in
  match (x - inject_Z f ?= 1 # 2)%Q with
  | Lt => f
  | Gt => (f + 1)%Z
  | Eq => if Z.even f then f else (f + 1)%Z
  end.

(** [floor (log2 q)] for a positive [q] *)
Definition ilog2 (q : Q) : Z :=
  if Qle_bool 1 q then Z.log2 (Qfloor q)
  else (- Z.log2_up (Qceiling (/ q)))%Z.

(** The multiple of [2^e] nearest to a positive [a], where [e] is the
    exponent binary64 gives the last of its 53 bits at the size of [a],
    and -1074 for the subnormal numbers. *)
Definition nearest (a : Q) : Q :=
  let e := Z.max (ilog2 a - 52) (-1074) in
  (inject_Z (roundHalfEven (a / pow2 e)) * pow2 e)%Q.

(** The binary64 number a real result is rounded to: the nearest one,
    ties to even; an infinity when that is 2^1024 or more in magnitude. *)
Definition round (q : Q) : number :=
  if Qeq_bool q 0 then Fin 0%Q
  else
    let r := nearest (Qabs q) in
    if Qle_bool (pow2 1024) r
    then (if Qle_bool 0 q then PosInf else NegInf)
    else Fin (Qred (if Qle_bool 0 q then r else - r)%Q).

(** [x + y] *)
Definition add (x y : number) : number :=
  match x, y with
  | NaN, _ | _, NaN => NaN
  | PosInf, NegInf | NegInf, PosInf => NaN
  | PosInf, _ | _, PosInf => PosInf
  | NegInf, _ | _, NegInf => NegInf
  | Fin a, Fin b => round (a + b)%Q
  end.

Definition isZero (x : number) : bool :=
  match x with Fin q => Qeq_bool q 0 | _ => false end.

Definition isNegative (x : number) : bool :=
  match x with
  | NegInf => true
  | Fin q => negb (Qle_bool 0 q)
  | _ => false
  end.

(** [x * y] *)
Definition mul (x y : number) : number :=
  match x, y with
  | NaN, _ | _, NaN => NaN
  | Fin a, Fin b => round (a * b)%Q
  | _, _ =>
      if isZero x || isZero y then NaN
      else if xorb (isNegative x) (isNegative y) then NegInf
      else PosInf
  end.

(** [x < y]; every comparison with NaN is false *)
Definition ltb (x y : number) : bool :=
  match x, y with
  | NaN, _ | _, NaN => false
  | _, NegInf => false
  | NegInf, _ => true
  | PosInf, _ => false
  | _, PosInf => true
  | Fin a, Fin b => negb (Qle_bool b a)
  end.

(** [x <= y] *)
Definition leb (x y : number) : bool :=
  match x, y with
  | NaN, _ | _, NaN => false
  | NegInf, _ => true
  | _, PosInf => true
  | _, NegInf => false
  | PosInf, _ => false
  | Fin a, Fin b => Qle_bool a b
  end.

Definition isNaN (x : number) : bool :=
  match x with NaN => true | _ => false end.

Definition isFinite (x : number) : bool :=
  match x with Fin _ => true | _ => false end.

(** Numeric equality of two JavaScript numbers ([1/2] and [2/4] are the
    same number). *)
Definition same (x y : number) : Prop :=
  match x, y with
  | NaN, NaN | PosInf, PosInf | NegInf, NegInf => True
  | Fin a, Fin b => (a == b)%Q
  | _, _ => False
  end.

(** [parseFloat(x.toString())] gives back the number it is applied to. *)
Definition parseFloat_toString (x : number) : number := x.

(** *** Strings *)

Definition digit (d : N) : ascii :=
  ascii_of_N (48 + d).

Definition isDigit (c : ascii) : bool :=
  let n := N_of_ascii c in ((48 <=? n) && (n <=? 57))%N.

Fixpoint digits (fuel : nat) (n : N) (acc : string) : string :=
  match fuel with
  | O => acc
  | S fuel' =>
      let acc' := String (digit (n mod 10)) acc in
      if (n / 10 =? 0)%N then acc' else digits fuel' (n / 10)%N acc'
  end.

(** [n.toString()] for a non-negative integer [n] *)
Definition toString (n : N) : string :=
  digits (S (N.to_nat (N.log2 n))) n EmptyString.

(** [z.toString()] for an integer [z] *)
Definition integerToString (z : Z) : string :=
  if (z <? 0)%Z then "-" ++ toString (Z.to_N (- z)) else toString (Z.to_N z).

(** [Math.floor(x)] for a finite [x] *)
Definition floor (q : Q) : Z := Qfloor q.

(** [Math.floor(x).toString()]; for a finite [x] the digits of the
    integer, which is how JavaScript writes an integer below 10^21. *)
Definition floorToString (x : number) : string :=
  match x with
  | Fin q => integerToString (floor q)
  | NaN => "NaN"
  | PosInf => "Infinity"
  | NegInf => "-Infinity"
  end.

(** The first [k] characters of [pad] repeated for ever ([cur] is what is
    left of the copy being written). *)
Fixpoint fill (k : nat) (pad cur : string) : string :=
  match k with
  | O => EmptyString
  | S k' =>
      match cur with
      | String c rest => String c (fill k' pad rest)
      | EmptyString =>
          match pad with
          | String c rest => String c (fill k' pad rest)
          | EmptyString => EmptyString
          end
      end
  end.

(** [s.padStart(targetLength, padString)] *)
Definition padStart (targetLength : nat) (padString s : string) : string :=
  if (targetLength <=? String.length s)%nat then s
  else (fill (targetLength - String.length s) padString padString ++ s)%string.

(** The number a string of decimal digits denotes. *)
Fixpoint decimalValue_from (acc : N) (s : string) : N :=
  match s with
  | EmptyString => acc
  | String c rest => decimalValue_from (10 * acc + (N_of_ascii c - 48))%N rest
  end.

Definition decimalValue (s : string) : N := decimalValue_from 0 s.

Fixpoint allDigits (s : string) : bool :=
  match s with
  | EmptyString => true
  | String c rest => isDigit c && allDigits rest
  end.

Definition firstChar (s : string) : option ascii :=
  match s with
  | EmptyString => None
  | String c _ => Some c
  end.

(** ASCII white space, as [String.prototype.trim] removes it. *)
Definition isSpace (c : ascii) : bool :=
  let n := N_of_ascii c in
  ((n =? 32) || ((9 <=? n) && (n <=? 13)))%N.

Fixpoint trimStart (s : string) : string :=
  match s with
  | String c rest => if isSpace c then trimStart rest else s
  | EmptyString => EmptyString
  end.

Fixpoint rev_string (acc s : string) : string :=
  match s with
  | EmptyString => acc
  | String c rest => rev_string (String c acc) rest
  end.

Definition trim (s : string) : string :=
  rev_string EmptyString (trimStart (rev_string EmptyString (trimStart s))).

End JS.

(** ** The store: tables [accounts] and [transactions] *)

Module Db.

Inductive AccountType : Type := checking | savings.

Definition AccountType_eqb (x y : AccountType) : bool :=
  match x, y with
  | checking, checking | savings, savings => true
  | _, _ => false
  end.

Definition AccountType_name (x : AccountType) : string :=
  match x with checking => "checking" | savings => "savings" end.

Module Account.
Record t : Type := {
  id : Z;
  userId : Z;
  accountNumber : string;
  accountType : AccountType;
  balance : JS.number;
  status : string;
  createdAt : string
}.
End Account.

Module Transaction.
Record t : Type := {
  id : Z;
  accountId : Z;
  type : string;
  amount : JS.number;
  description : string;
  status : string;
  createdAt : string;
  processedAt : string
}.
End Transaction.

Record Store : Type := {
  accounts : list Account.t;
  transactions : list Transaction.t
}.

(** Modelled from the spec: the table declarations of [lib/db] are not
    part of the sources at hand.  A row's surrogate id is assigned by the
    store at insert time: one more than the largest id of the table. *)
Definition nextId (ids : list Z) : Z :=
  1 + fold_right Z.max 0 ids.

(** What the clocks read at one statement: [new Date().toISOString()] and
    the engine's [CURRENT_TIMESTAMP], the default of [created_at]. *)
Record Clock : Type := {
  isoNow : string;
  currentTimestamp : string
}.

(** [SELECT ... WHERE p] followed by [.get()]: the first matching row. *)
Definition getAccount (p : Account.t -> bool) (s : Store) : option Account.t :=
  find p (accounts s).

Definition byAccountNumber (n : string) (a : Account.t) : bool :=
  String.eqb (Account.accountNumber a) n.

Definition byId (i : Z) (a : Account.t) : bool :=
  Z.eqb (Account.id a) i.

Definition byIdAndUser (i u : Z) (a : Account.t) : bool :=
  Z.eqb (Account.id a) i && Z.eqb (Account.userId a) u.

Definition byUserAndType (u : Z) (ty : AccountType) (a : Account.t) : bool :=
  Z.eqb (Account.userId a) u && AccountType_eqb (Account.accountType a) ty.

(** [INSERT INTO accounts (user_id, account_number, account_type, balance,
    status)]: the row is appended with a fresh id and the default
    [created_at]. *)
Definition insertAccount (u : Z) (n : string) (ty : AccountType)
    (b : JS.number) (st : string) (clock : Clock) (s : Store) : Store :=
  {| accounts :=
       accounts s ++
       [ {| Account.id := nextId (map Account.id (accounts s));
            Account.userId := u;
            Account.accountNumber := n;
            Account.accountType := ty;
            Account.balance := b;
            Account.status := st;
            Account.createdAt := currentTimestamp clock |} ];
     transactions := transactions s |}.

(** Modelled from the spec: the table declarations of [lib/db] are not
    part of the sources at hand.  [transactions.account_id] is a foreign
    key to [accounts.id], and the engine refuses a row that refers to no
    account: [None].

    [INSERT INTO transactions (account_id, type, amount, description,
    status, processed_at)]; the result carries [lastInsertRowid]. *)
Definition insertTransaction (acc : Z) (ty : string) (amt : JS.number)
    (descr st processed : string) (clock : Clock) (s : Store)
    : option (Z * Store) :=
  match getAccount (byId acc) s with
  | None => None
  | Some _ =>
      let i := nextId (map Transaction.id (transactions s)) in
      Some
        (i,
         {| accounts := accounts s;
            transactions :=
              transactions s ++
              [ {| Transaction.id := i;
                   Transaction.accountId := acc;
                   Transaction.type := ty;
                   Transaction.amount := amt;
                   Transaction.description := descr;
                   Transaction.status := st;
                   Transaction.createdAt := currentTimestamp clock;
                   Transaction.processedAt := processed |} ] |})
  end.

Definition credit (amt : JS.number) (a : Account.t) : Account.t :=
  {| Account.id := Account.id a;
     Account.userId := Account.userId a;
     Account.accountNumber := Account.accountNumber a;
     Account.accountType := Account.accountType a;
     Account.balance := JS.add (Account.balance a) amt;
     Account.status := Account.status a;
     Account.createdAt := Account.createdAt a |}.

(** [UPDATE accounts SET balance = balance + ? WHERE id = ?] *)
Definition updateBalance (amt : JS.number) (i : Z) (s : Store) : Store :=
  {| accounts :=
       map (fun a => if byId i a then credit amt a else a) (accounts s);
     transactions := transactions s |}.

(** [SELECT * FROM transactions WHERE id = ?] with [.get()] *)
Definition getTransaction (i : Z) (s : Store) : option Transaction.t :=
  find (fun t => Z.eqb (Transaction.id t) i) (transactions s).

(** [SELECT balance FROM accounts WHERE id = ?] with [.get()] *)
Definition getBalance (i : Z) (s : Store) : option JS.number :=
  option_map Account.balance (getAccount (byId i) s).

(** [SELECT * FROM transactions WHERE account_id = ?], in scan order *)
Definition transactionsOf (i : Z) (s : Store) : list Transaction.t :=
  filter (fun t => Z.eqb (Transaction.accountId t) i) (transactions s).

(** [ORDER BY created_at DESC].  The query names no second key; rows with
    the same [created_at] come in the order the engine meets them, which
    with the index on [(account_id, created_at)] the repository declares
    is that index walked backwards: the later row first.  [insertDesc t l]
    puts [t], a row that precedes the rows of [l] in the table, into the
    ordered [l]. *)
Fixpoint insertDesc (t : Transaction.t) (l : list Transaction.t)
    : list Transaction.t :=
  match l with
  | [] => [t]
  | u :: l' =>
      if String.leb (Transaction.createdAt t) (Transaction.createdAt u)
      then u :: insertDesc t l'
      else t :: l
  end.

Definition orderByCreatedAtDesc (l : list Transaction.t) : list Transaction.t :=
  fold_right insertDesc [] l.

(** What a statement run inside [rawDb.transaction] does when the engine
    cannot carry it out: it throws.  One flag per statement of the funding
    transaction, and one for the commit. *)
Record Engine : Type := {
  insertThrows : bool;
  updateThrows : bool;
  selectTransactionThrows : bool;
  selectBalanceThrows : bool;
  commitThrows : bool
}.

Definition reliable : Engine :=
  {| insertThrows := false; updateThrows := false;
     selectTransactionThrows := false; selectBalanceThrows := false;
     commitThrows := false |}.

Inductive outcome (A : Type) : Type :=
| Returned (a : A)
| Threw (message : string).
Arguments Threw {A} message.

(** [rawDb.transaction(fn)()]: [BEGIN], run [fn], then [COMMIT] and hand
    back what [fn] returned; when [fn] or the commit throws, [ROLLBACK]
    and throw again. *)
Definition transaction {A : Type} (engine : Engine)
    (fn : Store -> outcome (A * Store)) (s : Store) : outcome A * Store :=
  match fn s with
  | Returned (a, s') =>
      if commitThrows engine then (Threw "SQLITE_ERROR: commit", s)
      else (Returned a, s')
  | Threw m => (Threw m, s)
  end.

End Db.

(** ** tRPC: errors, results, the caller's context *)

Module TRPC.

Inductive Code : Type :=
| CONFLICT
| NOT_FOUND
| BAD_REQUEST
| INTERNAL_SERVER_ERROR.

Record TRPCError : Type := {
  code : Code;
  message : string
}.

Inductive result (A : Type) : Type :=
| Ok (a : A)
| Err (e : TRPCError).
Arguments Err {A} e.

(** [ctx.user.id] of a protected procedure *)
Record Ctx : Type := {
  user_id : Z
}.

Definition throw {A : Type} (c : Code) (m : string) : result A :=
  Err {| code := c; message := m |}.

(** A failed input schema is answered with [BAD_REQUEST].  tRPC takes the
    message from the zod error, the JSON text of its issues; of that text
    the messages of the issues are kept here, and no property below reads
    it. *)
Definition invalidInput {A : Type} (issues : list string) : result A :=
  throw BAD_REQUEST (String.concat "; " issues).

(** An exception that is not a [TRPCError] reaches the caller as
    [INTERNAL_SERVER_ERROR] with the exception's message. *)
Definition uncaught {A : Type} (m : string) : result A :=
  throw INTERNAL_SERVER_ERROR m.

End TRPC.

(** ** Inputs and results of the procedures; the text both revisions share *)

Module Router.
Import Db TRPC.

Inductive FundingType : Type := card | bank.

Definition FundingType_name (t : FundingType) : string :=
  match t with card => "card" | bank => "bank" end.

Module FundingSource.
Record t : Type := {
  type : FundingType;
  accountNumber : string;
  routingNumber : option string
}.
End FundingSource.

Record CreateInput : Type := {
  accountType : AccountType
}.

Record FundInput : Type := {
  accountId : Z;
  amount : JS.number;
  fundingSource : FundingSource.t
}.

(** [{ transaction, newBalance }]; [transaction] is [undefined] when the
    row is not found again. *)
Record FundResult : Type := {
  transaction : option Transaction.t;
  newBalance : JS.number
}.

Record TransactionsInput : Type := {
  forAccountId : Z
}.

(** [{ ...transaction, accountType }] *)
Record Enriched : Type := {
  row : Transaction.t;
  enrichedAccountType : option AccountType
}.

(** The loop [while (!isUnique)] of [createAccount]: [generate k] is the
    account number the [k]-th call of [generateAccountNumber] returns.
    The result is the number kept and how many numbers were drawn; [None]
    when [fuel] iterations did not end the loop. *)
Fixpoint uniqueAccountNumber (fuel : nat) (generate : nat -> string)
    (attempt : nat) (s : Store) : option (string * nat) :=
  match fuel with
  | O => None
  | S fuel' =>
      let accountNumber := generate attempt in
      match getAccount (byAccountNumber accountNumber) s with
      | None => Some (accountNumber, S attempt)
      | Some _ => uniqueAccountNumber fuel' generate (S attempt) s
      end
  end.

(** The function handed to [rawDb.transaction] in [fundAccount]; [account]
    is the row the ownership check read before. *)
Definition funding (engine : Engine) (clock : Clock) (input : FundInput)
    (amount : JS.number) (account : Account.t) (s : Store)
    : outcome (FundResult * Store) :=
  if insertThrows engine then Threw "SQLITE_ERROR: insert" else
  match
    insertTransaction (accountId input) "deposit" amount
      ("Funding from "
       ++ FundingType_name (FundingSource.type (fundingSource input)))
      "completed" (isoNow clock) clock s
  with
  | None => Threw "FOREIGN KEY constraint failed"
  | Some (transactionId, s1) =>
      if updateThrows engine then Threw "SQLITE_ERROR: update" else
      let s2 := updateBalance amount (accountId input) s1 in
      if selectTransactionThrows engine then Threw "SQLITE_ERROR: select" else
      let transaction := getTransaction transactionId s2 in
      if selectBalanceThrows engine then Threw "SQLITE_ERROR: select" else
      let updatedAccount := getBalance (accountId input) s2 in
      Returned
        ({| transaction := transaction;
            newBalance :=
              match updatedAccount with
              | Some b => b
              | None => JS.add (Account.balance account) amount
              end |},
         s2)
  end.

(** [const transaction = rawDb.transaction(...)(); return transaction;] *)
Definition runFunding (engine : Engine) (clock : Clock) (input : FundInput)
    (amount : JS.number) (account : Account.t) (s : Store)
    : result FundResult * Store :=
  match Db.transaction engine (funding engine clock input amount account) s with
  | (Returned r, s') => (Ok r, s')
  | (Threw m, s') => (uncaught m, s')
  end.

(** Nothing happens to the database while the handler is suspended. *)
Definition quiet (s : Store) : Store := s.

End Router.

(** ** [server/routers/account.ts] *)

Module AccountTs.
Import Db TRPC Router.

(** [random] is what [Math.random()] returned. *)
Definition generateAccountNumber (random : Q) : string :=
  JS.padStart 10 "0"
    (JS.floorToString (JS.mul (JS.Fin random) (JS.Fin 1000000000))).

(** The record returned in place of the account when the row is not found
    again. *)
Definition placeholder (ctx : Ctx) (input : CreateInput)
    (accountNumber : string) (clock : Clock) : Account.t :=
  {| Account.id := 0;
     Account.userId := user_id ctx;
     Account.accountNumber := accountNumber;
     Account.accountType := accountType input;
     Account.balance := JS.Fin 100;
     Account.status := "pending";
     Account.createdAt := isoNow clock |}.

(** [createAccount].  [random k] is the [k]-th value of [Math.random()];
    [between] is what happens to the database between the insert and the
    query that fetches the created account.  [None]: the loop that looks
    for a free account number did not end within [fuel] iterations. *)
Definition createAccount_with (between : Store -> Store) (fuel : nat)
    (random : nat -> Q) (clock : Clock) (ctx : Ctx) (input : CreateInput)
    (s : Store) : option (result Account.t * Store) :=
  match getAccount (byUserAndType (user_id ctx) (accountType input)) s with
  | Some _ =>
      Some (throw CONFLICT
              ("You already have a " ++ AccountType_name (accountType input)
               ++ " account"), s)
  | None =>
      match uniqueAccountNumber fuel
              (fun k => generateAccountNumber (random k)) 0 s with
      | None => None
      | Some (accountNumber, _) =>
          let s1 :=
            insertAccount (user_id ctx) accountNumber (accountType input)
              (JS.Fin 0) "active" clock s in
          let s2 := between s1 in
          match getAccount (byAccountNumber accountNumber) s2 with
          | Some account => Some (Ok account, s2)
          | None => Some (Ok (placeholder ctx input accountNumber clock), s2)
          end
      end
  end.

Definition createAccount := createAccount_with quiet.

(** The input schema of [fundAccount] on [amount]:
    [z.number().positive()].  [z.number()] turns NaN down and looks no
    further; it has no objection to an infinity (that is [.finite()],
    which the schema does not ask for). *)
Definition amountIssues (amount : JS.number) : list string :=
  if JS.isNaN amount then ["Expected number, received nan"]
  else if JS.leb amount (JS.Fin 0) then ["Number must be greater than 0"]
  else [].

(** [fundAccount] up to the [await] of the ownership query: either the
    input schema has answered already, or the handler is suspended with
    the row the query read. *)
Definition fundAccount_begin (ctx : Ctx) (input : FundInput) (s : Store)
    : result FundResult + option Account.t :=
  match amountIssues (amount input) with
  | (_ :: _) as issues => inl (invalidInput issues)
  | [] => inr (getAccount (byIdAndUser (accountId input) (user_id ctx)) s)
  end.

(** [fundAccount] from that [await] on; [s] is the database the handler
    finds when it goes on, [account] the row it read before. *)
Definition fundAccount_resume (engine : Engine) (clock : Clock)
    (input : FundInput) (account : option Account.t) (s : Store)
    : result FundResult * Store :=
  let amount := JS.parseFloat_toString (amount input) in
  match account with
  | None => (throw NOT_FOUND "Account not found", s)
  | Some account =>
      if negb (String.eqb (Account.status account) "active")
      then (throw BAD_REQUEST "Account is not active", s)
      else runFunding engine clock input amount account s
  end.

(** [fundAccount].  [between] is what happens to the database while the
    handler is suspended. *)
Definition fundAccount_with (between : Store -> Store) (engine : Engine)
    (clock : Clock) (ctx : Ctx) (input : FundInput) (s : Store)
    : result FundResult * Store :=
  match fundAccount_begin ctx input s with
  | inl r => (r, s)
  | inr account => fundAccount_resume engine clock input account (between s)
  end.

Definition fundAccount := fundAccount_with quiet.

(** [getTransactions]: the rows come in scan order (the query has no
    [ORDER BY]); the account is queried again for every row. *)
Definition getTransactions (ctx : Ctx) (input : TransactionsInput)
    (s : Store) : result (list Enriched) :=
  match getAccount (byIdAndUser (forAccountId input) (user_id ctx)) s with
  | None => throw NOT_FOUND "Account not found"
  | Some account =>
      let accountTransactions := transactionsOf (forAccountId input) s in
      Ok (map
            (fun transaction =>
               let accountDetails :=
                 getAccount (byId (Transaction.accountId transaction)) s in
               {| row := transaction;
                  enrichedAccountType :=
                    option_map Account.accountType accountDetails |})
            accountTransactions)
  end.

(** [getAccounts]: the rows of [accounts] that belong to the caller, in
    scan order. *)
Definition getAccounts (ctx : Ctx) (s : Store) : list Account.t :=
  filter (fun a => Z.eqb (Account.userId a) (user_id ctx)) (accounts s).

End AccountTs.

(** ** The later revision of [server/routers/account.ts] *)

Module Part002.
Import Db TRPC Router.

(** [crypto.randomBytes(4).readUInt32BE(0)] *)
Definition readUInt32BE (b0 b1 b2 b3 : byte) : N :=
  (Byte.to_N b0 * 16777216 + Byte.to_N b1 * 65536
   + Byte.to_N b2 * 256 + Byte.to_N b3)%N.

(** [randomBytes] is what [crypto.randomBytes(4)] returned. *)
Definition generateAccountNumber (randomBytes : byte * byte * byte * byte)
    : string :=
  let '(b0, b1, b2, b3) := randomBytes in
  let randomNumber := readUInt32BE b0 b1 b2 b3 in
  let accountNum := (randomNumber mod 1000000000)%N in
  JS.padStart 10 "0" (JS.toString accountNum).

(** [createAccount], with the arguments of [AccountTs.createAccount_with];
    [random k] is the [k]-th result of [crypto.randomBytes(4)]. *)
Definition createAccount_with (between : Store -> Store) (fuel : nat)
    (random : nat -> byte * byte * byte * byte) (clock : Clock) (ctx : Ctx)
    (input : CreateInput) (s : Store) : option (result Account.t * Store) :=
  match getAccount (byUserAndType (user_id ctx) (accountType input)) s with
  | Some _ =>
      Some (throw CONFLICT
              ("You already have a " ++ AccountType_name (accountType input)
               ++ " account"), s)
  | None =>
      match uniqueAccountNumber fuel
              (fun k => generateAccountNumber (random k)) 0 s with
      | None => None
      | Some (accountNumber, _) =>
          let s1 :=
            insertAccount (user_id ctx) accountNumber (accountType input)
              (JS.Fin 0) "active" clock s in
          let s2 := between s1 in
          match getAccount (byAccountNumber accountNumber) s2 with
          | Some account => Some (Ok account, s2)
          | None =>
              Some (throw INTERNAL_SERVER_ERROR
                      "Account was created but could not be retrieved. Please try again.",
                    s2)
          end
      end
  end.

Definition createAccount := createAccount_with quiet.

(** [/^\d{9}$/.test(s)] *)
Definition nineDigits (s : string) : bool :=
  (String.length s =? 9)%nat && JS.allDigits s.

(** [!routingNumber || routingNumber.trim().length === 0] *)
Definition routingNumberMissing (routingNumber : option string) : bool :=
  match routingNumber with
  | None => true
  | Some r =>
      (String.length r =? 0)%nat || (String.length (JS.trim r) =? 0)%nat
  end.

(** The input schema on [amount]: [z.number()], then [.positive],
    [.min(0.01)], [.max(10000)] and the refinement [val > 0]; every check
    that fails adds its issue. *)
Definition amountIssues (amount : JS.number) : list string :=
  if JS.isNaN amount then ["Expected number, received nan"]
  else
    (if JS.leb amount (JS.Fin 0)
     then ["Amount must be greater than $0.00"] else [])
    ++ (if JS.ltb amount (JS.Fin (1 # 100))
        then ["Amount must be at least $0.01"] else [])
    ++ (if JS.ltb (JS.Fin 10000) amount
        then ["Amount cannot exceed $10,000"] else [])
    ++ (if JS.ltb (JS.Fin 0) amount
        then [] else ["Amount must be greater than $0.00"]).

(** The two refinements of the schema on [fundingSource]. *)
Definition fundingSourceIssues (fs : FundingSource.t) : list string :=
  (match FundingSource.type fs with
   | bank =>
       if routingNumberMissing (FundingSource.routingNumber fs)
       then ["Routing number is required for bank transfers"] else []
   | card => []
   end)
  ++ (match FundingSource.type fs, FundingSource.routingNumber fs with
      | bank, Some r =>
          if (String.length r =? 0)%nat then []
          else if nineDigits r then []
          else ["Routing number must be exactly 9 digits"]
      | _, _ => []
      end).

Definition inputIssues (input : FundInput) : list string :=
  amountIssues (amount input) ++ fundingSourceIssues (fundingSource input).

(** What [validateCardNumber] of [lib/card-validation] answers. *)
Record CardValidation : Type := {
  valid : bool;
  errors : list string
}.

Section WithCardValidation.

(** The handlers are embedded over any card validator: nothing below
    depends on which card numbers it accepts. *)
Variable validateCardNumber : string -> CardValidation.

(** The body of the mutation, from its first statement to the ownership
    query: the handler's own checks of the amount. *)
Definition checkAmount (amount : JS.number) : option TRPCError :=
  if JS.leb amount (JS.Fin 0) || JS.isNaN amount
  then Some {| code := BAD_REQUEST;
               message := "Amount must be greater than $0.00" |}
  else if JS.ltb amount (JS.Fin (1 # 100))
  then Some {| code := BAD_REQUEST;
               message := "Amount must be at least $0.01" |}
  else None.

(** The checks of the funding source made by the body of the mutation. *)
Definition checkFundingSource (fs : FundingSource.t) : option TRPCError :=
  match FundingSource.type fs with
  | card =>
      let cardValidation :=
        validateCardNumber (FundingSource.accountNumber fs) in
      if negb (valid cardValidation)
      then Some {| code := BAD_REQUEST;
                   message := String.concat ". " (errors cardValidation) |}
      else None
  | bank =>
      if routingNumberMissing (FundingSource.routingNumber fs)
      then Some {| code := BAD_REQUEST;
                   message := "Routing number is required for bank transfers" |}
      else
        match FundingSource.routingNumber fs with
        | Some r =>
            if negb (nineDigits r)
            then Some {| code := BAD_REQUEST;
                         message := "Routing number must be exactly 9 digits" |}
            else None
        | None => None
        end
  end.

(** [fundAccount] up to the [await] of the ownership query: the input
    schema, then the mutation's checks of the amount, then the query. *)
Definition fundAccount_begin (ctx : Ctx) (input : FundInput) (s : Store)
    : result FundResult + option Account.t :=
  match inputIssues input with
  | (_ :: _) as issues => inl (invalidInput issues)
  | [] =>
      let amount := JS.parseFloat_toString (amount input) in
      match checkAmount amount with
      | Some e => inl (Err e)
      | None =>
          inr (getAccount (byIdAndUser (accountId input) (user_id ctx)) s)
      end
  end.

(** [fundAccount] from that [await] on. *)
Definition fundAccount_resume (engine : Engine) (clock : Clock)
    (input : FundInput) (account : option Account.t) (s : Store)
    : result FundResult * Store :=
  let amount := JS.parseFloat_toString (amount input) in
  match account with
  | None => (throw NOT_FOUND "Account not found", s)
  | Some account =>
      if negb (String.eqb (Account.status account) "active")
      then (throw BAD_REQUEST "Account is not active", s)
      else
        match checkFundingSource (fundingSource input) with
        | Some e => (Err e, s)
        | None => runFunding engine clock input amount account s
        end
  end.

(** [fundAccount].  [between] is what happens to the database while the
    handler is suspended. *)
Definition fundAccount_with (between : Store -> Store) (engine : Engine)
    (clock : Clock) (ctx : Ctx) (input : FundInput) (s : Store)
    : result FundResult * Store :=
  match fundAccount_begin ctx input s with
  | inl r => (r, s)
  | inr account => fundAccount_resume engine clock input account (between s)
  end.

(** The mutation alone, as a caller that goes round the input schema
    reaches it. *)
Definition fundAccount_mutation (engine : Engine) (clock : Clock)
    (ctx : Ctx) (input : FundInput) (s : Store) : result FundResult * Store :=
  match checkAmount (JS.parseFloat_toString (amount input)) with
  | Some e => (Err e, s)
  | None =>
      fundAccount_resume engine clock input
        (getAccount (byIdAndUser (accountId input) (user_id ctx)) s) s
  end.

Definition fundAccount := fundAccount_with quiet.

End WithCardValidation.

(** [getTransactions]: the rows are ordered by [created_at], most recent
    first, and carry the type of the account the ownership query read. *)
Definition getTransactions (ctx : Ctx) (input : TransactionsInput)
    (s : Store) : result (list Enriched) :=
  match getAccount (byIdAndUser (forAccountId input) (user_id ctx)) s with
  | None => throw NOT_FOUND "Account not found"
  | Some account =>
      let accountTransactions :=
        orderByCreatedAtDesc (transactionsOf (forAccountId input) s) in
      Ok (map
            (fun transaction =>
               {| row := transaction;
                  enrichedAccountType := Some (Account.accountType account) |})
            accountTransactions)
  end.

(** [getAccounts]: the rows of [accounts] that belong to the caller, in
    scan order. *)
Definition getAccounts (ctx : Ctx) (s : Store) : list Account.t :=
  filter (fun a => Z.eqb (Account.userId a) (user_id ctx)) (accounts s).

End Part002.

(** ** Vocabulary of the properties, and the inputs they are tried on *)

Import Db TRPC Router.

(** [k] characters 0 *)
Fixpoint zeros (k : nat) : string :=
  match k with
  | O => EmptyString
  | S k' => String "0" (zeros k')
  end.

(** An account number of exactly 10 decimal digits that denotes a number
    below 10^9 and begins with the character 0. *)
Definition tenDigitsLeadingZero (s : string) : Prop :=
  String.length s = 10%nat
  /\ JS.allDigits s = true
  /\ (JS.decimalValue s < 1000000000)%N
  /\ JS.firstChar s = Some "0"%char.

Definition clock0 : Clock :=
  {| isoNow := "2024-05-01T10:00:00.000Z";
     currentTimestamp := "2024-05-01 10:00:00" |}.

Definition alice : Ctx := {| user_id := 1 |}.

Definition bob : Ctx := {| user_id := 2 |}.

(** Alice's checking account: number 0000000007, balance 50. *)
Definition account1 : Account.t :=
  {| Account.id := 1;
     Account.userId := 1;
     Account.accountNumber := "0000000007";
     Account.accountType := checking;
     Account.balance := JS.Fin 50;
     Account.status := "active";
     Account.createdAt := "2024-04-30 09:00:00" |}.

Definition store1 : Store :=
  {| accounts := [account1]; transactions := [] |}.

Definition emptyStore : Store :=
  {| accounts := []; transactions := [] |}.

(** Every row of [accounts] is deleted while the handler is suspended. *)
Definition accountsDeleted (s : Store) : Store :=
  {| accounts := []; transactions := transactions s |}.

(** A value [Math.random()] can return: a binary64 number from 0 up to but
    not including 1. *)
Definition randomNumber (r : Q) : Prop :=
  exists m e,
    0 <= m < 2 ^ 53 /\ -1074 <= e /\ r = JS.double m e /\ (r < 1)%Q.

(** A random source that returns the same value at every draw, the
    binary64 number 7e-9: the one from which [generateAccountNumber] makes
    0000000007. *)
Definition sevenForEver : nat -> Q :=
  fun _ => JS.double 8462480737302404 (-80).

Definition sevenBytesForEver : nat -> byte * byte * byte * byte :=
  fun _ => (x00, x00, x00, x07).

Definition openSavings : CreateInput := {| accountType := savings |}.

Definition fromBank (amount : JS.number) : FundInput :=
  {| accountId := 1;
     amount := amount;
     fundingSource :=
       {| FundingSource.type := bank;
          FundingSource.accountNumber := "12345678";
          FundingSource.routingNumber := Some "021000021" |} |}.

(** A card validator that accepts nothing. *)
Definition noCard (n : string) : Part002.CardValidation :=
  {| Part002.valid := false; Part002.errors := ["Invalid card number"] |}.

(** The funding request [input] is fully applied between [s] and [s']: one
    transaction row more, a completed deposit of the amount on the
    account; the balance of the account is the binary64 sum of its balance
    in [s] and the amount; nothing else differs. *)
Definition fullyApplied (input : FundInput) (s s' : Store) : Prop :=
  (exists t,
      transactions s' = (transactions s ++ [t])%list
      /\ Transaction.accountId t = accountId input
      /\ Transaction.amount t = amount input
      /\ Transaction.type t = "deposit"
      /\ Transaction.status t = "completed")
  /\ accounts s'
     = map (fun a => if byId (accountId input) a
                     then credit (amount input) a else a)
         (accounts s)
  /\ (exists b,
         getBalance (accountId input) s = Some b
         /\ getBalance (accountId input) s' = Some (JS.add b (amount input))).

(** A call either succeeds and is fully applied, or fails and leaves both
    tables as they were. *)
Definition allOrNothing (input : FundInput) (s : Store)
    (call : result FundResult * Store) : Prop :=
  (exists r, fst call = Ok r /\ fullyApplied input s (snd call))
  \/ (exists e, fst call = Err e /\ snd call = s).

(** The sum of [x] and [y] as real numbers, of which [JS.add x y] is the
    rounding. *)
Definition realSum (x y : JS.number) : JS.number :=
  match x, y with
  | JS.Fin a, JS.Fin b => JS.Fin (a + b)%Q
  | _, _ => JS.add x y
  end.

(** Between [s] and [s'] the balance of the account has gone up by the
    amount of [input], no more and no less. *)
Definition raisedByExactly (input : FundInput) (s s' : Store) : Prop :=
  exists b b',
    getBalance (accountId input) s = Some b
    /\ getBalance (accountId input) s' = Some b'
    /\ JS.same b' (realSum b (amount input)).

(** A call either succeeds with one transaction row more and the balance
    raised by exactly the amount, or fails and leaves both tables as they
    were. *)
Definition allOrNothingExactly (input : FundInput) (s : Store)
    (call : result FundResult * Store) : Prop :=
  (exists r,
      fst call = Ok r
      /\ List.length (transactions (snd call))
         = S (List.length (transactions s))
      /\ raisedByExactly input s (snd call))
  \/ (exists e, fst call = Err e /\ snd call = s).

(** Alice's checking account with a balance of 10^16, and a store that
    holds it. *)
Definition richAccount : Account.t :=
  {| Account.id := 1;
     Account.userId := 1;
     Account.accountNumber := "0000000007";
     Account.accountType := checking;
     Account.balance := JS.Fin 10000000000000000;
     Account.status := "active";
     Account.createdAt := "2024-04-30 09:00:00" |}.

Definition richStore : Store :=
  {| accounts := [richAccount]; transactions := [] |}.

(** An amount that is strictly positive and finite. *)
Definition strictlyPositiveFinite (a : JS.number) : bool :=
  JS.ltb (JS.Fin 0) a && JS.isFinite a.

(** No row of [accounts] has the id [i]. *)
Definition noSuchAccount (i : Z) (s : Store) : Prop :=
  forall a, In a (accounts s) -> Account.id a <> i.

(** Some row of [accounts] has the id [i], and every such row belongs to
    a user other than [u]. *)
Definition ownedByOthers (i u : Z) (s : Store) : Prop :=
  (exists a, In a (accounts s) /\ Account.id a = i)
  /\ forall a, In a (accounts s) -> Account.id a = i -> Account.userId a <> u.

(** Bob's savings account, with the id of Alice's checking account in
    [store1]. *)
Definition account1OfBob : Account.t :=
  {| Account.id := 1;
     Account.userId := 2;
     Account.accountNumber := "0000000009";
     Account.accountType := savings;
     Account.balance := JS.Fin 10;
     Account.status := "active";
     Account.createdAt := "2024-04-30 09:30:00" |}.

Definition storeOfBob : Store :=
  {| accounts := [account1OfBob]; transactions := [] |}.

(** [l] is ordered by [created_at], most recent first. *)
Definition mostRecentFirst (l : list Transaction.t) : Prop :=
  Sorted
    (fun t u =>
       String.leb (Transaction.createdAt u) (Transaction.createdAt t) = true)
    l.

Definition deposit (i : Z) (amt : JS.number) (created : string)
    : Transaction.t :=
  {| Transaction.id := i;
     Transaction.accountId := 1;
     Transaction.type := "deposit";
     Transaction.amount := amt;
     Transaction.description := "Funding from bank";
     Transaction.status := "completed";
     Transaction.createdAt := created;
     Transaction.processedAt := created |}.

(** Alice's account with a deposit of 1 May and a deposit of 2 May. *)
Definition store2 : Store :=
  {| accounts := [account1];
     transactions :=
       [ deposit 1 (JS.Fin 20) "2024-05-01 10:00:00";
         deposit 2 (JS.Fin 30) "2024-05-02 10:00:00" ] |}.

Definition history : TransactionsInput := {| forAccountId := 1 |}.

(** One call of [fundAccount] with what it reads from its surroundings. *)
Record FundCall : Type := {
  callEngine : Engine;
  callClock : Clock;
  callCtx : Ctx;
  callInput : FundInput
}.

(** The calls [calls] made one after the other from [s], each of them
    successful; [None] when one of them fails. *)
Fixpoint fundEach
    (fund : Engine -> Clock -> Ctx -> FundInput -> Store
            -> result FundResult * Store)
    (calls : list FundCall) (s : Store) : option Store :=
  match calls with
  | [] => Some s
  | c :: rest =>
      match fund (callEngine c) (callClock c) (callCtx c) (callInput c) s with
      | (Ok _, s') => fundEach fund rest s'
      | (Err _, _) => None
      end
  end.

Definition amounts (calls : list FundCall) : list JS.number :=
  map (fun c => amount (callInput c)) calls.

(** [((0 + a1) + a2) + ... + aN]: the amounts added one after the other,
    every sum rounded to binary64. *)
Definition total (l : list JS.number) : JS.number :=
  fold_left JS.add l JS.zero.

(** [a1 + ... + aN] as real numbers *)
Definition realTotal (l : list JS.number) : JS.number :=
  fold_left realSum l JS.zero.

(** Every transaction row refers to a row of [accounts]. *)
Definition referencesHold (s : Store) : Prop :=
  forall t,
    In t (transactions s) ->
    exists a, In a (accounts s) /\ Account.id a = Transaction.accountId t.

(** After the calls [calls] the balance of [account] is what adding their
    amounts one after the other gives, and [getTransactions] answers its
    owner with as many rows as there were calls, whose amounts are the
    amounts of the calls, in some order. *)
Definition conserved
    (getTransactions : Ctx -> TransactionsInput -> Store
                       -> result (list Enriched))
    (owner : Ctx) (account : Account.t) (calls : list FundCall) (s : Store)
    : Prop :=
  getBalance (Account.id account) s = Some (total (amounts calls))
  /\ exists rows,
      getTransactions owner {| forAccountId := Account.id account |} s
      = Ok rows
      /\ List.length rows = List.length calls
      /\ Permutation (map (fun r => Transaction.amount (row r)) rows)
           (amounts calls).

(** The same with real numbers: the balance is the sum of the amounts, and
    the amounts of the rows have that sum. *)
Definition conservedExactly
    (getTransactions : Ctx -> TransactionsInput -> Store
                       -> result (list Enriched))
    (owner : Ctx) (account : Account.t) (calls : list FundCall) (s : Store)
    : Prop :=
  (exists b,
      getBalance (Account.id account) s = Some b
      /\ JS.same b (realTotal (amounts calls)))
  /\ exists rows,
      getTransactions owner {| forAccountId := Account.id account |} s
      = Ok rows
      /\ List.length rows = List.length calls
      /\ JS.same
           (realTotal (map (fun r => Transaction.amount (row r)) rows))
           (realTotal (amounts calls)).

(** Alice funds her account: [amount] from a bank account, with an engine
    that works. *)
Definition aliceFunds (i : Z) (amount : JS.number) : FundCall :=
  {| callEngine := reliable;
     callClock := clock0;
     callCtx := alice;
     callInput :=
       {| accountId := i;
          amount := amount;
          fundingSource :=
            {| FundingSource.type := bank;
               FundingSource.accountNumber := "12345678";
               FundingSource.routingNumber := Some "021000021" |} |} |}.

(** The account [i] of user [u] has the balance [b], and the amounts of
    its transactions, in the order of the table, are [amts]. *)
Definition ledger (i u : Z) (b : JS.number) (amts : list JS.number)
    (s : Store) : Prop :=
  (exists acc,
      filter (byId i) (accounts s) = [acc]
      /\ Account.userId acc = u
      /\ Account.status acc = "active"
      /\ Account.balance acc = b)
  /\ map Transaction.amount (transactionsOf i s) = amts.

Definition openChecking : CreateInput := {| accountType := checking |}.

(** The account [createAccount] opens for Alice in the empty store. *)
Definition aliceChecking : Account.t :=
  {| Account.id := 1;
     Account.userId := 1;
     Account.accountNumber := "0000000007";
     Account.accountType := checking;
     Account.balance := JS.Fin 0;
     Account.status := "active";
     Account.createdAt := "2024-05-01 10:00:00" |}.

Definition storeOpened : Store :=
  {| accounts := [aliceChecking]; transactions := [] |}.

Definition twoFundings : list FundCall :=
  [aliceFunds 1 (JS.Fin 100); aliceFunds 1 (JS.Fin 50)].

(** The store after the two fundings. *)
Definition storeFunded : Store :=
  Eval vm_compute in
    match fundEach AccountTs.fundAccount twoFundings storeOpened with
    | Some s => s
    | None => storeOpened
    end.

(** The binary64 numbers 0.1, 0.2 and 0.3 *)
Definition tenth : Q := JS.double 3602879701896397 (-55).

Definition fifth : Q := JS.double 3602879701896397 (-54).

Definition threeTenths : Q := JS.double 5404319552844595 (-54).

(** The largest binary64 number, (2^53 - 1) * 2^971 *)
Definition largest : Q := JS.double 9007199254740991 971.

(** The number a float of the Standard Library's [SpecFloat] stands for. *)
Definition ofSpecFloat (x : spec_float) : JS.number :=
  match x with
  | S754_zero _ => JS.Fin 0
  | S754_infinity false => JS.PosInf
  | S754_infinity true => JS.NegInf
  | S754_nan => JS.NaN
  | S754_finite sign m e =>
      JS.Fin (Qred (JS.double (if sign then Z.neg m else Z.pos m) e))
  end.

(** [JS.add] and [JS.mul] give what [SFadd] and [SFmul] give at the
    precision and the exponent range of binary64. *)
Definition asSpecFloat (x y : spec_float) : bool :=
  let same (a b : JS.number) :=
    match a, b with
    | JS.Fin p, JS.Fin q => Qeq_bool p q
    | JS.PosInf, JS.PosInf | JS.NegInf, JS.NegInf | JS.NaN, JS.NaN => true
    | _, _ => false
    end in
  same (JS.add (ofSpecFloat x) (ofSpecFloat y))
    (ofSpecFloat (SFadd 53 1024 x y))
  && same (JS.mul (ofSpecFloat x) (ofSpecFloat y))
       (ofSpecFloat (SFmul 53 1024 x y)).

(** Floats to try the two on: 0.1, 0.2, -0.3, 1, 10^16, 10^9, 7e-9, the
    largest and the smallest positive binary64 number, an infinity. *)
Definition floatsTried : list spec_float :=
  [ S754_finite false 7205759403792794 (-56);
    S754_finite false 7205759403792794 (-55);
    S754_finite true 5404319552844595 (-54);
    S754_finite false 4503599627370496 (-52);
    S754_finite false 5000000000000000 1;
    S754_finite false 8388608000000000 (-23);
    S754_finite false 8462480737302404 (-80);
    S754_finite false 9007199254740991 971;
    S754_finite false 1 (-1074);
    S754_infinity false ].

Definition threeFundings : list FundCall :=
  [ aliceFunds 1 (JS.Fin tenth); aliceFunds 1 (JS.Fin fifth);
    aliceFunds 1 (JS.Fin threeTenths) ].

(** The store after the first of them: the balance is 0.1. *)
Definition storeFundedOnce : Store :=
  Eval vm_compute in
    match fundEach AccountTs.fundAccount [aliceFunds 1 (JS.Fin tenth)]
            storeOpened with
    | Some s => s
    | None => storeOpened
    end.

(** The store after the three fundings. *)
Definition storeFundedThrice : Store :=
  Eval vm_compute in
    match fundEach AccountTs.fundAccount threeFundings storeOpened with
    | Some s => s
    | None => storeOpened
    end.

(** *** Calls of [fundAccount] in flight at the same time

    A handler runs without interruption up to its [await] and from its
    [await] to its end (the funding transaction is synchronous); between
    the two, other handlers run.  A call is [Waiting] before it starts,
    [Suspended] at the [await] with the row the ownership query read, and
    [Finished] with its answer. *)
Inductive Progress : Type :=
| Waiting
| Suspended (account : option Account.t)
| Finished (r : result FundResult).

Record Handler : Type := {
  begin : Ctx -> FundInput -> Store -> result FundResult + option Account.t;
  resume : Engine -> Clock -> FundInput -> option Account.t -> Store
           -> result FundResult * Store
}.

Definition AccountTs_fundAccount : Handler :=
  {| begin := AccountTs.fundAccount_begin;
     resume := AccountTs.fundAccount_resume |}.

Definition Part002_fundAccount
    (validateCardNumber : string -> Part002.CardValidation) : Handler :=
  {| begin := Part002.fundAccount_begin;
     resume := Part002.fundAccount_resume validateCardNumber |}.

(** The call [c] runs its next stretch on the store [s]. *)
Definition advance (h : Handler) (c : FundCall) (p : Progress) (s : Store)
    : Progress * Store :=
  match p with
  | Waiting =>
      match begin h (callCtx c) (callInput c) s with
      | inl r => (Finished r, s)
      | inr account => (Suspended account, s)
      end
  | Suspended account =>
      let '(r, s') :=
        resume h (callEngine c) (callClock c) (callInput c) account s in
      (Finished r, s')
  | Finished r => (Finished r, s)
  end.

(** The [k]-th call runs its next stretch. *)
Fixpoint stepAt (h : Handler) (calls : list FundCall) (k : nat)
    (ps : list Progress) (s : Store) : list Progress * Store :=
  match calls, ps with
  | c :: calls', p :: ps' =>
      match k with
      | O => let '(p', s') := advance h c p s in (p' :: ps', s')
      | S k' =>
          let '(ps'', s') := stepAt h calls' k' ps' s in (p :: ps'', s')
      end
  | _, _ => (ps, s)
  end.

(** An interleaving is the list of the calls that run, stretch after
    stretch. *)
Fixpoint run (h : Handler) (calls : list FundCall) (schedule : list nat)
    (ps : list Progress) (s : Store) : list Progress * Store :=
  match schedule with
  | [] => (ps, s)
  | k :: rest =>
      let '(ps', s') := stepAt h calls k ps s in run h calls rest ps' s'
  end.

Definition isFinished (p : Progress) : bool :=
  match p with Finished _ => true | _ => false end.

Definition succeeded (p : Progress) : Prop :=
  exists r, p = Finished (Ok r).

(** A call of amount [q] on the account [i] by its owner, with an engine
    that works, that the validation of the revision accepts. *)
Definition goodCall_AccountTs (owner : Ctx) (i : Z) (q : Q) (c : FundCall)
    : Prop :=
  callEngine c = reliable
  /\ callCtx c = owner
  /\ accountId (callInput c) = i
  /\ amount (callInput c) = JS.Fin q
  /\ AccountTs.amountIssues (JS.Fin q) = [].

Definition goodCall_Part002
    (validateCardNumber : string -> Part002.CardValidation)
    (owner : Ctx) (i : Z) (q : Q) (c : FundCall) : Prop :=
  callEngine c = reliable
  /\ callCtx c = owner
  /\ accountId (callInput c) = i
  /\ amount (callInput c) = JS.Fin q
  /\ Part002.inputIssues (callInput c) = []
  /\ Part002.checkFundingSource validateCardNumber
       (fundingSource (callInput c)) = None.

(** [m] payments of [q] *)
Definition paid (q : Q) (m : nat) : list JS.number :=
  repeat (JS.Fin q) m.

(** Every one of the [K] calls of amount [q] is counted: the balance of
    the account [i] is [q] added [K] times, every sum rounded to binary64,
    the account has [K] transaction rows, and every call has succeeded. *)
Definition allCounted (i : Z) (q : Q) (K : nat) (ps : list Progress)
    (s : Store) : Prop :=
  getBalance i s = Some (total (paid q K))
  /\ List.length (transactionsOf i s) = K
  /\ Forall succeeded ps.

(** The same with the balance [K] times [q]. *)
Definition allCountedExactly (i : Z) (q : Q) (K : nat) (ps : list Progress)
    (s : Store) : Prop :=
  (exists b,
      getBalance i s = Some b
      /\ JS.same b (JS.Fin (inject_Z (Z.of_nat K) * q)))
  /\ List.length (transactionsOf i s) = K
  /\ Forall succeeded ps.

Definition twoAtOnce : list FundCall :=
  [aliceFunds 1 (JS.Fin 100); aliceFunds 1 (JS.Fin 100)].

(** Ten calls of 0.1 in flight at the same time: the ten run up to their
    [await], then the ten go on. *)
Definition tenAtOnce : list FundCall :=
  repeat (aliceFunds 1 (JS.Fin tenth)) 10.

Definition tenBeginTenResume : list nat :=
  (seq 0 10 ++ seq 0 10)%list.

Definition afterTenAtOnce : list Progress * Store :=
  Eval vm_compute in
    run AccountTs_fundAccount tenAtOnce tenBeginTenResume
      (repeat Waiting 10) storeOpened.

(** How many of the calls have finished. *)
Definition finished (ps : list Progress) : nat :=
  List.length (filter isFinished ps).

(** What a call in flight holds while good calls on an active account
    interleave: nothing yet, the active account it read, or its answer,
    a success. *)
Definition sound (p : Progress) : Prop :=
  p = Waiting
  \/ (exists acc, p = Suspended (Some acc) /\ Account.status acc = "active")
  \/ succeeded p.

(** The calls that have finished, and no others, are in the store. *)
Definition counted (i u : Z) (q : Q) (ps : list Progress) (s : Store) : Prop :=
  Forall sound ps
  /\ ledger i u (total (paid q (finished ps))) (paid q (finished ps)) s.


(** ** [lib/card-validation.ts]

    The characters of a card number are taken to be ASCII: the class
    [\s] is the white space [JS.isSpace] knows. *)

Module CardValidation.

Inductive CardType : Type :=
| visa
| mastercard
| amex
| discover
| diners
| jcb
| unknown.

Definition CardType_eqb (x y : CardType) : bool :=
  match x, y with
  | visa, visa | mastercard, mastercard | amex, amex
  | discover, discover | diners, diners | jcb, jcb
  | unknown, unknown => true
  | _, _ => false
  end.

Definition CardType_name (t : CardType) : string :=
  match t with
  | visa => "visa"
  | mastercard => "mastercard"
  | amex => "amex"
  | discover => "discover"
  | diners => "diners"
  | jcb => "jcb"
  | unknown => "unknown"
  end.

Record CardValidationResult : Type := {
  valid : bool;
  cardType : CardType;
  errors : list string
}.

Record CardTypeInfo : Type := {
  type : CardType;
  prefixes : list string;
  lengths : list nat
}.

Definition CARD_TYPES : list CardTypeInfo :=
  [ {| type := visa;
       prefixes := ["4"];
       lengths := [13; 16]%nat |};
    {| type := mastercard;
       prefixes :=
         ["51"; "52"; "53"; "54"; "55"; "2221"; "2222"; "2223"; "2224";
          "2225"; "2226"; "2227"; "2228"; "2229"; "223"; "224"; "225"; "226";
          "227"; "228"; "229"; "23"; "24"; "25"; "26"; "270"; "271"; "2720"];
       lengths := [16]%nat |};
    {| type := amex;
       prefixes := ["34"; "37"];
       lengths := [15]%nat |};
    {| type := discover;
       prefixes :=
         ["6011"; "622126"; "622127"; "622128"; "622129"; "62213"; "62214";
          "62215"; "62216"; "62217"; "62218"; "62219"; "6222"; "6223"; "6224";
          "6225"; "6226"; "6227"; "6228"; "62290"; "62291"; "622920";
          "622921"; "622922"; "622923"; "622924"; "622925"; "644"; "645";
          "646"; "647"; "648"; "649"; "65"];
       lengths := [16; 19]%nat |};
    {| type := diners;
       prefixes := ["300"; "301"; "302"; "303"; "304"; "305"; "36"; "38"];
       lengths := [14]%nat |};
    {| type := jcb;
       prefixes := ["35"];
       lengths := [16]%nat |} ].

(** [[\s-]]: a character that [replace(/[\s-]/g, "")] removes *)
Definition isSeparator (c : ascii) : bool :=
  JS.isSpace c || Ascii.eqb c "-".

(** [cardNumber.replace(/[\s-]/g, "")] *)
Fixpoint clean (s : string) : string :=
  match s with
  | EmptyString => EmptyString
  | String c rest =>
      if isSeparator c then clean rest else String c (clean rest)
  end.

(** [/^\d+$/.test(s)] *)
Definition onlyDigits (s : string) : bool :=
  match s with
  | EmptyString => false
  | String _ _ => JS.allDigits s
  end.

(** [s.startsWith(p)] *)
Fixpoint startsWith (p s : string) : bool :=
  match p, s with
  | EmptyString, _ => true
  | String a p', String b s' => Ascii.eqb a b && startsWith p' s'
  | String _ _, EmptyString => false
  end.

(** [lengths.includes(n)] *)
Definition includes (lengths : list nat) (n : nat) : bool :=
  existsb (Nat.eqb n) lengths.

(** The inner loop of [detectCardType], over the prefixes of one card
    type: [true] when the loop returns the type. *)
Fixpoint detectInPrefixes (cardType : CardTypeInfo) (prefixes : list string)
    (cleaned : string) : bool :=
  match prefixes with
  | [] => false
  | prefix :: rest =>
      if startsWith prefix cleaned
         && includes (lengths cardType) (String.length cleaned)
      then true
      else detectInPrefixes cardType rest cleaned
  end.

(** The outer loop of [detectCardType], over the card types. *)
Fixpoint detectInTypes (types : list CardTypeInfo) (cleaned : string)
    : CardType :=
  match types with
  | [] => unknown
  | cardType :: rest =>
      if detectInPrefixes cardType (prefixes cardType) cleaned
      then type cardType
      else detectInTypes rest cleaned
  end.

Definition detectCardType (cardNumber : string) : CardType :=
  let cleaned := clean cardNumber in
  if negb (onlyDigits cleaned) then unknown
  else detectInTypes CARD_TYPES cleaned.

(** [parseInt(c, 10)] for a digit [c] *)
Definition digitValue (c : ascii) : Z :=
  Z.of_N (N_of_ascii c) - 48.

(** One turn of the loop of [validateLuhn]: what the digit adds to the
    sum. *)
Definition luhnDigit (isEven : bool) (digit : Z) : Z :=
  if isEven
  then (let doubled := digit * 2 in
        if doubled >? 9 then doubled - 9 else doubled)
  else digit.

(** The loop of [validateLuhn]; [fromRight] holds the characters still to
    be read, rightmost first. *)
Fixpoint luhnLoop (fromRight : list ascii) (isEven : bool) (sum : Z) : Z :=
  match fromRight with
  | [] => sum
  | c :: rest =>
      luhnLoop rest (negb isEven) (sum + luhnDigit isEven (digitValue c))
  end.

Definition validateLuhn (cardNumber : string) : bool :=
  let cleaned := clean cardNumber in
  if negb (onlyDigits cleaned) then false
  else if (String.length cleaned <? 13)%nat then false
  else (luhnLoop (rev (list_ascii_of_string cleaned)) false 0 mod 10 =? 0)%Z.

(** [{ valid, error? }] *)
Record FormatCheck : Type := {
  formatValid : bool;
  error : option string
}.

Definition validateCardFormat (cardNumber : string) : FormatCheck :=
  let cleaned := clean cardNumber in
  if (String.length cleaned =? 0)%nat
  then {| formatValid := false; error := Some "Card number is required" |}
  else if negb (onlyDigits cleaned)
  then {| formatValid := false;
          error := Some "Card number must contain only digits" |}
  else if (String.length cleaned <? 13)%nat
  then {| formatValid := false; error := Some "Card number is too short" |}
  else if (19 <? String.length cleaned)%nat
  then {| formatValid := false; error := Some "Card number is too long" |}
  else {| formatValid := true; error := None |}.

(** [c.toUpperCase()] for an ASCII character *)
Definition toUpperCase (c : ascii) : ascii :=
  let n := N_of_ascii c in
  if ((97 <=? n) && (n <=? 122))%N then ascii_of_N (n - 32) else c.

(** [s.charAt(0).toUpperCase() + s.slice(1)] *)
Definition capitalize (s : string) : string :=
  match s with
  | EmptyString => EmptyString
  | String c rest => String (toUpperCase c) rest
  end.

(** [lengths.join(" or ")] *)
Definition joinLengths (lengths : list nat) : string :=
  String.concat " or " (map (fun n => JS.toString (N.of_nat n)) lengths).

(** The error pushed when the length does not fit the detected type. *)
Definition lengthError (cardType : CardType) (info : CardTypeInfo) : string :=
  capitalize (CardType_name cardType) ++ " cards must be "
  ++ joinLengths (lengths info) ++ " digits".

Definition validateCardNumber (cardNumber : string) : CardValidationResult :=
  let cleaned := clean cardNumber in
  let formatCheck := validateCardFormat cardNumber in
  if negb (formatValid formatCheck)
  then {| valid := false;
          cardType := unknown;
          errors :=
            [ match error formatCheck with
              | Some e => if (String.length e =? 0)%nat
                          then "Invalid card format" else e
              | None => "Invalid card format"
              end ] |}
  else
    let cardType := detectCardType cleaned in
    let errors1 :=
      if CardType_eqb cardType unknown
      then ["Card type not recognized. Supported: Visa, Mastercard, American Express, Discover, Diners Club, JCB"]
      else [] in
    let errors2 :=
      if negb (CardType_eqb cardType unknown)
      then
        match find (fun ct => CardType_eqb (type ct) cardType) CARD_TYPES with
        | Some cardTypeInfo =>
            if negb (includes (lengths cardTypeInfo) (String.length cleaned))
            then [lengthError cardType cardTypeInfo]
            else []
        | None => []
        end
      else [] in
    let errors3 :=
      if negb (validateLuhn cleaned)
      then ["Card number is invalid (failed Luhn algorithm check)"]
      else [] in
    let errors := (errors1 ++ errors2 ++ errors3)%list in
    {| valid := (List.length errors =? 0)%nat;
       cardType := cardType;
       errors := errors |}.

(** [cleaned.replace(/(.{4})/g, "$1 ")]: a space after every four
    characters, counted from the left. *)
Fixpoint group4 (s : string) : string :=
  match s with
  | String a (String b (String c (String d rest))) =>
      String a (String b (String c (String d (String " " (group4 rest)))))
  | _ => s
  end.

Definition formatCardNumber (cardNumber : string) : string :=
  let cleaned := clean cardNumber in
  JS.trim (group4 cleaned).

End CardValidation.

(** [fundAccount] of the later revision with the card validator of
    [lib/card-validation.ts], as the router imports it. *)
Definition validateCard (n : string) : Part002.CardValidation :=
  let r := CardValidation.validateCardNumber n in
  {| Part002.valid := CardValidation.valid r;
     Part002.errors := CardValidation.errors r |}.

(** ** Vocabulary of the further properties *)

Definition ownerAndType (a : Account.t) : Z * AccountType :=
  (Account.userId a, Account.accountType a).

(** The store keeps its keys: no two accounts share an id, an account
    number, or an owner and a type; no two transactions share an id; every
    transaction refers to an account. *)
Record consistent (s : Store) : Prop := {
  accountIdsDiffer : NoDup (map Account.id (accounts s));
  accountNumbersDiffer : NoDup (map Account.accountNumber (accounts s));
  onePerOwnerAndType : NoDup (map ownerAndType (accounts s));
  transactionIdsDiffer : NoDup (map Transaction.id (transactions s));
  transactionsRefer : referencesHold s
}.

(** The row [createAccount] inserts into [s] for the account number [n]. *)
Definition openedRow (ctx : Ctx) (input : CreateInput) (n : string)
    (clock : Clock) (s : Store) : Account.t :=
  {| Account.id := nextId (map Account.id (accounts s));
     Account.userId := user_id ctx;
     Account.accountNumber := n;
     Account.accountType := accountType input;
     Account.balance := JS.Fin 0;
     Account.status := "active";
     Account.createdAt := currentTimestamp clock |}.

(** What [createAccount] does when no one else touches the store: it
    turns the caller down because of an account of the same type, or it
    appends one row and answers with that row. *)
Definition opensOneAccount (ctx : Ctx) (input : CreateInput) (clock : Clock)
    (s : Store) (r : result Account.t) (s' : Store) : Prop :=
  (exists e,
      r = Err e /\ code e = CONFLICT /\ s' = s
      /\ getAccount (byUserAndType (user_id ctx) (accountType input)) s
         <> None)
  \/ (exists n,
         r = Ok (openedRow ctx input n clock s)
         /\ accounts s' = (accounts s ++ [openedRow ctx input n clock s])%list
         /\ transactions s' = transactions s
         /\ getAccount (byUserAndType (user_id ctx) (accountType input)) s
            = None
         /\ getAccount (byAccountNumber n) s = None).

(** Everything of an account that [fundAccount] has no business with. *)
Definition identity (a : Account.t)
    : Z * Z * string * AccountType * string * string :=
  (Account.id a, Account.userId a, Account.accountNumber a,
   Account.accountType a, Account.status a, Account.createdAt a).

(** The row [fundAccount] inserts into [s]. *)
Definition depositRow (clock : Clock) (input : FundInput) (s : Store)
    : Transaction.t :=
  {| Transaction.id := nextId (map Transaction.id (transactions s));
     Transaction.accountId := accountId input;
     Transaction.type := "deposit";
     Transaction.amount := amount input;
     Transaction.description :=
       "Funding from "
       ++ FundingType_name (FundingSource.type (fundingSource input));
     Transaction.status := "completed";
     Transaction.createdAt := currentTimestamp clock;
     Transaction.processedAt := isoNow clock |}.

(** The store [s] with that row. *)
Definition withDeposit (clock : Clock) (input : FundInput) (s : Store)
    : Store :=
  {| accounts := accounts s;
     transactions := (transactions s ++ [depositRow clock input s])%list |}.

(** A store with Alice's and Bob's accounts and one deposit. *)
Definition account2OfBob : Account.t :=
  {| Account.id := 2;
     Account.userId := 2;
     Account.accountNumber := "0000000009";
     Account.accountType := savings;
     Account.balance := JS.Fin 10;
     Account.status := "active";
     Account.createdAt := "2024-04-30 09:30:00" |}.

Definition store3 : Store :=
  {| accounts := [account1; account2OfBob];
     transactions := [deposit 1 (JS.Fin 50) "2024-04-30 10:00:00"] |}.

Definition withCard (number : string) (amount : JS.number) : FundInput :=
  {| accountId := 1;
     amount := amount;
     fundingSource :=
       {| FundingSource.type := card;
          FundingSource.accountNumber := number;
          FundingSource.routingNumber := None |} |}.

(** What a call of [fundAccount] does when no one else touches the store:
    it fails and changes nothing, or it credits the account, appends one
    deposit row and answers with that row. *)
Definition fundsOnce (clock : Clock) (ctx : Ctx) (input : FundInput)
    (s : Store) (r : result FundResult) (s' : Store) : Prop :=
  (exists e, r = Err e /\ s' = s)
  \/ (exists res account,
         r = Ok res
         /\ getAccount (byIdAndUser (accountId input) (user_id ctx)) s
            = Some account
         /\ Account.status account = "active"
         /\ accounts s'
            = map (fun a => if byId (accountId input) a
                            then credit (amount input) a else a)
                (accounts s)
         /\ transactions s'
            = (transactions s ++ [depositRow clock input s])%list
         /\ transaction res = Some (depositRow clock input s)).

(** A random source from which [generateAccountNumber] makes 0000000008 at
    every draw. *)
Definition eightBytesForEver : nat -> byte * byte * byte * byte :=
  fun _ => (x00, x00, x00, x08).

(** Between [s] and [s'] nothing of any account changed but balances, no
    account other than [i] changed its balance or its transactions, and
    the transaction table only grew, by one row at most. *)
Definition touchesOneBalance (i : Z) (s s' : Store) : Prop :=
  map identity (accounts s') = map identity (accounts s)
  /\ (forall j, j <> i ->
                getBalance j s' = getBalance j s
                /\ transactionsOf j s' = transactionsOf j s)
  /\ exists new,
      transactions s' = (transactions s ++ new)%list
      /\ (List.length new <= 1)%nat.

(** The number [cleaned] begins with one of the prefixes of the card type
    and has one of its lengths. *)
Definition fits (info : CardValidation.CardTypeInfo) (cleaned : string)
    : bool :=
  existsb (fun p => CardValidation.startsWith p cleaned)
    (CardValidation.prefixes info)
  && CardValidation.includes (CardValidation.lengths info)
       (String.length cleaned).

(** No prefix of [a] begins with a prefix of [b] or the other way round. *)
Definition apart (a b : CardValidation.CardTypeInfo) : bool :=
  forallb
    (fun p =>
       forallb
         (fun p' =>
            negb (CardValidation.startsWith p p')
            && negb (CardValidation.startsWith p' p))
         (CardValidation.prefixes b))
    (CardValidation.prefixes a).

(** The card types of a table are pairwise apart and have pairwise
    different names. *)
Fixpoint allApart (types : list CardValidation.CardTypeInfo) : bool :=
  match types with
  | [] => true
  | a :: rest =>
      forallb
        (fun b =>
           apart a b
           && negb (CardValidation.CardType_eqb (CardValidation.type a)
                      (CardValidation.type b)))
        rest
      && allApart rest
  end.

(** The messages of [validateCardNumber] other than the one about the
    length of the detected type. *)
Definition cardMessages : list string :=
  [ "Card number is required";
    "Card number must contain only digits";
    "Card number is too short";
    "Card number is too long";
    "Card type not recognized. Supported: Visa, Mastercard, American Express, Discover, Diners Club, JCB";
    "Card number is invalid (failed Luhn algorithm check)" ].

(** * Properties *)

(** ** The embedding on small inputs *)

Example toString_1234 : JS.toString 1234 = "1234".
Proof. reflexivity. Qed.

Example toString_0 : JS.toString 0 = "0".
Proof. reflexivity. Qed.

Example padStart_42 : JS.padStart 10 "0" "42" = "0000000042".
Proof. reflexivity. Qed.

Example padStart_long : JS.padStart 3 "0" "12345" = "12345".
Proof. reflexivity. Qed.

Example padStart_ab : JS.padStart 6 "ab" "x" = "ababax".
Proof. reflexivity. Qed.

Example trim_spaces : JS.trim "  021 000 " = "021 000".
Proof. reflexivity. Qed.

Example add_tenth_fifth :
  JS.add (JS.Fin tenth) (JS.Fin fifth)
  = JS.Fin (1351079888211149 # 4503599627370496)
  /\ realSum (JS.Fin tenth) (JS.Fin fifth)
     <> JS.Fin (1351079888211149 # 4503599627370496).
Proof. split; [vm_compute; reflexivity | vm_compute; discriminate]. Qed.

Example add_one_to_ten_to_the_16 :
  JS.add (JS.Fin 10000000000000000) (JS.Fin 1) = JS.Fin 10000000000000000.
Proof. vm_compute. reflexivity. Qed.

Example add_whole_numbers : JS.add (JS.Fin 50) (JS.Fin 25) = JS.Fin 75.
Proof. vm_compute. reflexivity. Qed.

Example add_overflows : JS.add (JS.Fin largest) (JS.Fin largest) = JS.PosInf.
Proof. vm_compute. reflexivity. Qed.

Example add_mul_as_SpecFloat :
  forallb (fun x => forallb (asSpecFloat x) floatsTried) floatsTried = true.
Proof. vm_compute. reflexivity. Qed.

Example generateAccountNumber_half :
  AccountTs.generateAccountNumber (1 # 2) = "0500000000".
Proof. vm_compute. reflexivity. Qed.

Example generateAccountNumber_7e_9 :
  AccountTs.generateAccountNumber (JS.double 8462480737302404 (-80))
  = "0000000007"
  /\ JS.floor (JS.double 8462480737302404 (-80) * 1000000000)%Q = 6.
Proof. split; vm_compute; reflexivity. Qed.

Example generateAccountNumber_last :
  AccountTs.generateAccountNumber (JS.double 9007199254740991 (-53))
  = "0999999999".
Proof. vm_compute. reflexivity. Qed.

Example generateAccountNumber_ff :
  Part002.generateAccountNumber (xff, xff, xff, xff) = "0294967295".
Proof. reflexivity. Qed.

Example nineDigits_yes : Part002.nineDigits "021000021" = true.
Proof. reflexivity. Qed.

Example nineDigits_no : Part002.nineDigits "02100002a" = false.
Proof. reflexivity. Qed.

Example amount_of_a_cent :
  Part002.amountIssues (JS.Fin (1 # 100)) = []
  /\ Part002.amountIssues (JS.Fin (1 # 1000))
     = ["Amount must be at least $0.01"]
  /\ Part002.amountIssues (JS.Fin 0)
     = ["Amount must be greater than $0.00"; "Amount must be at least $0.01";
        "Amount must be greater than $0.00"]
  /\ Part002.amountIssues JS.PosInf = ["Amount cannot exceed $10,000"].
Proof. repeat split. Qed.

Example fund_25 :
  exists r s',
    AccountTs.fundAccount reliable clock0 alice (fromBank (JS.Fin 25)) store1
    = (Ok r, s')
    /\ newBalance r = JS.Fin 75
    /\ getBalance 1 s' = Some (JS.Fin 75)
    /\ map Transaction.amount (transactions s') = [JS.Fin 25].
Proof. eexists. eexists. vm_compute. repeat split. Qed.

Example fund_25_update_throws :
  AccountTs.fundAccount
    {| insertThrows := false; updateThrows := true;
       selectTransactionThrows := false; selectBalanceThrows := false;
       commitThrows := false |}
    clock0 alice (fromBank (JS.Fin 25)) store1
  = (uncaught "SQLITE_ERROR: update", store1).
Proof. reflexivity. Qed.

Example fund_by_bob :
  AccountTs.fundAccount reliable clock0 bob (fromBank (JS.Fin 25)) store1
  = (throw NOT_FOUND "Account not found", store1).
Proof. reflexivity. Qed.

Example orderBy_ties_later_row_first :
  map Transaction.id
    (orderByCreatedAtDesc
       [ deposit 1 (JS.Fin 1) "2024-05-01 10:00:00";
         deposit 2 (JS.Fin 1) "2024-05-02 10:00:00";
         deposit 3 (JS.Fin 1) "2024-05-01 10:00:00";
         deposit 4 (JS.Fin 1) "2024-05-02 10:00:00" ])
  = [4; 2; 3; 1].
Proof. reflexivity. Qed.

(** ** Account numbers *)

Section AccountNumbers.
Import JS.

Lemma N_of_digit (d : N) : (d < 10)%N -> N_of_ascii (digit d) = (48 + d)%N.
Proof.
  intros Hd. unfold digit. apply N_ascii_embedding. lia.
Qed.

Lemma isDigit_digit (d : N) : (d < 10)%N -> isDigit (digit d) = true.
Proof.
  intros Hd. unfold isDigit. rewrite (N_of_digit Hd).
  apply andb_true_intro; split; apply N.leb_le; lia.
Qed.

Lemma allDigits_digits (fuel : nat) :
  forall n acc, allDigits acc = true -> allDigits (digits fuel n acc) = true.
Proof.
  induction fuel as [|fuel IH]; intros n acc Hacc; simpl; [exact Hacc|].
  assert (Hd : allDigits (String (digit (n mod 10)) acc) = true).
  { simpl. rewrite isDigit_digit, Hacc; [reflexivity|].
    apply N.mod_lt; discriminate. }
  destruct (n / 10 =? 0)%N; [exact Hd | apply IH; exact Hd].
Qed.

Lemma length_digits (fuel : nat) :
  forall (k : nat) n acc,
    (n < 10 ^ N.of_nat (S k))%N ->
    (String.length (digits fuel n acc) <= S k + String.length acc)%nat.
Proof.
  induction fuel as [|fuel IH]; intros k n acc Hn; simpl; [lia|].
  destruct (N.eqb_spec (n / 10) 0) as [Hz|Hnz]; simpl; [lia|].
  destruct k as [|k].
  - exfalso. apply Hnz. apply N.div_small. exact Hn.
  - specialize (IH k (n / 10)%N (String (digit (n mod 10)) acc)).
    simpl in IH. cut (n / 10 < 10 ^ N.of_nat (S k))%N.
    { intros H. specialize (IH H). lia. }
    apply N.Div0.div_lt_upper_bound.
    replace (N.of_nat (S (S k))) with (N.succ (N.of_nat (S k))) in Hn by lia.
    rewrite N.pow_succ_r' in Hn. exact Hn.
Qed.

Lemma decimalValue_from_acc (s : string) :
  forall a,
    decimalValue_from a s
    = (a * 10 ^ N.of_nat (String.length s) + decimalValue_from 0 s)%N.
Proof.
  induction s as [|c s IH]; intros a; simpl String.length.
  - simpl. lia.
  - cbn [decimalValue_from]. rewrite IH.
    rewrite (IH (10 * 0 + (N_of_ascii c - 48))%N).
    replace (N.of_nat (S (String.length s)))
      with (N.succ (N.of_nat (String.length s))) by lia.
    rewrite N.pow_succ_r'. lia.
Qed.

Lemma decimalValue_digits (fuel : nat) :
  forall n acc,
    (n < 2 ^ N.of_nat fuel)%N ->
    decimalValue (digits fuel n acc)
    = (n * 10 ^ N.of_nat (String.length acc) + decimalValue acc)%N.
Proof.
  unfold decimalValue.
  induction fuel as [|fuel IH]; intros n acc Hn.
  - simpl in Hn. assert (n = 0%N) by lia. subst n. simpl. reflexivity.
  - cbn [digits].
    assert (Hacc' :
      decimalValue_from 0 (String (digit (n mod 10)) acc)
      = ((n mod 10) * 10 ^ N.of_nat (String.length acc)
         + decimalValue_from 0 acc)%N).
    { cbn [decimalValue_from]. rewrite decimalValue_from_acc.
      rewrite N_of_digit by (apply N.mod_lt; discriminate).
      generalize (n mod 10)%N; intros m.
      replace (10 * 0 + (48 + m - 48))%N with m by lia.
      reflexivity. }
    pose proof (N.Div0.div_mod n 10) as Hdm.
    destruct (N.eqb_spec (n / 10) 0) as [Hz|Hnz].
    + rewrite Hacc'. rewrite Hz in Hdm. f_equal. f_equal. lia.
    + rewrite IH.
      * rewrite Hacc'. simpl String.length.
        replace (N.of_nat (S (String.length acc)))
          with (N.succ (N.of_nat (String.length acc))) by lia.
        rewrite N.pow_succ_r'. lia.
      * replace (N.of_nat (S fuel)) with (N.succ (N.of_nat fuel)) in Hn by lia.
        rewrite N.pow_succ_r' in Hn.
        apply N.Div0.div_lt_upper_bound. lia.
Qed.

Lemma toString_fuel (n : N) : (n < 2 ^ N.of_nat (S (N.to_nat (N.log2 n))))%N.
Proof.
  replace (N.of_nat (S (N.to_nat (N.log2 n)))) with (N.succ (N.log2 n)) by lia.
  destruct n as [|p]; [reflexivity|].
  apply N.log2_spec. lia.
Qed.

Lemma decimalValue_toString (n : N) : decimalValue (toString n) = n.
Proof.
  unfold toString. rewrite decimalValue_digits by apply toString_fuel.
  simpl. unfold decimalValue. simpl. lia.
Qed.

Lemma fill_zero (k : nat) :
  forall cur, cur = "0" \/ cur = "" -> fill k "0" cur = zeros k.
Proof.
  induction k as [|k IH]; intros cur Hcur; [reflexivity|].
  destruct Hcur as [-> | ->]; simpl; rewrite IH; auto.
Qed.

Lemma length_append (s t : string) :
  String.length (s ++ t) = (String.length s + String.length t)%nat.
Proof. induction s; simpl; congruence. Qed.

Lemma length_zeros (k : nat) : String.length (zeros k) = k.
Proof. induction k; simpl; congruence. Qed.

Lemma allDigits_zeros_append (k : nat) (s : string) :
  allDigits (zeros k ++ s) = allDigits s.
Proof. induction k; simpl; auto. Qed.

Lemma decimalValue_zeros_append (k : nat) (s : string) :
  decimalValue (zeros k ++ s) = decimalValue s.
Proof. unfold decimalValue. induction k; simpl; auto. Qed.

Lemma padStart_toString (n : N) :
  (n < 1000000000)%N -> tenDigitsLeadingZero (padStart 10 "0" (toString n)).
Proof.
  intros Hn.
  assert (Hlen : (String.length (toString n) <= 9)%nat).
  { unfold toString.
    pose proof (@length_digits (S (N.to_nat (N.log2 n))) 8 n "" Hn) as H.
    change (String.length "") with O in H. lia. }
  unfold padStart.
  destruct (Nat.leb_spec 10 (String.length (toString n))) as [H|_]; [lia|].
  rewrite fill_zero by auto.
  remember (10 - String.length (toString n))%nat as k eqn:Hk.
  repeat split.
  - rewrite length_append, length_zeros. lia.
  - rewrite allDigits_zeros_append. apply allDigits_digits. reflexivity.
  - rewrite decimalValue_zeros_append, decimalValue_toString. exact Hn.
  - destruct k as [|k]; [lia | reflexivity].
Qed.

Lemma roundHalfEven_cases (x : Q) :
  roundHalfEven x = Qfloor x
  \/ (roundHalfEven x = Qfloor x + 1
      /\ (1 # 2 <= x - inject_Z (Qfloor x))%Q).
Proof.
  unfold roundHalfEven.
  destruct (x - inject_Z (Qfloor x) ?= 1 # 2)%Q eqn:Hc.
  - apply Qeq_alt in Hc. destruct (Z.even (Qfloor x)); [left; reflexivity|].
    right. split; [reflexivity|]. rewrite Hc. apply Qle_refl.
  - left. reflexivity.
  - right. split; [reflexivity|]. apply Qgt_alt in Hc. apply Qlt_le_weak.
    exact Hc.
Qed.

Lemma roundHalfEven_le (x : Q) :
  (inject_Z (roundHalfEven x) <= x + (1 # 2))%Q.
Proof.
  pose proof (Qfloor_le x) as Hf.
  destruct (roundHalfEven_cases x) as [-> | [-> Hc]].
  - lra.
  - rewrite inject_Z_plus. change (inject_Z 1) with 1%Q. lra.
Qed.

Lemma roundHalfEven_nonneg (x : Q) : (0 <= x)%Q -> 0 <= roundHalfEven x.
Proof.
  intros Hx. assert (Hf : 0 <= Qfloor x).
  { rewrite <- (Qfloor_Z 0). apply Qfloor_resp_le. exact Hx. }
  destruct (roundHalfEven_cases x) as [-> | [-> _]]; lia.
Qed.

Lemma pow2_pos (e : Z) : (0 < pow2 e)%Q.
Proof. apply Qpower_0_lt. reflexivity. Qed.

Lemma pow2_le (e e' : Z) : e <= e' -> (pow2 e <= pow2 e')%Q.
Proof. intros H. apply Qpower_le_compat_l; [exact H | discriminate]. Qed.

(** Rounding moves a number by half a unit in the last place at most. *)
Lemma nearest_le (a : Q) (e : Z) :
  (0 <= a)%Q ->
  Z.max (ilog2 a - 52) (-1074) <= e ->
  (0 <= nearest a <= a + pow2 e * (1 # 2))%Q.
Proof.
  intros Ha He. unfold nearest.
  set (e0 := Z.max (ilog2 a - 52) (-1074)) in *.
  pose proof (pow2_pos e0) as Hp. pose proof (pow2_le He) as Hle.
  set (x := (a / pow2 e0)%Q).
  assert (Hx : (0 <= x)%Q).
  { unfold x. apply Qle_shift_div_l; [exact Hp | lra]. }
  pose proof (roundHalfEven_nonneg Hx) as Hn.
  pose proof (roundHalfEven_le x) as Hr.
  split.
  - apply Qmult_le_0_compat; [|lra]. change 0%Q with (inject_Z 0).
    rewrite <- Zle_Qle. exact Hn.
  - apply Qle_trans with ((x + (1 # 2)) * pow2 e0)%Q.
    + apply Qmult_le_compat_r; lra.
    + assert (Heq : ((x + (1 # 2)) * pow2 e0 == a + pow2 e0 * (1 # 2))%Q).
      { unfold x. field. lra. }
      rewrite Heq. lra.
Qed.

Lemma ilog2_le (a : Q) (k : Z) :
  0 <= k -> (a < inject_Z (2 ^ (k + 1)))%Q -> ilog2 a <= k.
Proof.
  intros Hk Ha. unfold ilog2. destruct (Qle_bool 1 a) eqn:H1.
  - apply Qle_bool_iff in H1.
    assert (Hf : 1 <= Qfloor a).
    { rewrite <- (Qfloor_Z 1). apply Qfloor_resp_le. exact H1. }
    assert (Hlt : Qfloor a < 2 ^ (k + 1)).
    { rewrite Zlt_Qlt. eapply Qle_lt_trans; [apply Qfloor_le | exact Ha]. }
    apply Z.log2_lt_pow2 in Hlt; lia.
  - pose proof (Z.log2_up_nonneg (Qceiling (/ a))). lia.
Qed.

Lemma ilog2_eq (a : Q) (k : Z) :
  0 <= k -> (inject_Z (2 ^ k) <= a)%Q -> (a < inject_Z (2 ^ (k + 1)))%Q ->
  ilog2 a = k.
Proof.
  intros Hk Hlo Hhi. unfold ilog2.
  assert (H1 : (1 <= a)%Q).
  { eapply Qle_trans; [|exact Hlo]. change 1%Q with (inject_Z 1).
    rewrite <- Zle_Qle. pose proof (Z.pow_pos_nonneg 2 k). lia. }
  apply Qle_bool_iff in H1. rewrite H1.
  apply Z.log2_unique; [exact Hk|]. split.
  - rewrite <- (Qfloor_Z (2 ^ k)). apply Qfloor_resp_le. exact Hlo.
  - replace (Z.succ k) with (k + 1) by lia.
    rewrite Zlt_Qlt. eapply Qle_lt_trans; [apply Qfloor_le | exact Hhi].
Qed.

(** The largest binary64 number below 1 is 1 - 2^-53. *)
Lemma double_below_one (m e : Z) :
  0 <= m < 2 ^ 53 -> -1074 <= e -> (double m e < 1)%Q ->
  (double m e <= 1 - (1 # 9007199254740992))%Q.
Proof.
  intros Hm He H1. unfold double in *.
  destruct (Z_le_gt_dec (-53) e) as [Hbig|Hsmall].
  - assert (Hp : (pow2 e
                  == inject_Z (2 ^ (e + 53)) * (1 # 9007199254740992))%Q).
    { unfold pow2. rewrite Zpower_Qpower by lia.
      change (1 # 9007199254740992)%Q with (inject_Z 2 ^ (-53))%Q.
      rewrite <- Qpower_plus by discriminate.
      replace (e + 53 + -53) with e by lia. reflexivity. }
    assert (Hd : (inject_Z m * pow2 e
                  == inject_Z (m * 2 ^ (e + 53))
                     * (1 # 9007199254740992))%Q).
    { rewrite Hp, inject_Z_mult. ring. }
    rewrite Hd in H1 |- *.
    assert (Hn : m * 2 ^ (e + 53) < 9007199254740992).
    { rewrite Zlt_Qlt.
      change (inject_Z 9007199254740992) with 9007199254740992%Q. lra. }
    assert (Hn' : m * 2 ^ (e + 53) <= 9007199254740991) by lia.
    rewrite Zle_Qle in Hn'.
    change (inject_Z 9007199254740991) with 9007199254740991%Q in Hn'. lra.
  - assert (Hp : (pow2 e <= pow2 (-54))%Q) by (apply pow2_le; lia).
    change (pow2 (-54)) with (1 # 18014398509481984)%Q in Hp.
    pose proof (pow2_pos e) as Hpos.
    assert (Hm' : (inject_Z m <= 9007199254740992)%Q).
    { change 9007199254740992%Q with (inject_Z 9007199254740992).
      rewrite <- Zle_Qle. lia. }
    assert (Hm0 : (0 <= inject_Z m)%Q).
    { change 0%Q with (inject_Z 0). rewrite <- Zle_Qle. lia. }
    apply Qle_trans with (9007199254740992 * (1 # 18014398509481984))%Q.
    + apply Qmult_le_compat_nonneg; split; lra.
    + discriminate.
Qed.

(** Below 10^9 the binary64 numbers are 2^-23 apart, and
    (1 - 2^-53) * 10^9 is nearer to the last of them than to 10^9. *)
Lemma nearest_below_billion (a : Q) :
  (0 <= a)%Q -> (a <= (1 - (1 # 9007199254740992)) * 1000000000)%Q ->
  (0 <= nearest a < 1000000000)%Q.
Proof.
  intros H0 Ha.
  destruct (Qlt_le_dec (1000000000 - 1) a) as [Hnear|Hfar].
  - assert (Hlog : ilog2 a = 29).
    { apply ilog2_eq; [lia | |].
      - change (inject_Z (2 ^ 29)) with 536870912%Q. lra.
      - change (inject_Z (2 ^ (29 + 1))) with 1073741824%Q. lra. }
    split; [apply (@nearest_le a (-23)); [exact H0 | rewrite Hlog; lia]|].
    unfold nearest. rewrite Hlog.
    change (Z.max (29 - 52) (-1074)) with (-23).
    change (pow2 (-23)) with (1 # 8388608)%Q.
    set (x := (a / (1 # 8388608))%Q).
    assert (Hx : (x == a * 8388608)%Q) by (unfold x; field).
    pose proof (roundHalfEven_le x) as Hr.
    assert (Hn : roundHalfEven x < 8388608000000000).
    { rewrite Zlt_Qlt.
      change (inject_Z 8388608000000000) with 8388608000000000%Q. lra. }
    assert (Hn' : roundHalfEven x <= 8388607999999999) by lia.
    rewrite Zle_Qle in Hn'.
    change (inject_Z 8388607999999999) with 8388607999999999%Q in Hn'. lra.
  - assert (He : Z.max (ilog2 a - 52) (-1074) <= -23).
    { assert (ilog2 a <= 29); [|lia].
      apply ilog2_le; [lia|].
      change (inject_Z (2 ^ (29 + 1))) with 1073741824%Q. lra. }
    pose proof (nearest_le H0 He) as [Hlo Hhi].
    change (pow2 (-23)) with (1 # 8388608)%Q in Hhi. split; lra.
Qed.

Lemma round_scaled_random (r : Q) :
  (0 <= r)%Q -> (r <= 1 - (1 # 9007199254740992))%Q ->
  exists q,
    round (r * 1000000000)%Q = Fin q /\ (0 <= q < 1000000000)%Q.
Proof.
  intros H0 H1. unfold round.
  destruct (Qeq_bool (r * 1000000000) 0);
    [exists 0%Q; split; [reflexivity | lra]|].
  assert (Hp : (0 <= r * 1000000000)%Q) by lra.
  assert (Ha : (0 <= Qabs (r * 1000000000))%Q) by apply Qabs_nonneg.
  assert (Hb : (Qabs (r * 1000000000)
                <= (1 - (1 # 9007199254740992)) * 1000000000)%Q).
  { rewrite (Qabs_pos _ Hp). lra. }
  pose proof (nearest_below_billion Ha Hb) as [Hlo Hhi].
  destruct (Qle_bool (pow2 1024) (nearest (Qabs (r * 1000000000)))) eqn:Hover.
  - exfalso. apply Qle_bool_iff in Hover.
    assert (Hbig : (pow2 30 <= pow2 1024)%Q) by (apply pow2_le; lia).
    change (pow2 30) with 1073741824%Q in Hbig. lra.
  - apply Qle_bool_iff in Hp. rewrite Hp. eexists. split; [reflexivity|].
    rewrite Qred_correct. split; assumption.
Qed.

(** [Math.floor(Math.random() * 1000000000)] is a whole number from 0 to
    999999999: the product is rounded to binary64 and stays below 10^9. *)
Lemma floor_scaled_random (random : Q) :
  randomNumber random ->
  exists q,
    mul (Fin random) (Fin 1000000000) = Fin q
    /\ 0 <= floor q < 1000000000.
Proof.
  intros [m [e [Hm [He [-> H1]]]]].
  pose proof (double_below_one Hm He H1) as Hr.
  assert (H0 : (0 <= double m e)%Q).
  { unfold double. apply Qmult_le_0_compat.
    - change 0%Q with (inject_Z 0). rewrite <- Zle_Qle. lia.
    - apply Qlt_le_weak, pow2_pos. }
  destruct (round_scaled_random H0 Hr) as [q [Hq [Hlo Hhi]]].
  exists q. split; [exact Hq|]. unfold floor. split.
  - rewrite <- (Qfloor_Z 0). apply Qfloor_resp_le. exact Hlo.
  - rewrite Zlt_Qlt. eapply Qle_lt_trans; [apply Qfloor_le|].
    change (inject_Z 1000000000) with 1000000000%Q. exact Hhi.
Qed.

End AccountNumbers.

(** C10.  Every string [generateAccountNumber] returns, in either
    revision, has exactly 10 decimal digits, denotes a number below 10^9,
    and so begins with the character 0.  For [server/routers/account.ts]
    the random source is [Math.random()], a binary64 number from 0 up to
    but not including 1, and the product with 1000000000 is the binary64
    product; for the later revision it is any four random bytes. *)
Theorem generateAccountNumber_leading_zero :
  (forall randomBytes : byte * byte * byte * byte,
      tenDigitsLeadingZero (Part002.generateAccountNumber randomBytes))
  /\ (forall random : Q,
         randomNumber random ->
         tenDigitsLeadingZero (AccountTs.generateAccountNumber random)).
Proof.
  split.
  - intros [[[b0 b1] b2] b3]. unfold Part002.generateAccountNumber.
    apply padStart_toString. apply N.mod_lt. discriminate.
  - intros r Hr. unfold AccountTs.generateAccountNumber.
    destruct (floor_scaled_random Hr) as [q [-> [Hlo Hhi]]].
    unfold JS.floorToString, JS.integerToString.
    destruct (Z.ltb_spec (JS.floor q) 0) as [Hneg|_]; [lia|].
    apply padStart_toString. lia.
Qed.

Lemma generateAccountNumber_leading_zero_witness :
  tenDigitsLeadingZero (Part002.generateAccountNumber (xff, xff, xff, xff))
  /\ tenDigitsLeadingZero
       (AccountTs.generateAccountNumber
          (JS.double 9007199254740991 (-53))).
Proof.
  split.
  - apply (proj1 generateAccountNumber_leading_zero).
  - apply (proj2 generateAccountNumber_leading_zero).
    exists 9007199254740991, (-53).
    repeat split; first [lia | vm_compute; reflexivity].
Defined.

(** ** The loop that looks for a free account number *)

Lemma uniqueAccountNumber_all_taken (generate : nat -> string) (s : Store) :
  (forall k, getAccount (byAccountNumber (generate k)) s <> None) ->
  forall fuel attempt, uniqueAccountNumber fuel generate attempt s = None.
Proof.
  intros Htaken fuel. induction fuel as [|fuel IH]; intros attempt; simpl.
  - reflexivity.
  - specialize (Htaken attempt).
    destruct (getAccount (byAccountNumber (generate attempt)) s);
      [apply IH | congruence].
Qed.

Lemma uniqueAccountNumber_from (generate : nat -> string) (s : Store) :
  forall k attempt fuel,
    getAccount (byAccountNumber (generate (attempt + k)%nat)) s = None ->
    (forall j,
        (j < k)%nat ->
        getAccount (byAccountNumber (generate (attempt + j)%nat)) s <> None) ->
    (k < fuel)%nat ->
    uniqueAccountNumber fuel generate attempt s
    = Some (generate (attempt + k)%nat, S (attempt + k)).
Proof.
  induction k as [|k IH]; intros attempt fuel Hfree Htaken Hfuel;
    (destruct fuel as [|fuel]; [lia|]); simpl.
  - rewrite Nat.add_0_r in Hfree |- *. rewrite Hfree. reflexivity.
  - pose proof (Htaken O ltac:(lia)) as H0. rewrite Nat.add_0_r in H0.
    destruct (getAccount (byAccountNumber (generate attempt)) s);
      [|congruence].
    replace (attempt + S k)%nat with (S attempt + k)%nat in * by lia.
    apply IH; [exact Hfree | | lia].
    intros j Hj. replace (S attempt + j)%nat with (attempt + S j)%nat by lia.
    apply Htaken. lia.
Qed.

(** C9, as the code has it.  The loop of [createAccount] has no cap on
    its attempts and no failure of its own: when draw number [k] is the
    first whose account number is free, the loop ends with that number
    after exactly [k + 1] draws; when every draw gives a number in use, no
    number of iterations ends it. *)
Theorem uniqueAccountNumber_ends_at_first_free :
  forall (generate : nat -> string) (s : Store),
    (forall k fuel,
        getAccount (byAccountNumber (generate k)) s = None ->
        (forall j, (j < k)%nat ->
                   getAccount (byAccountNumber (generate j)) s <> None) ->
        (k < fuel)%nat ->
        uniqueAccountNumber fuel generate 0 s = Some (generate k, S k))
    /\ ((forall k, getAccount (byAccountNumber (generate k)) s <> None) ->
        forall fuel, uniqueAccountNumber fuel generate 0 s = None).
Proof.
  intros generate s. split.
  - intros k fuel Hfree Htaken Hfuel.
    apply (@uniqueAccountNumber_from generate s k 0%nat fuel); assumption.
  - intros Htaken fuel. apply uniqueAccountNumber_all_taken. exact Htaken.
Qed.

Lemma uniqueAccountNumber_ends_at_first_free_witness :
  uniqueAccountNumber 3
    (fun k => if (k <? 2)%nat then "0000000007" else "0000000008") 0 store1
  = Some ("0000000008", 3%nat)
  /\ uniqueAccountNumber 100 (fun _ => "0000000007") 0 store1 = None.
Proof.
  split.
  - apply (proj1 (uniqueAccountNumber_ends_at_first_free
             (fun k => if (k <? 2)%nat then "0000000007" else "0000000008")
             store1) 2%nat 3%nat).
    + reflexivity.
    + intros j Hj. destruct j as [|[|j]]; [discriminate | discriminate | lia].
    + lia.
  - apply (proj2 (uniqueAccountNumber_ends_at_first_free
             (fun _ => "0000000007") store1)).
    intros k. discriminate.
Defined.

(** C9 fails on the code: with the account number 0000000007 in use and a
    random source that draws it every time, [createAccount] is still in
    its loop after any number of iterations, in both revisions; it neither
    returns nor fails. *)
Lemma createAccount_loop_has_no_cap :
  ~ (exists fuel,
        AccountTs.createAccount fuel sevenForEver clock0 bob openSavings store1
        <> None)
  /\ ~ (exists fuel,
           Part002.createAccount fuel sevenBytesForEver clock0 bob openSavings
             store1
           <> None).
Proof.
  split; intros [fuel H]; apply H; clear H.
  - unfold AccountTs.createAccount, AccountTs.createAccount_with.
    change (getAccount (byUserAndType (user_id bob) (accountType openSavings))
              store1) with (@None Account.t).
    rewrite uniqueAccountNumber_all_taken; [reflexivity|].
    intros k. vm_compute. discriminate.
  - unfold Part002.createAccount, Part002.createAccount_with.
    change (getAccount (byUserAndType (user_id bob) (accountType openSavings))
              store1) with (@None Account.t).
    rewrite uniqueAccountNumber_all_taken; [reflexivity|].
    intros k. discriminate.
Qed.

(** ** [createAccount]: the account that is returned *)

(** C3 fails on [server/routers/account.ts]: Alice opens a savings account,
    the row is inserted with balance 0 and status active, it is gone when
    the handler fetches it, and the call answers with a record whose
    balance is 100 and whose status is pending. *)
Theorem AccountTs_createAccount_returns_placeholder :
  exists account s',
    AccountTs.createAccount_with accountsDeleted 1 sevenForEver clock0 alice
      openSavings emptyStore
    = Some (Ok account, s')
    /\ getAccount (byAccountNumber "0000000007") s' = None
    /\ Account.balance account = JS.Fin 100
    /\ Account.status account = "pending"
    /\ Account.id account = 0.
Proof.
  eexists. eexists. vm_compute. repeat split.
Qed.

(** The later revision answers a fetch that finds no row with
    [INTERNAL_SERVER_ERROR], whatever happened to the database in
    between; it never answers with a record it did not read. *)
Lemma Part002_createAccount_fetch_fails :
  forall between fuel random clock ctx input s accountNumber draws,
    getAccount (byUserAndType (user_id ctx) (accountType input)) s = None ->
    uniqueAccountNumber fuel
      (fun k => Part002.generateAccountNumber (random k)) 0 s
    = Some (accountNumber, draws) ->
    getAccount (byAccountNumber accountNumber)
      (between (insertAccount (user_id ctx) accountNumber (accountType input)
                  (JS.Fin 0) "active" clock s))
    = None ->
    exists e s',
      Part002.createAccount_with between fuel random clock ctx input s
      = Some (Err e, s')
      /\ code e = INTERNAL_SERVER_ERROR.
Proof.
  intros between fuel random clock ctx input s accountNumber draws
    Hnone Hloop Hfetch.
  unfold Part002.createAccount_with. rewrite Hnone, Hloop, Hfetch.
  eexists. eexists. split; reflexivity.
Qed.

Lemma Part002_createAccount_returns_what_it_read :
  forall between fuel random clock ctx input s account s',
    Part002.createAccount_with between fuel random clock ctx input s
    = Some (Ok account, s') ->
    In account (accounts s').
Proof.
  intros between fuel random clock ctx input s account s'.
  unfold Part002.createAccount_with.
  destruct (getAccount (byUserAndType (user_id ctx) (accountType input)) s);
    [discriminate|].
  destruct (uniqueAccountNumber fuel _ 0 s) as [[n k]|]; [|discriminate].
  destruct (getAccount (byAccountNumber n) _) as [a|] eqn:Hget;
    [|discriminate].
  intros H. injection H as <- <-.
  unfold getAccount in Hget. apply find_some in Hget. apply Hget.
Qed.

(** ** The funding transaction *)

Lemma byId_credit (i : Z) (amt : JS.number) (a : Account.t) :
  byId i (credit amt a) = byId i a.
Proof. reflexivity. Qed.

Lemma find_map_credit (i j : Z) (amt : JS.number) (l : list Account.t) :
  find (byId j) (map (fun a => if byId i a then credit amt a else a) l)
  = option_map (fun a => if byId i a then credit amt a else a)
      (find (byId j) l).
Proof.
  induction l as [|a l IH]; simpl; [reflexivity|].
  destruct (byId i a) eqn:Hi; [rewrite byId_credit|];
    destruct (byId j a); simpl; try rewrite Hi; auto.
Qed.

Lemma getBalance_updateBalance (i : Z) (amt : JS.number) (s : Store) :
  getBalance i (updateBalance amt i s)
  = option_map (fun b => JS.add b amt) (getBalance i s).
Proof.
  unfold getBalance, getAccount, updateBalance. simpl.
  rewrite find_map_credit.
  destruct (find (byId i) (accounts s)) as [a|] eqn:Hfind; simpl;
    [|reflexivity].
  apply find_some in Hfind. destruct Hfind as [_ Hi]. rewrite Hi. reflexivity.
Qed.

Lemma getBalance_other (i j : Z) (amt : JS.number) (s : Store) :
  j <> i ->
  getBalance j (updateBalance amt i s) = getBalance j s.
Proof.
  intros Hji. unfold getBalance, getAccount, updateBalance. simpl.
  rewrite find_map_credit.
  destruct (find (byId j) (accounts s)) as [a|] eqn:Hfind; simpl;
    [|reflexivity].
  apply find_some in Hfind. destruct Hfind as [_ Hj].
  unfold byId in *. apply Z.eqb_eq in Hj.
  destruct (Z.eqb_spec (Account.id a) i); [congruence | reflexivity].
Qed.

Lemma owned_account_has_balance (i u : Z) (s : Store) (a : Account.t) :
  getAccount (byIdAndUser i u) s = Some a ->
  exists b, getBalance i s = Some b.
Proof.
  unfold getBalance, getAccount. intros H. apply find_some in H.
  destruct H as [Hin Hp]. unfold byIdAndUser in Hp.
  apply andb_prop in Hp. destruct Hp as [Hi _].
  destruct (find (byId i) (accounts s)) as [a'|] eqn:Hfind.
  - exists (Account.balance a'). reflexivity.
  - exfalso. apply (find_none _ _ Hfind) in Hin. unfold byId in Hin.
    congruence.
Qed.

Lemma getBalance_withDeposit (clock : Clock) (input : FundInput) (i : Z)
    (s : Store) :
  getBalance i (withDeposit clock input s) = getBalance i s.
Proof. reflexivity. Qed.

(** The insert of [fundAccount] goes through exactly when the account is
    there. *)
Lemma insertTransaction_deposit (clock : Clock) (input : FundInput)
    (s : Store) :
  insertTransaction (accountId input) "deposit" (amount input)
    ("Funding from "
     ++ FundingType_name (FundingSource.type (fundingSource input)))
    "completed" (isoNow clock) clock s
  = match getBalance (accountId input) s with
    | Some _ =>
        Some (nextId (map Transaction.id (transactions s)),
              withDeposit clock input s)
    | None => None
    end.
Proof.
  unfold insertTransaction, getBalance.
  destruct (getAccount (byId (accountId input)) s); reflexivity.
Qed.

(** What the funding transaction does to the store: everything or
    nothing.  When it returns, the account was there, the row is in and
    the balance it answers with is the balance it has written. *)
Lemma runFunding_cases (engine : Engine) (clock : Clock) (input : FundInput)
    (account : Account.t) (s : Store) :
  let call := runFunding engine clock input (amount input) account s in
  (exists r b,
      fst call = Ok r
      /\ getBalance (accountId input) s = Some b
      /\ snd call
         = updateBalance (amount input) (accountId input)
             (withDeposit clock input s)
      /\ newBalance r = JS.add b (amount input))
  \/ (exists e,
         fst call = Err e /\ code e = INTERNAL_SERVER_ERROR /\ snd call = s).
Proof.
  unfold runFunding, Db.transaction, funding, uncaught, throw.
  rewrite insertTransaction_deposit.
  destruct engine as [fi fu ft fb fc]; simpl.
  destruct fi; [right; eexists; repeat split|].
  destruct (getBalance (accountId input) s) as [b|] eqn:Hb;
    [|right; eexists; repeat split].
  destruct fu; [right; eexists; repeat split|].
  destruct ft; [right; eexists; repeat split|].
  destruct fb; [right; eexists; repeat split|].
  destruct fc; [right; eexists; repeat split|].
  left. exists
    {| transaction :=
         getTransaction (nextId (map Transaction.id (transactions s)))
           (updateBalance (amount input) (accountId input)
              (withDeposit clock input s));
       newBalance := JS.add b (amount input) |}, b.
  rewrite getBalance_updateBalance, getBalance_withDeposit, Hb. simpl.
  repeat split.
Qed.

Lemma runFunding_allOrNothing (engine : Engine) (clock : Clock)
    (input : FundInput) (account : Account.t) (s : Store) :
  allOrNothing input s
    (runFunding engine clock input (amount input) account s).
Proof.
  destruct (runFunding_cases engine clock input account s)
    as [[r [b [Hr [Hb [Hs _]]]]] | [e [He [_ Hs]]]].
  - left. exists r. split; [exact Hr|]. rewrite Hs. repeat split.
    + eexists. simpl. repeat split.
    + exists b. split; [exact Hb|].
      rewrite getBalance_updateBalance, getBalance_withDeposit, Hb.
      reflexivity.
  - right. exists e. split; assumption.
Qed.


Lemma runFunding_newBalance (engine : Engine) (clock : Clock)
    (input : FundInput) (account : Account.t) (s : Store)
    (r : FundResult) (s' : Store) :
  runFunding engine clock input (amount input) account s = (Ok r, s') ->
  getBalance (accountId input) s' = Some (newBalance r).
Proof.
  intros Hcall.
  destruct (runFunding_cases engine clock input account s)
    as [[r0 [b [Hr [Hb [Hs Hnew]]]]] | [e [He _]]];
    rewrite Hcall in *; simpl in *; [|discriminate].
  injection Hr as <-. rewrite Hnew, Hs.
  rewrite getBalance_updateBalance, getBalance_withDeposit, Hb. reflexivity.
Qed.

(** The handlers, with anything happening to the database while they are
    suspended: what they do to the store they find when they go on is
    everything or nothing. *)
Lemma AccountTs_fundAccount_with_allOrNothing :
  forall between engine clock ctx input s,
    let call :=
      AccountTs.fundAccount_with between engine clock ctx input s in
    allOrNothing input (between s) call \/ (exists e, call = (Err e, s)).
Proof.
  intros between engine clock ctx input s.
  unfold AccountTs.fundAccount_with, AccountTs.fundAccount_begin,
    AccountTs.fundAccount_resume, JS.parseFloat_toString.
  destruct (AccountTs.amountIssues (amount input));
    [|right; eexists; reflexivity].
  left.
  destruct (getAccount (byIdAndUser (accountId input) (user_id ctx)) s)
    as [account|]; [|right; eexists; split; reflexivity].
  destruct (negb (Account.status account =? "active")%string);
    [right; eexists; split; reflexivity|].
  apply runFunding_allOrNothing.
Qed.

Lemma Part002_fundAccount_with_allOrNothing :
  forall validateCardNumber between engine clock ctx input s,
    let call :=
      Part002.fundAccount_with validateCardNumber between engine clock ctx
        input s in
    allOrNothing input (between s) call \/ (exists e, call = (Err e, s)).
Proof.
  intros validateCardNumber between engine clock ctx input s.
  unfold Part002.fundAccount_with, Part002.fundAccount_begin,
    Part002.fundAccount_resume, JS.parseFloat_toString.
  destruct (Part002.inputIssues input);
    [|right; eexists; reflexivity].
  destruct (Part002.checkAmount (amount input));
    [right; eexists; reflexivity|].
  left.
  destruct (getAccount (byIdAndUser (accountId input) (user_id ctx)) s)
    as [account|]; [|right; eexists; split; reflexivity].
  destruct (negb (Account.status account =? "active")%string);
    [right; eexists; split; reflexivity|].
  destruct (Part002.checkFundingSource validateCardNumber
              (fundingSource input));
    [right; eexists; split; reflexivity|].
  apply runFunding_allOrNothing.
Qed.

Lemma AccountTs_fundAccount_allOrNothing :
  forall engine clock ctx input s,
    allOrNothing input s (AccountTs.fundAccount engine clock ctx input s).
Proof.
  intros engine clock ctx input s.
  destruct (AccountTs_fundAccount_with_allOrNothing quiet engine clock ctx
              input s) as [H | [e H]]; [exact H|].
  right. exists e. unfold AccountTs.fundAccount. rewrite H.
  split; reflexivity.
Qed.

Lemma Part002_fundAccount_allOrNothing :
  forall validateCardNumber engine clock ctx input s,
    allOrNothing input s
      (Part002.fundAccount validateCardNumber engine clock ctx input s).
Proof.
  intros validateCardNumber engine clock ctx input s.
  destruct (Part002_fundAccount_with_allOrNothing validateCardNumber quiet
              engine clock ctx input s) as [H | [e H]]; [exact H|].
  right. exists e. unfold Part002.fundAccount. rewrite H.
  split; reflexivity.
Qed.

(** C1, as the code has it.  Every call of [fundAccount], in either
    revision, whatever statement of the storage engine fails and whatever
    other requests do to the database while the handler is suspended,
    either succeeds with exactly one new transaction row and the balance
    of the account set to the binary64 sum of the balance and the amount,
    or fails and writes nothing: the store is the one the handler found,
    at its start or when it went on. *)
Theorem fundAccount_all_or_nothing :
  (forall between engine clock ctx input s,
      let call :=
        AccountTs.fundAccount_with between engine clock ctx input s in
      allOrNothing input (between s) call \/ (exists e, call = (Err e, s)))
  /\ (forall validateCardNumber between engine clock ctx input s,
         let call :=
           Part002.fundAccount_with validateCardNumber between engine clock
             ctx input s in
         allOrNothing input (between s) call
         \/ (exists e, call = (Err e, s))).
Proof.
  split.
  - exact AccountTs_fundAccount_with_allOrNothing.
  - exact Part002_fundAccount_with_allOrNothing.
Qed.

(** C1 fails on the code as it is stated.  Alice's account holds 10^16 and
    she funds it with 1: the call succeeds in both revisions, the
    transaction row is written, and the balance is what it was, since
    10^16 + 1 is no binary64 number and is rounded to 10^16.  And with
    the balance 0.1 that a first funding of 0.1 has left, a funding of 0.2
    succeeds in both revisions and sets the balance to
    0.30000000000000004, which is not the balance plus the amount. *)
Lemma fundAccount_balance_not_raised :
  (exists r s',
      AccountTs.fundAccount reliable clock0 alice (fromBank (JS.Fin 1))
        richStore
      = (Ok r, s')
      /\ List.length (transactions s') = 1%nat
      /\ getBalance 1 s' = Some (JS.Fin 10000000000000000))
  /\ ~ allOrNothingExactly (fromBank (JS.Fin 1)) richStore
         (AccountTs.fundAccount reliable clock0 alice (fromBank (JS.Fin 1))
            richStore)
  /\ ~ allOrNothingExactly (fromBank (JS.Fin 1)) richStore
         (Part002.fundAccount noCard reliable clock0 alice
            (fromBank (JS.Fin 1)) richStore)
  /\ fundEach AccountTs.fundAccount [aliceFunds 1 (JS.Fin tenth)] storeOpened
     = Some storeFundedOnce
  /\ ~ allOrNothingExactly (fromBank (JS.Fin fifth)) storeFundedOnce
         (AccountTs.fundAccount reliable clock0 alice
            (fromBank (JS.Fin fifth)) storeFundedOnce)
  /\ ~ allOrNothingExactly (fromBank (JS.Fin fifth)) storeFundedOnce
         (Part002.fundAccount noCard reliable clock0 alice
            (fromBank (JS.Fin fifth)) storeFundedOnce).
Proof.
  assert (Hrefuted :
    forall input s call r s' b b',
      call = (Ok r, s') ->
      getBalance (accountId input) s = Some b ->
      getBalance (accountId input) s' = Some b' ->
      ~ JS.same b' (realSum b (amount input)) ->
      ~ allOrNothingExactly input s call).
  { intros input s call r s' b b' -> Hb Hb' Hdiffer
      [[r0 [_ [_ [c [c' [Hc [Hc' Hsame]]]]]]] | [e [He _]]];
      [|discriminate].
    simpl in Hc'. rewrite Hb in Hc. rewrite Hb' in Hc'.
    injection Hc as <-. injection Hc' as <-. exact (Hdiffer Hsame). }
  assert (H1 : exists r s',
    AccountTs.fundAccount reliable clock0 alice (fromBank (JS.Fin 1))
      richStore
    = (Ok r, s')
    /\ List.length (transactions s') = 1%nat
    /\ getBalance 1 s' = Some (JS.Fin 10000000000000000)).
  { eexists. eexists. vm_compute. repeat split. }
  assert (H2 : exists r s',
    Part002.fundAccount noCard reliable clock0 alice (fromBank (JS.Fin 1))
      richStore
    = (Ok r, s')
    /\ getBalance 1 s' = Some (JS.Fin 10000000000000000)).
  { eexists. eexists. vm_compute. repeat split. }
  assert (H3 : exists r s',
    AccountTs.fundAccount reliable clock0 alice (fromBank (JS.Fin fifth))
      storeFundedOnce
    = (Ok r, s')
    /\ getBalance 1 s' = Some (JS.Fin (1351079888211149 # 4503599627370496))).
  { eexists. eexists. vm_compute. repeat split. }
  assert (H4 : exists r s',
    Part002.fundAccount noCard reliable clock0 alice
      (fromBank (JS.Fin fifth)) storeFundedOnce
    = (Ok r, s')
    /\ getBalance 1 s' = Some (JS.Fin (1351079888211149 # 4503599627370496))).
  { eexists. eexists. vm_compute. repeat split. }
  assert (Hrich :
    ~ JS.same (JS.Fin 10000000000000000)
        (realSum (JS.Fin 10000000000000000) (amount (fromBank (JS.Fin 1))))).
  { vm_compute. discriminate. }
  assert (Hsmall :
    ~ JS.same (JS.Fin (1351079888211149 # 4503599627370496))
        (realSum (JS.Fin (3602879701896397 # 36028797018963968))
           (amount (fromBank (JS.Fin fifth))))).
  { vm_compute. discriminate. }
  assert (Hbefore :
    getBalance (accountId (fromBank (JS.Fin 1))) richStore
    = Some (JS.Fin 10000000000000000)) by reflexivity.
  assert (Honce :
    getBalance (accountId (fromBank (JS.Fin fifth))) storeFundedOnce
    = Some (JS.Fin (3602879701896397 # 36028797018963968))).
  { vm_compute. reflexivity. }
  split; [exact H1|].
  destruct H1 as [r1 [s1 [H1 [_ Hafter1]]]].
  destruct H2 as [r2 [s2 [H2 Hafter2]]].
  destruct H3 as [r3 [s3 [H3 Hafter3]]].
  destruct H4 as [r4 [s4 [H4 Hafter4]]].
  split; [exact (Hrefuted _ _ _ _ _ _ _ H1 Hbefore Hafter1 Hrich)|].
  split; [exact (Hrefuted _ _ _ _ _ _ _ H2 Hbefore Hafter2 Hrich)|].
  split; [vm_compute; reflexivity|].
  split; [exact (Hrefuted _ _ _ _ _ _ _ H3 Honce Hafter3 Hsmall)|].
  exact (Hrefuted _ _ _ _ _ _ _ H4 Honce Hafter4 Hsmall).
Qed.

(** ** [fundAccount]: the balance that is returned *)

Lemma AccountTs_fundAccount_with_newBalance :
  forall between engine clock ctx input s r s',
    AccountTs.fundAccount_with between engine clock ctx input s = (Ok r, s') ->
    getBalance (accountId input) s' = Some (newBalance r).
Proof.
  intros between engine clock ctx input s r s'.
  unfold AccountTs.fundAccount_with, AccountTs.fundAccount_begin,
    AccountTs.fundAccount_resume, JS.parseFloat_toString.
  destruct (AccountTs.amountIssues (amount input)); [|discriminate].
  destruct (getAccount (byIdAndUser (accountId input) (user_id ctx)) s)
    as [account|]; [|discriminate].
  destruct (negb (Account.status account =? "active")%string);
    [discriminate|].
  apply runFunding_newBalance.
Qed.

Lemma Part002_fundAccount_with_newBalance :
  forall validateCardNumber between engine clock ctx input s r s',
    Part002.fundAccount_with validateCardNumber between engine clock ctx
      input s = (Ok r, s') ->
    getBalance (accountId input) s' = Some (newBalance r).
Proof.
  intros validateCardNumber between engine clock ctx input s r s'.
  unfold Part002.fundAccount_with, Part002.fundAccount_begin,
    Part002.fundAccount_resume, JS.parseFloat_toString.
  destruct (Part002.inputIssues input); [|discriminate].
  destruct (Part002.checkAmount (amount input)); [discriminate|].
  destruct (getAccount (byIdAndUser (accountId input) (user_id ctx)) s)
    as [account|]; [|discriminate].
  destruct (negb (Account.status account =? "active")%string);
    [discriminate|].
  destruct (Part002.checkFundingSource validateCardNumber
              (fundingSource input)); [discriminate|].
  apply runFunding_newBalance.
Qed.






(** ** [fundAccount]: the preconditions *)

Lemma Part002_amountIssues_none (a : JS.number) :
  Part002.amountIssues a = [] ->
  strictlyPositiveFinite a = true /\ Part002.checkAmount a = None.
Proof.
  unfold Part002.amountIssues, Part002.checkAmount, strictlyPositiveFinite.
  destruct a as [| | |q]; simpl; try discriminate.
  destruct (Qle_bool q 0); simpl; [discriminate|].
  destruct (Qle_bool (1 # 100) q); simpl; [|discriminate].
  destruct (Qle_bool q 10000); simpl; [|discriminate].
  intros _. split; reflexivity.
Qed.

Lemma Part002_amountIssues_some (a : JS.number) :
  strictlyPositiveFinite a = false -> Part002.amountIssues a <> [].
Proof.
  intros Hbad Hnone. apply Part002_amountIssues_none in Hnone.
  destruct Hnone as [Hgood _]. congruence.
Qed.

Lemma Part002_inputIssues_none (input : FundInput) :
  Part002.inputIssues input = [] -> Part002.amountIssues (amount input) = [].
Proof.
  unfold Part002.inputIssues. intros H. apply app_eq_nil in H. apply H.
Qed.

(** In the later revision [fundAccount] checks the three preconditions
    before any write: an amount that is not strictly positive and finite
    is answered with [BAD_REQUEST]; for an input the schema accepts, an
    account the caller does not have is answered with [NOT_FOUND] and an
    account that is not active with [BAD_REQUEST]; a call that succeeds
    had a good amount and an active account of the caller; and every call
    that fails leaves the store as it was. *)
Lemma Part002_fundAccount_preconditions :
  forall validateCardNumber engine clock ctx input s,
    let call :=
      Part002.fundAccount validateCardNumber engine clock ctx input s in
    let owned :=
      getAccount (byIdAndUser (accountId input) (user_id ctx)) s in
    (strictlyPositiveFinite (amount input) = false ->
     exists e, fst call = Err e /\ code e = BAD_REQUEST /\ snd call = s)
    /\ (Part002.inputIssues input = [] -> owned = None ->
        call = (throw NOT_FOUND "Account not found", s))
    /\ (forall account,
           Part002.inputIssues input = [] -> owned = Some account ->
           Account.status account <> "active" ->
           call = (throw BAD_REQUEST "Account is not active", s))
    /\ (forall r,
           fst call = Ok r ->
           strictlyPositiveFinite (amount input) = true
           /\ exists account,
               owned = Some account /\ Account.status account = "active")
    /\ (forall e, fst call = Err e -> snd call = s).
Proof.
  intros validateCardNumber engine clock ctx input s call owned.
  subst call owned.
  unfold Part002.fundAccount, Part002.fundAccount_with,
    Part002.fundAccount_begin, Part002.fundAccount_resume, quiet,
    JS.parseFloat_toString.
  repeat split.
  - intros Hbad.
    destruct (Part002.inputIssues input) as [|i issues] eqn:Hissues.
    + exfalso. apply (@Part002_amountIssues_some _ Hbad).
      apply Part002_inputIssues_none. exact Hissues.
    + eexists. repeat split.
  - intros Hissues Hnone. rewrite Hissues, Hnone.
    apply Part002_inputIssues_none, Part002_amountIssues_none in Hissues.
    destruct Hissues as [_ ->]. reflexivity.
  - intros account Hissues Hsome Hstatus. rewrite Hissues, Hsome.
    apply Part002_inputIssues_none, Part002_amountIssues_none in Hissues.
    destruct Hissues as [_ ->].
    destruct (String.eqb_spec (Account.status account) "active");
      [contradiction | reflexivity].
  - destruct (Part002.inputIssues input) eqn:Hissues; [|discriminate H].
    apply Part002_inputIssues_none, Part002_amountIssues_none in Hissues.
    apply Hissues.
  - destruct (Part002.inputIssues input) eqn:Hissues; [|discriminate H].
    destruct (Part002.checkAmount (amount input)); [discriminate H|].
    destruct (getAccount (byIdAndUser (accountId input) (user_id ctx)) s)
      as [account|]; [|discriminate H].
    exists account. split; [reflexivity|].
    destruct (String.eqb_spec (Account.status account) "active");
      [assumption | discriminate H].
  - intros e.
    destruct (Part002.inputIssues input); [|reflexivity].
    destruct (Part002.checkAmount (amount input)); [reflexivity|].
    destruct (getAccount (byIdAndUser (accountId input) (user_id ctx)) s)
      as [account|]; [|reflexivity].
    destruct (negb (Account.status account =? "active")%string);
      [reflexivity|].
    destruct (Part002.checkFundingSource validateCardNumber
                (fundingSource input)); [reflexivity|].
    destruct (runFunding_cases engine clock input account s)
      as [[r [b [Hr _]]] | [e' [_ [_ Hs]]]].
    + intros He. rewrite Hr in He. discriminate.
    + intros _. exact Hs.
Qed.

(** [server/routers/account.ts] checks the account in the same way. *)
Lemma AccountTs_fundAccount_account_preconditions :
  forall engine clock ctx input s,
    let call := AccountTs.fundAccount engine clock ctx input s in
    let owned :=
      getAccount (byIdAndUser (accountId input) (user_id ctx)) s in
    (AccountTs.amountIssues (amount input) = [] -> owned = None ->
     call = (throw NOT_FOUND "Account not found", s))
    /\ (forall account,
           AccountTs.amountIssues (amount input) = [] ->
           owned = Some account ->
           Account.status account <> "active" ->
           call = (throw BAD_REQUEST "Account is not active", s))
    /\ (forall r,
           fst call = Ok r ->
           exists account,
             owned = Some account /\ Account.status account = "active").
Proof.
  intros engine clock ctx input s call owned. subst call owned.
  unfold AccountTs.fundAccount, AccountTs.fundAccount_with,
    AccountTs.fundAccount_begin, AccountTs.fundAccount_resume, quiet.
  repeat split.
  - intros Hissues Hnone. rewrite Hissues, Hnone. reflexivity.
  - intros account Hissues Hsome Hstatus. rewrite Hissues, Hsome.
    destruct (String.eqb_spec (Account.status account) "active");
      [contradiction | reflexivity].
  - intros r.
    destruct (AccountTs.amountIssues (amount input)); [|discriminate].
    destruct (getAccount (byIdAndUser (accountId input) (user_id ctx)) s)
      as [account|]; [|discriminate].
    intros H. exists account. split; [reflexivity|].
    destruct (String.eqb_spec (Account.status account) "active");
      [assumption | discriminate H].
Qed.

(** C7 fails on [server/routers/account.ts]: its only check of the amount
    is [z.number().positive()], and the body of the mutation has none.
    Alice funds her account with the amount [Infinity]: the call
    succeeds, a transaction row of that amount is written and the balance
    becomes [Infinity]. *)
Theorem AccountTs_fundAccount_accepts_infinite_amount :
  strictlyPositiveFinite JS.PosInf = false
  /\ exists r s',
      AccountTs.fundAccount reliable clock0 alice (fromBank JS.PosInf) store1
      = (Ok r, s')
      /\ getBalance 1 s' = Some JS.PosInf
      /\ option_map Transaction.amount (transaction r) = Some JS.PosInf
      /\ List.length (transactions s') = 1%nat.
Proof.
  split; [reflexivity|]. eexists. eexists. vm_compute. repeat split.
Qed.

(** The body of the mutation of [server/routers/account.ts], reached with
    an amount the schema would have turned down, credits it: an amount of
    -5 takes the balance of 50 to 45. *)
Lemma AccountTs_mutation_has_no_amount_check :
  exists r s',
    AccountTs.fundAccount_resume reliable clock0 (fromBank (JS.Fin (-5)))
      (getAccount (byIdAndUser 1 1) store1) store1
    = (Ok r, s')
    /\ getBalance 1 s' = Some (JS.Fin 45).
Proof.
  eexists. eexists. vm_compute. repeat split.
Qed.

(** The mutation of the later revision, taken without its input schema,
    turns down what is not positive but lets [Infinity] through. *)
Lemma Part002_mutation_alone :
  (forall validateCardNumber engine clock ctx input s,
      JS.ltb (JS.Fin 0) (amount input) = false ->
      exists e,
        Part002.fundAccount_mutation validateCardNumber engine clock ctx
          input s
        = (Err e, s)
        /\ code e = BAD_REQUEST)
  /\ exists r s',
      Part002.fundAccount_mutation noCard reliable clock0 alice
        (fromBank JS.PosInf) store1
      = (Ok r, s')
      /\ getBalance 1 s' = Some JS.PosInf.
Proof.
  split.
  - intros validateCardNumber engine clock ctx input s Hbad.
    unfold Part002.fundAccount_mutation, Part002.checkAmount,
      JS.parseFloat_toString.
    destruct (amount input) as [| | |q]; simpl in *;
      try discriminate; try (eexists; split; reflexivity).
    apply negb_false_iff in Hbad.
    assert (Hle : Qle_bool q 0 = true).
    { apply Qle_bool_iff. apply Qle_bool_iff in Hbad. exact Hbad. }
    rewrite Hle. simpl. eexists; split; reflexivity.
  - eexists. eexists. vm_compute. repeat split.
Qed.

(** ** The ownership check *)

Lemma find_all_false (A : Type) (p : A -> bool) (l : list A) :
  (forall a, In a l -> p a = false) -> find p l = None.
Proof.
  induction l as [|a l IH]; intros H; simpl; [reflexivity|].
  rewrite (H a (or_introl eq_refl)). apply IH.
  intros b Hb. apply H. right. exact Hb.
Qed.

Lemma noSuchAccount_not_owned (i u : Z) (s : Store) :
  noSuchAccount i s -> getAccount (byIdAndUser i u) s = None.
Proof.
  intros Hno. apply find_all_false. intros a Ha. unfold byIdAndUser.
  destruct (Z.eqb_spec (Account.id a) i) as [Hi|_]; [|reflexivity].
  exfalso. exact (Hno a Ha Hi).
Qed.

Lemma ownedByOthers_not_owned (i u : Z) (s : Store) :
  ownedByOthers i u s -> getAccount (byIdAndUser i u) s = None.
Proof.
  intros [_ Hothers]. apply find_all_false. intros a Ha. unfold byIdAndUser.
  destruct (Z.eqb_spec (Account.id a) i) as [Hi|_]; [|reflexivity].
  destruct (Z.eqb_spec (Account.userId a) u) as [Hu|_]; [|reflexivity].
  exfalso. exact (Hothers a Ha Hi Hu).
Qed.

Lemma AccountTs_fundAccount_not_owned :
  forall engine clock ctx input s,
    getAccount (byIdAndUser (accountId input) (user_id ctx)) s = None ->
    AccountTs.fundAccount engine clock ctx input s
    = (match AccountTs.amountIssues (amount input) with
       | [] => throw NOT_FOUND "Account not found"
       | issues => invalidInput issues
       end, s).
Proof.
  intros engine clock ctx input s Hnone.
  unfold AccountTs.fundAccount, AccountTs.fundAccount_with,
    AccountTs.fundAccount_begin, AccountTs.fundAccount_resume, quiet.
  destruct (AccountTs.amountIssues (amount input)); [|reflexivity].
  rewrite Hnone. reflexivity.
Qed.

Lemma Part002_fundAccount_not_owned :
  forall validateCardNumber engine clock ctx input s,
    getAccount (byIdAndUser (accountId input) (user_id ctx)) s = None ->
    Part002.fundAccount validateCardNumber engine clock ctx input s
    = (match Part002.inputIssues input with
       | [] =>
           match Part002.checkAmount (amount input) with
           | Some e => Err e
           | None => throw NOT_FOUND "Account not found"
           end
       | issues => invalidInput issues
       end, s).
Proof.
  intros validateCardNumber engine clock ctx input s Hnone.
  unfold Part002.fundAccount, Part002.fundAccount_with,
    Part002.fundAccount_begin, Part002.fundAccount_resume, quiet,
    JS.parseFloat_toString.
  destruct (Part002.inputIssues input); [|reflexivity].
  destruct (Part002.checkAmount (amount input)); [reflexivity|].
  rewrite Hnone. reflexivity.
Qed.

(** What a caller is answered when the account asked for is not theirs,
    in the four procedures that check ownership. *)
Definition answers (validateCardNumber : string -> Part002.CardValidation)
    (engine : Engine) (clock : Clock) (ctx : Ctx) (input : FundInput)
    (s : Store)
    : result FundResult * result (list Enriched)
      * (result FundResult * result (list Enriched)) :=
  ((fst (AccountTs.fundAccount engine clock ctx input s),
    AccountTs.getTransactions ctx {| forAccountId := accountId input |} s),
   (fst (Part002.fundAccount validateCardNumber engine clock ctx input s),
    Part002.getTransactions ctx {| forAccountId := accountId input |} s)).

(** C8.  For every caller and account id, in either revision,
    [fundAccount] and [getTransactions] answer a store that has no account
    of that id exactly as they answer a store where accounts of that id
    exist and belong to other users: the same error, code and message,
    which for [getTransactions] and for a [fundAccount] input that passes
    validation is [NOT_FOUND], "Account not found". *)
Theorem not_found_hides_ownership :
  forall validateCardNumber engine clock ctx input s1 s2,
    noSuchAccount (accountId input) s1 ->
    ownedByOthers (accountId input) (user_id ctx) s2 ->
    answers validateCardNumber engine clock ctx input s1
    = answers validateCardNumber engine clock ctx input s2
    /\ (exists e1 e2,
           fst (AccountTs.fundAccount engine clock ctx input s2) = Err e1
           /\ fst (Part002.fundAccount validateCardNumber engine clock ctx
                     input s2) = Err e2
           /\ (AccountTs.amountIssues (amount input) = [] ->
               e1 = {| code := NOT_FOUND; message := "Account not found" |})
           /\ (Part002.inputIssues input = [] ->
               e2 = {| code := NOT_FOUND; message := "Account not found" |}))
    /\ AccountTs.getTransactions ctx {| forAccountId := accountId input |} s2
       = throw NOT_FOUND "Account not found"
    /\ Part002.getTransactions ctx {| forAccountId := accountId input |} s2
       = throw NOT_FOUND "Account not found".
Proof.
  intros validateCardNumber engine clock ctx input s1 s2 Hno Hothers.
  pose proof (noSuchAccount_not_owned (user_id ctx) Hno) as H1.
  pose proof (ownedByOthers_not_owned Hothers) as H2.
  unfold answers.
  rewrite !AccountTs_fundAccount_not_owned by assumption.
  rewrite !Part002_fundAccount_not_owned by assumption.
  unfold AccountTs.getTransactions, Part002.getTransactions. simpl.
  rewrite H1, H2. repeat split.
  - destruct (AccountTs.amountIssues (amount input)) eqn:Ha;
      destruct (Part002.inputIssues input) eqn:Hi.
    + pose proof (Part002_inputIssues_none _ Hi) as Hc.
      apply Part002_amountIssues_none in Hc. destruct Hc as [_ ->].
      eexists. eexists. repeat split.
    + eexists. eexists. repeat split. discriminate.
    + pose proof (Part002_inputIssues_none _ Hi) as Hc.
      apply Part002_amountIssues_none in Hc. destruct Hc as [_ ->].
      eexists. eexists. repeat split. discriminate.
    + eexists. eexists. repeat split; discriminate.
Qed.

Lemma not_found_hides_ownership_witness :
  noSuchAccount 1 emptyStore
  /\ ownedByOthers 1 1 storeOfBob
  /\ answers noCard reliable clock0 alice (fromBank (JS.Fin 25)) emptyStore
     = answers noCard reliable clock0 alice (fromBank (JS.Fin 25)) storeOfBob.
Proof.
  assert (Hno : noSuchAccount 1 emptyStore).
  { intros a Ha. simpl in Ha. contradiction. }
  assert (Hothers : ownedByOthers 1 1 storeOfBob).
  { split.
    - exists account1OfBob. simpl. split; [left|]; reflexivity.
    - intros a Ha _. simpl in Ha. destruct Ha as [<-|[]]. simpl. lia. }
  split; [exact Hno|]. split; [exact Hothers|].
  exact (proj1 (@not_found_hides_ownership noCard reliable clock0 alice
                  (fromBank (JS.Fin 25)) emptyStore storeOfBob Hno Hothers)).
Defined.

(** ** [getTransactions] *)

Lemma insertDesc_perm (t : Transaction.t) (l : list Transaction.t) :
  Permutation (insertDesc t l) (t :: l).
Proof.
  induction l as [|u l IH]; simpl; [apply Permutation_refl|].
  destruct (Transaction.createdAt t <=? Transaction.createdAt u)%string.
  - eapply Permutation_trans; [apply perm_skip, IH | apply perm_swap].
  - apply Permutation_refl.
Qed.

Lemma orderByCreatedAtDesc_perm (l : list Transaction.t) :
  Permutation (orderByCreatedAtDesc l) l.
Proof.
  induction l as [|t l IH]; simpl; [constructor|].
  eapply Permutation_trans; [apply insertDesc_perm | apply perm_skip, IH].
Qed.

Lemma insertDesc_sorted (t : Transaction.t) (l : list Transaction.t) :
  mostRecentFirst l -> mostRecentFirst (insertDesc t l).
Proof.
  unfold mostRecentFirst.
  induction l as [|u l IH]; intros Hs; simpl.
  - repeat constructor.
  - destruct (Transaction.createdAt t <=? Transaction.createdAt u)%string
      eqn:Hle.
    + inversion Hs as [|? ? Hs' Hhd]; subst.
      constructor; [apply IH; exact Hs'|].
      destruct l as [|v l]; simpl.
      * constructor. exact Hle.
      * destruct (Transaction.createdAt t <=? Transaction.createdAt v)%string.
        -- inversion Hhd; subst. constructor. assumption.
        -- constructor. exact Hle.
    + constructor; [exact Hs|]. constructor.
      destruct (String.leb_total (Transaction.createdAt t)
                  (Transaction.createdAt u)); [congruence | assumption].
Qed.

Lemma orderByCreatedAtDesc_sorted (l : list Transaction.t) :
  mostRecentFirst (orderByCreatedAtDesc l).
Proof.
  induction l as [|t l IH]; simpl.
  - constructor.
  - apply insertDesc_sorted. exact IH.
Qed.

(** In the later revision [getTransactions] answers the owner of an
    account with all the transactions of the account and no others, each
    once, ordered by creation time with the most recent first, each with
    the type of the account. *)
Lemma Part002_getTransactions_ordered :
  forall ctx input s account,
    getAccount (byIdAndUser (forAccountId input) (user_id ctx)) s
    = Some account ->
    exists rows,
      Part002.getTransactions ctx input s = Ok rows
      /\ Permutation (map row rows) (transactionsOf (forAccountId input) s)
      /\ mostRecentFirst (map row rows)
      /\ Forall
           (fun r =>
              enrichedAccountType r = Some (Account.accountType account))
           rows.
Proof.
  intros ctx input s account Hacc. unfold Part002.getTransactions.
  rewrite Hacc. eexists. split; [reflexivity|].
  rewrite map_map. simpl. rewrite map_id.
  split; [apply orderByCreatedAtDesc_perm|].
  split; [apply orderByCreatedAtDesc_sorted|].
  apply Forall_forall. intros r Hr. apply in_map_iff in Hr.
  destruct Hr as [t [<- _]]. reflexivity.
Qed.

(** [server/routers/account.ts] answers with the same transactions, in
    the order of the table. *)
Lemma AccountTs_getTransactions_complete :
  forall ctx input s account,
    getAccount (byIdAndUser (forAccountId input) (user_id ctx)) s
    = Some account ->
    exists rows,
      AccountTs.getTransactions ctx input s = Ok rows
      /\ map row rows = transactionsOf (forAccountId input) s.
Proof.
  intros ctx input s account Hacc. unfold AccountTs.getTransactions.
  rewrite Hacc. eexists. split; [reflexivity|].
  rewrite map_map. simpl. apply map_id.
Qed.

(** C6 fails on [server/routers/account.ts]: its query has no [ORDER BY].
    With a deposit of 1 May followed by a deposit of 2 May in the table,
    Alice is answered with the deposit of 1 May first; the later
    revision answers with the deposit of 2 May first. *)
Theorem AccountTs_getTransactions_oldest_first :
  (exists rows,
      AccountTs.getTransactions alice history store2 = Ok rows
      /\ map (fun r => Transaction.createdAt (row r)) rows
         = ["2024-05-01 10:00:00"; "2024-05-02 10:00:00"]
      /\ ~ mostRecentFirst (map row rows))
  /\ (exists rows,
         Part002.getTransactions alice history store2 = Ok rows
         /\ map (fun r => Transaction.createdAt (row r)) rows
            = ["2024-05-02 10:00:00"; "2024-05-01 10:00:00"]).
Proof.
  split.
  - eexists. split; [reflexivity|]. split; [reflexivity|].
    simpl. unfold mostRecentFirst. intros Hs.
    inversion Hs as [|? ? _ Hhd]; subst.
    inversion Hhd as [|? ? Hle]; subst.
    vm_compute in Hle. discriminate.
  - eexists. split; reflexivity.
Qed.

(** ** Conservation: the balance is the sum of the fundings *)

Lemma nextId_above (ids : list Z) (i : Z) : In i ids -> i < nextId ids.
Proof.
  unfold nextId. induction ids as [|j ids IH]; cbn [fold_right In];
    [contradiction|].
  intros [->|Hin]; [lia|]. specialize (IH Hin). lia.
Qed.

Lemma find_head_filter (A : Type) (p : A -> bool) (l : list A) :
  find p l = hd_error (filter p l).
Proof.
  induction l as [|a l IH]; simpl; [reflexivity|].
  destruct (p a); [reflexivity | exact IH].
Qed.

Lemma find_and_filter (A : Type) (p q : A -> bool) (l : list A) :
  find (fun a => p a && q a) l = find q (filter p l).
Proof.
  induction l as [|a l IH]; simpl; [reflexivity|].
  destruct (p a); simpl; [|exact IH].
  destruct (q a); [reflexivity | exact IH].
Qed.

Lemma find_app_none (A : Type) (p : A -> bool) (l l' : list A) :
  find p l = None -> find p (l ++ l') = find p l'.
Proof.
  induction l as [|a l IH]; simpl; [reflexivity|].
  destruct (p a); [discriminate | exact IH].
Qed.

Lemma filter_all_false (A : Type) (p : A -> bool) (l : list A) :
  (forall a, In a l -> p a = false) -> filter p l = [].
Proof.
  induction l as [|a l IH]; intros H; simpl; [reflexivity|].
  rewrite (H a (or_introl eq_refl)). apply IH.
  intros b Hb. apply H. right. exact Hb.
Qed.

Lemma filter_map_credit (i : Z) (amt : JS.number) (l : list Account.t) :
  filter (byId i) (map (fun a => if byId i a then credit amt a else a) l)
  = map (credit amt) (filter (byId i) l).
Proof.
  induction l as [|a l IH]; simpl; [reflexivity|].
  destruct (byId i a) eqn:Hi.
  - rewrite byId_credit, Hi. simpl. rewrite IH. reflexivity.
  - rewrite Hi. exact IH.
Qed.

Lemma uniqueAccountNumber_free (generate : nat -> string) (s : Store) :
  forall fuel attempt n draws,
    uniqueAccountNumber fuel generate attempt s = Some (n, draws) ->
    getAccount (byAccountNumber n) s = None.
Proof.
  induction fuel as [|fuel IH]; intros attempt n draws; simpl;
    [discriminate|].
  destruct (getAccount (byAccountNumber (generate attempt)) s) eqn:Hget.
  - apply IH.
  - intros H. injection H as <- _. exact Hget.
Qed.

(** The state [createAccount] leaves when no one else touches the store:
    the row read back is the row inserted, with a fresh id, the balance 0
    and no transaction. *)
Lemma opened_account_ledger (u : Z) (n : string) (ty : AccountType)
    (clock : Clock) (s : Store) :
  referencesHold s ->
  getAccount (byAccountNumber n) s = None ->
  let s1 := insertAccount u n ty (JS.Fin 0) "active" clock s in
  exists a,
    getAccount (byAccountNumber n) s1 = Some a
    /\ Account.userId a = u
    /\ ledger (Account.id a) u JS.zero [] s1.
Proof.
  intros Href Hfree s1.
  set (a := {| Account.id := nextId (map Account.id (accounts s));
               Account.userId := u;
               Account.accountNumber := n;
               Account.accountType := ty;
               Account.balance := JS.Fin 0;
               Account.status := "active";
               Account.createdAt := currentTimestamp clock |}).
  assert (Hfresh :
    forall a', In a' (accounts s) -> byId (Account.id a) a' = false).
  { intros a' Hin. unfold byId. apply Z.eqb_neq.
    pose proof (@nextId_above (map Account.id (accounts s)) (Account.id a')
                  (in_map Account.id _ _ Hin)) as Hlt.
    simpl. lia. }
  exists a. split; [|split; [reflexivity|]].
  - unfold getAccount, s1, insertAccount. simpl.
    unfold getAccount in Hfree. rewrite find_app_none by exact Hfree. simpl.
    unfold byAccountNumber. simpl. rewrite String.eqb_refl. reflexivity.
  - split.
    + exists a. unfold s1, insertAccount. simpl.
      rewrite filter_app, filter_all_false by exact Hfresh. simpl.
      unfold byId. simpl. rewrite Z.eqb_refl. repeat split.
    + unfold transactionsOf, s1, insertAccount. simpl.
      rewrite filter_all_false; [reflexivity|].
      intros t Ht. apply Z.eqb_neq. intros Heq.
      destruct (Href t Ht) as [a' [Hin Hid]].
      specialize (Hfresh a' Hin). unfold byId in Hfresh.
      apply Z.eqb_neq in Hfresh. simpl in Hfresh. simpl in Heq. lia.
Qed.

Lemma AccountTs_createAccount_ledger :
  forall fuel random clock ctx input s0 a s1,
    referencesHold s0 ->
    AccountTs.createAccount fuel random clock ctx input s0 = Some (Ok a, s1) ->
    ledger (Account.id a) (user_id ctx) JS.zero [] s1.
Proof.
  intros fuel random clock ctx input s0 a s1 Href.
  unfold AccountTs.createAccount, AccountTs.createAccount_with, quiet.
  destruct (getAccount (byUserAndType (user_id ctx) (accountType input)) s0);
    [discriminate|].
  destruct (uniqueAccountNumber fuel _ 0 s0) as [[n k]|] eqn:Hloop;
    [|discriminate].
  apply uniqueAccountNumber_free in Hloop.
  destruct (@opened_account_ledger (user_id ctx) n (accountType input) clock
              s0 Href Hloop) as [a' [Hget [_ Hledger]]].
  rewrite Hget. intros H. injection H as <- <-. exact Hledger.
Qed.

Lemma Part002_createAccount_ledger :
  forall fuel random clock ctx input s0 a s1,
    referencesHold s0 ->
    Part002.createAccount fuel random clock ctx input s0 = Some (Ok a, s1) ->
    ledger (Account.id a) (user_id ctx) JS.zero [] s1.
Proof.
  intros fuel random clock ctx input s0 a s1 Href.
  unfold Part002.createAccount, Part002.createAccount_with, quiet.
  destruct (getAccount (byUserAndType (user_id ctx) (accountType input)) s0);
    [discriminate|].
  destruct (uniqueAccountNumber fuel _ 0 s0) as [[n k]|] eqn:Hloop;
    [|discriminate].
  apply uniqueAccountNumber_free in Hloop.
  destruct (@opened_account_ledger (user_id ctx) n (accountType input) clock
              s0 Href Hloop) as [a' [Hget [_ Hledger]]].
  rewrite Hget. intros H. injection H as <- <-. exact Hledger.
Qed.

Lemma ledger_step (i u : Z) (b : JS.number) (amts : list JS.number)
    (input : FundInput) (s s' : Store) :
  accountId input = i ->
  ledger i u b amts s ->
  fullyApplied input s s' ->
  ledger i u (JS.add b (amount input)) (amts ++ [amount input]) s'.
Proof.
  intros Hi [[acc [Hfilter [Hu [Hst Hb]]]] Hamts]
    [[t [Htx [Hacc [Hamt _]]]] [Haccounts _]].
  subst i. split.
  - exists (credit (amount input) acc).
    rewrite Haccounts, filter_map_credit, Hfilter. simpl.
    repeat split; try assumption. rewrite Hb. reflexivity.
  - unfold transactionsOf. rewrite Htx, filter_app, map_app. simpl.
    rewrite Hacc, Z.eqb_refl. simpl. rewrite Hamt.
    unfold transactionsOf in Hamts. rewrite Hamts. reflexivity.
Qed.

Lemma fundEach_ledger
    (fund : Engine -> Clock -> Ctx -> FundInput -> Store
            -> result FundResult * Store)
    (i u : Z) :
  (forall engine clock ctx input s,
      allOrNothing input s (fund engine clock ctx input s)) ->
  forall calls b amts s s2,
    Forall (fun c => accountId (callInput c) = i) calls ->
    ledger i u b amts s ->
    fundEach fund calls s = Some s2 ->
    ledger i u (fold_left JS.add (amounts calls) b) (amts ++ amounts calls) s2.
Proof.
  intros Hfund. induction calls as [|c calls IH];
    intros b amts s s2 Hall Hledger Hrun; simpl in *.
  - injection Hrun as <-. rewrite app_nil_r. exact Hledger.
  - inversion Hall as [|? ? Hc Hrest]; subst.
    pose proof (Hfund (callEngine c) (callClock c) (callCtx c) (callInput c) s)
      as Hcall.
    destruct (fund (callEngine c) (callClock c) (callCtx c) (callInput c) s)
      as [[r|e] s'] eqn:Hres; [|discriminate].
    destruct Hcall as [[r' [_ Happlied]] | [e [He _]]];
      [|simpl in He; discriminate].
    simpl in Happlied.
    pose proof (ledger_step eq_refl Hledger Happlied) as Hnext.
    specialize (IH _ _ _ _ Hrest Hnext Hrun).
    rewrite <- app_assoc in IH. exact IH.
Qed.

Lemma ledger_balance (i u : Z) (b : JS.number) (amts : list JS.number)
    (s : Store) :
  ledger i u b amts s ->
  getBalance i s = Some b
  /\ exists acc,
      getAccount (byIdAndUser i u) s = Some acc
      /\ List.length (transactionsOf i s) = List.length amts.
Proof.
  intros [[acc [Hfilter [Hu [_ Hb]]]] Hamts]. split.
  - unfold getBalance, getAccount. rewrite find_head_filter, Hfilter.
    simpl. rewrite Hb. reflexivity.
  - exists acc. split.
    + unfold getAccount, byIdAndUser.
      rewrite (find_and_filter (byId i)
                 (fun a => Z.eqb (Account.userId a) u)), Hfilter.
      simpl. rewrite Hu, Z.eqb_refl. reflexivity.
    + rewrite <- Hamts. rewrite length_map. reflexivity.
Qed.

(** C2, as the code has it.  In either revision: an account opened by
    [createAccount] in a store whose transactions all refer to accounts,
    then funded by N successful calls of [fundAccount] made one after the
    other, has the balance ((a1 + a2) + ...) + aN, every sum rounded to
    binary64, and [getTransactions] answers its owner with exactly N rows
    whose amounts are a1, ..., aN: in this order in
    [server/routers/account.ts], so that adding them up as they come gives
    the balance, and in some order in the later revision. *)
Theorem balance_is_sum_of_fundings :
  (forall fuel random clock ctx input s0 a s1 calls s2,
      referencesHold s0 ->
      AccountTs.createAccount fuel random clock ctx input s0
      = Some (Ok a, s1) ->
      Forall (fun c => accountId (callInput c) = Account.id a) calls ->
      fundEach AccountTs.fundAccount calls s1 = Some s2 ->
      conserved AccountTs.getTransactions ctx a calls s2
      /\ exists rows,
          AccountTs.getTransactions ctx {| forAccountId := Account.id a |} s2
          = Ok rows
          /\ map (fun r => Transaction.amount (row r)) rows = amounts calls
          /\ getBalance (Account.id a) s2
             = Some (total (map (fun r => Transaction.amount (row r)) rows)))
  /\ (forall validateCardNumber fuel random clock ctx input s0 a s1 calls s2,
         referencesHold s0 ->
         Part002.createAccount fuel random clock ctx input s0
         = Some (Ok a, s1) ->
         Forall (fun c => accountId (callInput c) = Account.id a) calls ->
         fundEach (Part002.fundAccount validateCardNumber) calls s1
         = Some s2 ->
         conserved Part002.getTransactions ctx a calls s2).
Proof.
  split.
  - intros fuel random clock ctx input s0 a s1 calls s2 Href Hopen Hall Hrun.
    pose proof (AccountTs_createAccount_ledger _ _ _ _ _ Href Hopen) as H1.
    pose proof (@fundEach_ledger AccountTs.fundAccount (Account.id a)
                  (user_id ctx) AccountTs_fundAccount_allOrNothing
                  calls _ _ _ _ Hall H1 Hrun) as H2.
    simpl in H2.
    destruct (ledger_balance H2) as [Hbal [acc [Hacc Hlen]]].
    destruct H2 as [_ Hamts].
    destruct (@AccountTs_getTransactions_complete ctx
                {| forAccountId := Account.id a |} s2 acc Hacc)
      as [rows [Hrows Hmap]]. simpl in Hmap.
    assert (Hsame :
      map (fun r => Transaction.amount (row r)) rows = amounts calls).
    { rewrite <- (map_map row Transaction.amount), Hmap. exact Hamts. }
    split.
    + split; [exact Hbal|].
      exists rows. split; [exact Hrows|]. split.
      * rewrite <- (length_map row), Hmap, Hlen.
        unfold amounts. apply length_map.
      * rewrite Hsame. apply Permutation_refl.
    + exists rows. split; [exact Hrows|]. split; [exact Hsame|].
      rewrite Hsame. exact Hbal.
  - intros validateCardNumber fuel random clock ctx input s0 a s1 calls s2
      Href Hopen Hall Hrun.
    pose proof (Part002_createAccount_ledger _ _ _ _ _ Href Hopen) as H1.
    pose proof (@fundEach_ledger (Part002.fundAccount validateCardNumber)
                  (Account.id a) (user_id ctx)
                  (Part002_fundAccount_allOrNothing validateCardNumber)
                  calls _ _ _ _ Hall H1 Hrun) as H2.
    simpl in H2.
    destruct (ledger_balance H2) as [Hbal [acc [Hacc Hlen]]].
    destruct H2 as [_ Hamts].
    split; [exact Hbal|].
    destruct (@Part002_getTransactions_ordered ctx
                {| forAccountId := Account.id a |} s2 acc Hacc)
      as [rows [Hrows [Hperm _]]]. simpl in Hperm.
    exists rows. split; [exact Hrows|]. split.
    + rewrite <- (length_map row), (Permutation_length Hperm), Hlen.
      unfold amounts. apply length_map.
    + rewrite <- (map_map row Transaction.amount), <- Hamts.
      apply Permutation_map. exact Hperm.
Qed.

Lemma balance_is_sum_of_fundings_witness :
  referencesHold emptyStore
  /\ conserved AccountTs.getTransactions alice aliceChecking twoFundings
       storeFunded
  /\ conserved Part002.getTransactions alice aliceChecking twoFundings
       storeFunded
  /\ getBalance 1 storeFunded = Some (JS.Fin 150).
Proof.
  assert (Href : referencesHold emptyStore).
  { intros t Ht. simpl in Ht. contradiction. }
  assert (Hall :
    Forall (fun c => accountId (callInput c) = Account.id aliceChecking)
      twoFundings).
  { repeat constructor. }
  split; [exact Href|]. split; [|split].
  - apply (proj1 balance_is_sum_of_fundings 1%nat sevenForEver clock0 alice
             openChecking emptyStore aliceChecking storeOpened twoFundings
             storeFunded Href);
      [vm_compute; reflexivity | exact Hall | vm_compute; reflexivity].
  - apply (proj2 balance_is_sum_of_fundings noCard 1%nat sevenBytesForEver
             clock0 alice openChecking emptyStore aliceChecking storeOpened
             twoFundings storeFunded Href);
      [vm_compute; reflexivity | exact Hall | vm_compute; reflexivity].
  - vm_compute. reflexivity.
Defined.

(** C2 fails on the code as it is stated.  Alice opens an account and
    funds it with 0.1, 0.2 and 0.3, as binary64 has them: the three calls
    succeed, in both revisions, and the balance is 0.6000000000000001
    (1351079888211149 / 2^51), which is neither the sum of the three
    amounts nor what adding the rows in the order the later revision
    returns them in gives, 0.6 (5404319552844595 / 2^53). *)
Lemma balance_is_not_the_real_sum :
  AccountTs.createAccount 1 sevenForEver clock0 alice openChecking emptyStore
  = Some (Ok aliceChecking, storeOpened)
  /\ fundEach AccountTs.fundAccount threeFundings storeOpened
     = Some storeFundedThrice
  /\ fundEach (Part002.fundAccount noCard) threeFundings storeOpened
     = Some storeFundedThrice
  /\ getBalance 1 storeFundedThrice
     = Some (JS.Fin (1351079888211149 # 2251799813685248))
  /\ ~ conservedExactly AccountTs.getTransactions alice aliceChecking
         threeFundings storeFundedThrice
  /\ ~ conservedExactly Part002.getTransactions alice aliceChecking
         threeFundings storeFundedThrice
  /\ match Part002.getTransactions alice history storeFundedThrice with
     | Ok rows => total (map (fun r => Transaction.amount (row r)) rows)
     | Err _ => JS.NaN
     end
     = JS.Fin (5404319552844595 # 9007199254740992).
Proof.
  split; [vm_compute; reflexivity|].
  split; [vm_compute; reflexivity|].
  split; [vm_compute; reflexivity|].
  split; [vm_compute; reflexivity|].
  assert (Hbal :
    getBalance (Account.id aliceChecking) storeFundedThrice
    = Some (JS.Fin (1351079888211149 # 2251799813685248))).
  { vm_compute. reflexivity. }
  assert (Hdiffer :
    ~ JS.same (JS.Fin (1351079888211149 # 2251799813685248))
        (realTotal (amounts threeFundings))).
  { vm_compute. discriminate. }
  split; [|split].
  - intros [[b [Hb Hsame]] _]. rewrite Hbal in Hb. injection Hb as <-.
    exact (Hdiffer Hsame).
  - intros [[b [Hb Hsame]] _]. rewrite Hbal in Hb. injection Hb as <-.
    exact (Hdiffer Hsame).
  - vm_compute. reflexivity.
Qed.

(** ** Fundings in flight at the same time *)

Lemma ledger_owned (i u : Z) (b : JS.number) (amts : list JS.number)
    (s : Store) :
  ledger i u b amts s ->
  exists acc,
    getAccount (byIdAndUser i u) s = Some acc
    /\ Account.status acc = "active".
Proof.
  intros [[acc [Hfilter [Hu [Hst _]]]] _]. exists acc. split; [|exact Hst].
  unfold getAccount, byIdAndUser.
  rewrite (find_and_filter (byId i) (fun a => Z.eqb (Account.userId a) u)),
    Hfilter.
  simpl. rewrite Hu, Z.eqb_refl. reflexivity.
Qed.

Lemma runFunding_reliable (clock : Clock) (input : FundInput)
    (account : Account.t) (s : Store) :
  (exists b, getBalance (accountId input) s = Some b) ->
  exists r,
    fst (runFunding reliable clock input (amount input) account s) = Ok r.
Proof.
  intros [b Hb]. unfold runFunding, Db.transaction, funding.
  rewrite insertTransaction_deposit, Hb. eexists. reflexivity.
Qed.

Lemma total_paid_succ (q : Q) (m : nat) :
  total (paid q (S m)) = JS.add (total (paid q m)) (JS.Fin q)
  /\ paid q (S m) = (paid q m ++ [JS.Fin q])%list.
Proof.
  assert (H : paid q (S m) = (paid q m ++ [JS.Fin q])%list).
  { unfold paid. simpl. apply repeat_cons. }
  split; [|exact H]. unfold total. rewrite H, fold_left_app. reflexivity.
Qed.

Section Interleavings.

Variable h : Handler.
Variable owner : Ctx.
Variable i : Z.
Variable q : Q.
Variable good : FundCall -> Prop.

Hypothesis good_begin :
  forall c s,
    good c ->
    begin h (callCtx c) (callInput c) s
    = inr (getAccount (byIdAndUser i (user_id owner)) s).

Hypothesis good_resume :
  forall c acc s,
    good c -> Account.status acc = "active" ->
    resume h (callEngine c) (callClock c) (callInput c) (Some acc) s
    = runFunding reliable (callClock c) (callInput c) (amount (callInput c))
        acc s.

Hypothesis good_input :
  forall c,
    good c -> accountId (callInput c) = i /\ amount (callInput c) = JS.Fin q.

Lemma advance_counted (c : FundCall) (p p' : Progress) (s s' : Store)
    (m : nat) :
  good c -> sound p ->
  ledger i (user_id owner) (total (paid q m)) (paid q m) s ->
  advance h c p s = (p', s') ->
  sound p'
  /\ ((isFinished p' = isFinished p /\ s' = s)
      \/ (isFinished p = false /\ isFinished p' = true
          /\ ledger i (user_id owner) (total (paid q (S m))) (paid q (S m))
               s')).
Proof.
  intros Hgood Hsound Hledger Hadv.
  destruct Hsound as [-> | [[acc [-> Hst]] | [r ->]]]; simpl in Hadv.
  - rewrite (@good_begin c s Hgood) in Hadv.
    destruct (ledger_owned Hledger) as [acc [Hacc Hst]]. rewrite Hacc in Hadv.
    injection Hadv as <- <-. split; [|left; split; reflexivity].
    right. left. exists acc. split; [reflexivity | exact Hst].
  - rewrite (@good_resume c acc s Hgood Hst) in Hadv.
    destruct (good_input Hgood) as [Hi Hq].
    destruct (ledger_balance Hledger) as [Hbal _].
    assert (Hb : exists b, getBalance (accountId (callInput c)) s = Some b).
    { rewrite Hi. eexists. exact Hbal. }
    pose proof (runFunding_allOrNothing reliable (callClock c) (callInput c)
                  acc s) as Hcall.
    destruct (@runFunding_reliable (callClock c) (callInput c) acc s Hb)
      as [r Hr].
    destruct (runFunding reliable (callClock c) (callInput c)
                (amount (callInput c)) acc s) as [r0 s0] eqn:Hrun.
    simpl in Hr. subst r0. injection Hadv as <- <-.
    split; [right; right; exists r; reflexivity|].
    right. split; [reflexivity|]. split; [reflexivity|].
    destruct Hcall as [[r' [_ Happlied]] | [e [He _]]];
      [|simpl in He; discriminate].
    simpl in Happlied.
    pose proof (ledger_step Hi Hledger Happlied) as Hnext.
    destruct (total_paid_succ q m) as [-> ->]. rewrite Hq in Hnext.
    exact Hnext.
  - injection Hadv as <- <-. split; [|left; split; reflexivity].
    right. right. exists r. reflexivity.
Qed.

Lemma stepAt_spec :
  forall calls k ps s ps' s',
    Forall good calls ->
    stepAt h calls k ps s = (ps', s') ->
    (ps' = ps /\ s' = s)
    \/ exists c p p' pre post,
        good c
        /\ ps = (pre ++ p :: post)%list
        /\ ps' = (pre ++ p' :: post)%list
        /\ advance h c p s = (p', s').
Proof.
  induction calls as [|c calls IH]; intros k ps s ps' s' Hgood Hstep.
  - simpl in Hstep. injection Hstep as <- <-. left. split; reflexivity.
  - inversion Hgood as [|? ? Hc Hrest]; subst.
    destruct ps as [|p ps]; simpl in Hstep.
    + injection Hstep as <- <-. left. split; reflexivity.
    + destruct k as [|k].
      * destruct (advance h c p s) as [p' s''] eqn:Hadv.
        injection Hstep as <- <-. right.
        exists c, p, p', [], ps. repeat split; assumption.
      * destruct (stepAt h calls k ps s) as [ps'' s''] eqn:Htail.
        injection Hstep as <- <-.
        destruct (IH _ _ _ _ _ Hrest Htail)
          as [[-> ->] | [c' [p0 [p0' [pre [post [Hc' [-> [-> Hadv]]]]]]]]].
        -- left. split; reflexivity.
        -- right. exists c', p0, p0', (p :: pre), post.
           repeat split; assumption.
Qed.

Lemma finished_app (l l' : list Progress) :
  finished (l ++ l') = (finished l + finished l')%nat.
Proof. unfold finished. rewrite filter_app, length_app. reflexivity. Qed.

Lemma finished_cons (p : Progress) (l : list Progress) :
  finished (p :: l) = ((if isFinished p then 1 else 0) + finished l)%nat.
Proof. unfold finished. simpl. destruct (isFinished p); reflexivity. Qed.

Lemma stepAt_counted :
  forall calls k ps s ps' s',
    Forall good calls ->
    counted i (user_id owner) q ps s ->
    stepAt h calls k ps s = (ps', s') ->
    counted i (user_id owner) q ps' s' /\ List.length ps' = List.length ps.
Proof.
  intros calls k ps s ps' s' Hgood [Hsound Hledger] Hstep.
  destruct (@stepAt_spec calls k ps s ps' s' Hgood Hstep)
    as [[-> ->] | [c [p [p' [pre [post [Hc [-> [-> Hadv]]]]]]]]].
  - split; [split; assumption | reflexivity].
  - apply Forall_app in Hsound. destruct Hsound as [Hpre Hpost].
    inversion Hpost as [|? ? Hp Hpost']; subst.
    destruct (@advance_counted c p p' s s' _ Hc Hp Hledger Hadv)
      as [Hp' Hcases].
    split; [|rewrite !length_app; reflexivity].
    split.
    + apply Forall_app. split; [exact Hpre|]. constructor; assumption.
    + rewrite finished_app, finished_cons in Hledger |- *.
      destruct Hcases as [[Heq ->] | [Hf [Hf' Hnext]]].
      * rewrite Heq. exact Hledger.
      * rewrite Hf'. rewrite finished_app, finished_cons, Hf in Hnext.
        replace (finished pre + (1 + finished post))%nat
          with (S (finished pre + (0 + finished post)))%nat by lia.
        exact Hnext.
Qed.

Lemma run_counted :
  forall calls schedule ps s ps' s',
    Forall good calls ->
    counted i (user_id owner) q ps s ->
    run h calls schedule ps s = (ps', s') ->
    counted i (user_id owner) q ps' s' /\ List.length ps' = List.length ps.
Proof.
  intros calls schedule. induction schedule as [|k schedule IH];
    intros ps s ps' s' Hgood Hcounted Hrun; simpl in Hrun.
  - injection Hrun as <- <-. split; [exact Hcounted | reflexivity].
  - destruct (stepAt h calls k ps s) as [ps1 s1] eqn:Hstep.
    destruct (@stepAt_counted calls k ps s ps1 s1 Hgood Hcounted Hstep)
      as [H1 Hlen1].
    destruct (IH ps1 s1 ps' s' Hgood H1 Hrun) as [H2 Hlen2].
    split; [exact H2 | congruence].
Qed.

Lemma finished_all (ps : list Progress) :
  forallb isFinished ps = true -> finished ps = List.length ps.
Proof.
  induction ps as [|p ps IH]; simpl; [reflexivity|].
  intros H. apply andb_prop in H. destruct H as [Hp Hps].
  rewrite finished_cons, Hp, (IH Hps). reflexivity.
Qed.

Lemma finished_waiting (K : nat) : finished (repeat Waiting K) = 0%nat.
Proof. induction K; [reflexivity | assumption]. Qed.

Lemma sound_waiting (K : nat) : Forall sound (repeat Waiting K).
Proof.
  apply Forall_forall. intros p Hp. apply repeat_spec in Hp. left. exact Hp.
Qed.

Lemma sound_finished (ps : list Progress) :
  Forall sound ps -> forallb isFinished ps = true -> Forall succeeded ps.
Proof.
  induction 1 as [|p ps Hp _ IH]; simpl; [constructor|].
  intros H. apply andb_prop in H. destruct H as [Hfin Hrest].
  constructor; [|apply IH; exact Hrest].
  destruct Hp as [-> | [[acc [-> _]] | Hs]]; [discriminate.. | exact Hs].
Qed.

Lemma interleaved_all_counted :
  forall calls schedule s0 ps s,
    Forall good calls ->
    ledger i (user_id owner) JS.zero [] s0 ->
    run h calls schedule (repeat Waiting (List.length calls)) s0 = (ps, s) ->
    forallb isFinished ps = true ->
    allCounted i q (List.length calls) ps s.
Proof.
  intros calls schedule s0 ps s Hgood Hledger Hrun Hfin.
  assert (Hstart :
    counted i (user_id owner) q (repeat Waiting (List.length calls)) s0).
  { split; [apply sound_waiting|]. rewrite finished_waiting. exact Hledger. }
  destruct (@run_counted calls schedule _ _ ps s Hgood Hstart Hrun)
    as [[Hsound Hend] Hlen].
  rewrite repeat_length in Hlen.
  rewrite (@finished_all ps Hfin), Hlen in Hend.
  destruct (ledger_balance Hend) as [Hbal [acc [_ Hrows]]].
  split; [|split].
  - exact Hbal.
  - rewrite Hrows. unfold paid. apply repeat_length.
  - apply sound_finished; assumption.
Qed.

End Interleavings.

(** A call that runs its two stretches with nothing in between is a call
    of [fundAccount]. *)
Lemma run_alone_is_fundAccount :
  (forall c s,
      run AccountTs_fundAccount [c] [0%nat; 0%nat] [Waiting] s
      = (let call :=
           AccountTs.fundAccount (callEngine c) (callClock c) (callCtx c)
             (callInput c) s in
         ([Finished (fst call)], snd call)))
  /\ (forall validateCardNumber c s,
         run (Part002_fundAccount validateCardNumber) [c] [0%nat; 0%nat]
           [Waiting] s
         = (let call :=
              Part002.fundAccount validateCardNumber (callEngine c)
                (callClock c) (callCtx c) (callInput c) s in
            ([Finished (fst call)], snd call))).
Proof.
  split.
  - intros c s. unfold AccountTs.fundAccount, AccountTs.fundAccount_with, quiet.
    simpl.
    destruct (AccountTs.fundAccount_begin (callCtx c) (callInput c) s);
      simpl; [reflexivity|].
    destruct (AccountTs.fundAccount_resume (callEngine c) (callClock c)
                (callInput c) o s); reflexivity.
  - intros validateCardNumber c s.
    unfold Part002.fundAccount, Part002.fundAccount_with, quiet. simpl.
    destruct (Part002.fundAccount_begin (callCtx c) (callInput c) s);
      simpl; [reflexivity|].
    destruct (Part002.fundAccount_resume validateCardNumber (callEngine c)
                (callClock c) (callInput c) o s); reflexivity.
Qed.

Lemma AccountTs_interleaved :
  forall owner i q calls schedule s0 ps s,
    Forall (goodCall_AccountTs owner i q) calls ->
    ledger i (user_id owner) JS.zero [] s0 ->
    run AccountTs_fundAccount calls schedule
      (repeat Waiting (List.length calls)) s0 = (ps, s) ->
    forallb isFinished ps = true ->
    allCounted i q (List.length calls) ps s.
Proof.
  intros owner i q.
  apply (@interleaved_all_counted AccountTs_fundAccount owner i q
           (goodCall_AccountTs owner i q)).
  - intros c s [_ [Hctx [Hi [Hq Hissues]]]]. simpl.
    unfold AccountTs.fundAccount_begin. rewrite Hq, Hissues, Hctx, Hi.
    reflexivity.
  - intros c acc s [Heng _] Hst. simpl.
    unfold AccountTs.fundAccount_resume, JS.parseFloat_toString.
    rewrite Hst, Heng. reflexivity.
  - intros c [_ [_ [Hi [Hq _]]]]. split; assumption.
Qed.

Lemma Part002_interleaved :
  forall validateCardNumber owner i q calls schedule s0 ps s,
    Forall (goodCall_Part002 validateCardNumber owner i q) calls ->
    ledger i (user_id owner) JS.zero [] s0 ->
    run (Part002_fundAccount validateCardNumber) calls schedule
      (repeat Waiting (List.length calls)) s0 = (ps, s) ->
    forallb isFinished ps = true ->
    allCounted i q (List.length calls) ps s.
Proof.
  intros validateCardNumber owner i q.
  apply (@interleaved_all_counted (Part002_fundAccount validateCardNumber)
           owner i q (goodCall_Part002 validateCardNumber owner i q)).
  - intros c s [_ [Hctx [Hi [Hq [Hissues _]]]]]. simpl.
    unfold Part002.fundAccount_begin, JS.parseFloat_toString.
    rewrite Hissues.
    apply Part002_inputIssues_none, Part002_amountIssues_none in Hissues.
    destruct Hissues as [_ ->]. rewrite Hctx, Hi. reflexivity.
  - intros c acc s [Heng [_ [_ [_ [_ Hfs]]]]] Hst. simpl.
    unfold Part002.fundAccount_resume, JS.parseFloat_toString.
    rewrite Hst, Hfs, Heng. reflexivity.
  - intros c [_ [_ [Hi [Hq _]]]]. split; assumption.
Qed.

(** C5, as the code has it.  In either revision: K calls of [fundAccount]
    of the same amount [q], good ones, on an account [createAccount] has
    just opened, run at the same time.  However their stretches
    interleave, when all have finished no call is lost: the balance is
    [q] added K times to 0, every sum rounded to binary64, the account has
    exactly K transaction rows, and every call has succeeded.  This holds
    for every K, so for 2, 10, 50 and 100. *)
Theorem concurrent_fundings_all_counted :
  (forall fuel random clock ctx input s00 a s0 q calls schedule ps s,
      referencesHold s00 ->
      AccountTs.createAccount fuel random clock ctx input s00
      = Some (Ok a, s0) ->
      Forall (goodCall_AccountTs ctx (Account.id a) q) calls ->
      run AccountTs_fundAccount calls schedule
        (repeat Waiting (List.length calls)) s0 = (ps, s) ->
      forallb isFinished ps = true ->
      allCounted (Account.id a) q (List.length calls) ps s)
  /\ (forall validateCardNumber fuel random clock ctx input s00 a s0 q calls
             schedule ps s,
         referencesHold s00 ->
         Part002.createAccount fuel random clock ctx input s00
         = Some (Ok a, s0) ->
         Forall (goodCall_Part002 validateCardNumber ctx (Account.id a) q)
           calls ->
         run (Part002_fundAccount validateCardNumber) calls schedule
           (repeat Waiting (List.length calls)) s0 = (ps, s) ->
         forallb isFinished ps = true ->
         allCounted (Account.id a) q (List.length calls) ps s).
Proof.
  split.
  - intros fuel random clock ctx input s00 a s0 q calls schedule ps s
      Href Hopen Hgood Hrun Hfin.
    eapply AccountTs_interleaved; try eassumption.
    eapply AccountTs_createAccount_ledger; eassumption.
  - intros validateCardNumber fuel random clock ctx input s00 a s0 q calls
      schedule ps s Href Hopen Hgood Hrun Hfin.
    eapply Part002_interleaved; try eassumption.
    eapply Part002_createAccount_ledger; eassumption.
Qed.

Lemma concurrent_fundings_all_counted_witness :
  allCounted 1 100 2
    (fst (run AccountTs_fundAccount twoAtOnce [0; 1; 0; 1]%nat
            [Waiting; Waiting] storeOpened))
    (snd (run AccountTs_fundAccount twoAtOnce [0; 1; 0; 1]%nat
            [Waiting; Waiting] storeOpened))
  /\ allCounted 1 100 2
       (fst (run (Part002_fundAccount noCard) twoAtOnce [0; 1; 1; 0]%nat
               [Waiting; Waiting] storeOpened))
       (snd (run (Part002_fundAccount noCard) twoAtOnce [0; 1; 1; 0]%nat
               [Waiting; Waiting] storeOpened)).
Proof.
  assert (Href : referencesHold emptyStore).
  { intros t Ht. simpl in Ht. contradiction. }
  split.
  - apply (proj1 concurrent_fundings_all_counted 1%nat sevenForEver clock0
             alice openChecking emptyStore aliceChecking storeOpened 100%Q
             twoAtOnce [0; 1; 0; 1]%nat _ _ Href).
    + reflexivity.
    + repeat constructor.
    + apply surjective_pairing.
    + reflexivity.
  - apply (proj2 concurrent_fundings_all_counted noCard 1%nat
             sevenBytesForEver clock0 alice openChecking emptyStore
             aliceChecking storeOpened 100%Q twoAtOnce [0; 1; 1; 0]%nat _ _
             Href).
    + reflexivity.
    + repeat constructor.
    + apply surjective_pairing.
    + reflexivity.
Defined.

(** C5 fails on the code as it is stated.  Ten calls of 0.1, as binary64
    has it, on the account Alice has just opened: all ten succeed and ten
    rows are written, in both revisions, and the balance is
    0.9999999999999999 (1 - 2^-53), which is not ten times 0.1, neither
    as a real number nor as the binary64 product, 1. *)
Lemma concurrent_fundings_not_K_times :
  Forall (goodCall_AccountTs alice 1 tenth) tenAtOnce
  /\ Forall (goodCall_Part002 noCard alice 1 tenth) tenAtOnce
  /\ run AccountTs_fundAccount tenAtOnce tenBeginTenResume
       (repeat Waiting 10) storeOpened
     = afterTenAtOnce
  /\ run (Part002_fundAccount noCard) tenAtOnce tenBeginTenResume
       (repeat Waiting 10) storeOpened
     = afterTenAtOnce
  /\ forallb isFinished (fst afterTenAtOnce) = true
  /\ List.length (transactionsOf 1 (snd afterTenAtOnce)) = 10%nat
  /\ getBalance 1 (snd afterTenAtOnce)
     = Some (JS.Fin (9007199254740991 # 9007199254740992))
  /\ ~ allCountedExactly 1 tenth 10 (fst afterTenAtOnce) (snd afterTenAtOnce)
  /\ JS.mul (JS.Fin 10) (JS.Fin tenth) = JS.Fin 1.
Proof.
  assert (Hbal :
    getBalance 1 (snd afterTenAtOnce)
    = Some (JS.Fin (9007199254740991 # 9007199254740992))).
  { vm_compute. reflexivity. }
  assert (Hdiffer :
    ~ JS.same (JS.Fin (9007199254740991 # 9007199254740992))
        (JS.Fin (inject_Z (Z.of_nat 10) * tenth))).
  { vm_compute. discriminate. }
  split.
  { apply Forall_forall. intros c Hc. apply repeat_spec in Hc. subst c.
    split; [reflexivity|]. split; [reflexivity|]. split; [reflexivity|].
    split; [reflexivity|]. vm_compute. reflexivity. }
  split.
  { apply Forall_forall. intros c Hc. apply repeat_spec in Hc. subst c.
    split; [reflexivity|]. split; [reflexivity|]. split; [reflexivity|].
    split; [reflexivity|]. split; vm_compute; reflexivity. }
  split; [vm_compute; reflexivity|].
  split; [vm_compute; reflexivity|].
  split; [vm_compute; reflexivity|].
  split; [vm_compute; reflexivity|].
  split; [exact Hbal|].
  split; [|vm_compute; reflexivity].
  intros [[b [Hb Hsame]] _]. rewrite Hbal in Hb. injection Hb as <-.
  exact (Hdiffer Hsame).
Qed.

(** When no one else touches the store, the balance a successful call of
    [fundAccount] returns is the balance the store holds afterwards: the
    query inside the transaction finds the row. *)
Lemma fundAccount_newBalance_is_stored :
  (forall engine clock ctx input s r s',
      AccountTs.fundAccount engine clock ctx input s = (Ok r, s') ->
      getBalance (accountId input) s' = Some (newBalance r))
  /\ (forall validateCardNumber engine clock ctx input s r s',
         Part002.fundAccount validateCardNumber engine clock ctx input s
         = (Ok r, s') ->
         getBalance (accountId input) s' = Some (newBalance r)).
Proof.
  split.
  - intros engine clock ctx input s.
    exact (AccountTs_fundAccount_with_newBalance quiet engine clock ctx
             input s).
  - intros validateCardNumber engine clock ctx input s.
    exact (Part002_fundAccount_with_newBalance validateCardNumber quiet
             engine clock ctx input s).
Qed.

(** [createAccount] returns as soon as a draw gives a free account number:
    with the first free number at draw [k], more than [k] iterations are
    enough, in both revisions. *)
Lemma createAccount_returns_at_first_free :
  (forall fuel random clock ctx input s k,
      getAccount
        (byAccountNumber (AccountTs.generateAccountNumber (random k))) s
      = None ->
      (forall j, (j < k)%nat ->
                 getAccount
                   (byAccountNumber
                      (AccountTs.generateAccountNumber (random j))) s
                 <> None) ->
      (k < fuel)%nat ->
      AccountTs.createAccount fuel random clock ctx input s <> None)
  /\ (forall fuel random clock ctx input s k,
         getAccount
           (byAccountNumber (Part002.generateAccountNumber (random k))) s
         = None ->
         (forall j, (j < k)%nat ->
                    getAccount
                      (byAccountNumber
                         (Part002.generateAccountNumber (random j))) s
                    <> None) ->
         (k < fuel)%nat ->
         Part002.createAccount fuel random clock ctx input s <> None).
Proof.
  split; intros fuel random clock ctx input s k Hfree Htaken Hfuel.
  - unfold AccountTs.createAccount, AccountTs.createAccount_with.
    destruct (getAccount (byUserAndType (user_id ctx) (accountType input)) s);
      [discriminate|].
    rewrite (@uniqueAccountNumber_from
               (fun k => AccountTs.generateAccountNumber (random k)) s k
               0%nat fuel Hfree Htaken Hfuel).
    match goal with
    | |- match ?x with _ => _ end <> None => destruct x; discriminate
    end.
  - unfold Part002.createAccount, Part002.createAccount_with.
    destruct (getAccount (byUserAndType (user_id ctx) (accountType input)) s);
      [discriminate|].
    rewrite (@uniqueAccountNumber_from
               (fun k => Part002.generateAccountNumber (random k)) s k
               0%nat fuel Hfree Htaken Hfuel).
    match goal with
    | |- match ?x with _ => _ end <> None => destruct x; discriminate
    end.
Qed.

(** * Further properties of the router *)

(** ** [createAccount] *)

Lemma uniqueAccountNumber_generated (generate : nat -> string) (s : Store) :
  forall fuel attempt n draws,
    uniqueAccountNumber fuel generate attempt s = Some (n, draws) ->
    exists k, n = generate k.
Proof.
  induction fuel as [|fuel IH]; intros attempt n draws; simpl;
    [discriminate|].
  destruct (getAccount (byAccountNumber (generate attempt)) s).
  - apply IH.
  - intros H. injection H as <- _. exists attempt. reflexivity.
Qed.

Lemma inserted_account_is_read_back (ctx : Ctx) (input : CreateInput)
    (n : string) (clock : Clock) (s : Store) :
  getAccount (byAccountNumber n) s = None ->
  getAccount (byAccountNumber n)
    (insertAccount (user_id ctx) n (accountType input) (JS.Fin 0) "active"
       clock s)
  = Some (openedRow ctx input n clock s).
Proof.
  intros Hfree. unfold getAccount, insertAccount in *. simpl.
  rewrite find_app_none by exact Hfree. simpl.
  unfold byAccountNumber. simpl. rewrite String.eqb_refl. reflexivity.
Qed.

Lemma AccountTs_generateAccountNumber_shape (random : Q) :
  randomNumber random ->
  tenDigitsLeadingZero (AccountTs.generateAccountNumber random).
Proof.
  intros Hr. unfold AccountTs.generateAccountNumber.
  destruct (floor_scaled_random Hr) as [q [-> [Hlo Hhi]]].
  unfold JS.floorToString, JS.integerToString.
  destruct (Z.ltb_spec (JS.floor q) 0) as [Hneg|_]; [lia|].
  apply padStart_toString. lia.
Qed.

Lemma Part002_generateAccountNumber_shape
    (randomBytes : byte * byte * byte * byte) :
  tenDigitsLeadingZero (Part002.generateAccountNumber randomBytes).
Proof.
  destruct randomBytes as [[[b0 b1] b2] b3].
  unfold Part002.generateAccountNumber.
  apply padStart_toString. apply N.mod_lt. discriminate.
Qed.

Lemma AccountTs_createAccount_shape :
  forall fuel random clock ctx input s r s',
    AccountTs.createAccount fuel random clock ctx input s = Some (r, s') ->
    opensOneAccount ctx input clock s r s'
    /\ (forall a, r = Ok a ->
                   exists k,
                     Account.accountNumber a
                     = AccountTs.generateAccountNumber (random k)).
Proof.
  intros fuel random clock ctx input s r s'.
  unfold AccountTs.createAccount, AccountTs.createAccount_with, quiet.
  destruct (getAccount (byUserAndType (user_id ctx) (accountType input)) s)
    as [existing|] eqn:Hexisting.
  - intros H. injection H as <- <-. split; [|discriminate].
    left. eexists. repeat split. rewrite Hexisting. discriminate.
  - destruct (uniqueAccountNumber fuel _ 0 s) as [[n d]|] eqn:Hloop;
      [|discriminate].
    pose proof (uniqueAccountNumber_free _ _ _ _ Hloop) as Hfree.
    destruct (uniqueAccountNumber_generated _ _ _ _ Hloop) as [k Hk].
    rewrite (@inserted_account_is_read_back ctx input n clock s Hfree).
    intros H. injection H as <- <-. split.
    + right. exists n. repeat split; assumption.
    + intros a Ha. injection Ha as <-. exists k. exact Hk.
Qed.

Lemma Part002_createAccount_shape :
  forall fuel random clock ctx input s r s',
    Part002.createAccount fuel random clock ctx input s = Some (r, s') ->
    opensOneAccount ctx input clock s r s'
    /\ (forall a, r = Ok a ->
                   exists k,
                     Account.accountNumber a
                     = Part002.generateAccountNumber (random k)).
Proof.
  intros fuel random clock ctx input s r s'.
  unfold Part002.createAccount, Part002.createAccount_with, quiet.
  destruct (getAccount (byUserAndType (user_id ctx) (accountType input)) s)
    as [existing|] eqn:Hexisting.
  - intros H. injection H as <- <-. split; [|discriminate].
    left. eexists. repeat split. rewrite Hexisting. discriminate.
  - destruct (uniqueAccountNumber fuel _ 0 s) as [[n d]|] eqn:Hloop;
      [|discriminate].
    pose proof (uniqueAccountNumber_free _ _ _ _ Hloop) as Hfree.
    destruct (uniqueAccountNumber_generated _ _ _ _ Hloop) as [k Hk].
    rewrite (@inserted_account_is_read_back ctx input n clock s Hfree).
    intros H. injection H as <- <-. split.
    + right. exists n. repeat split; assumption.
    + intros a Ha. injection Ha as <-. exists k. exact Hk.
Qed.

Lemma NoDup_snoc (A : Type) (l : list A) (x : A) :
  NoDup l -> ~ In x l -> NoDup (l ++ [x]).
Proof.
  intros Hl Hx. apply NoDup_app.
  - exact Hl.
  - constructor; [intros [] | constructor].
  - intros a Ha [<-|[]]. exact (Hx Ha).
Qed.

Lemma nextId_not_in (ids : list Z) : ~ In (nextId ids) ids.
Proof.
  intros Hin. pose proof (@nextId_above ids (nextId ids) Hin). lia.
Qed.

Lemma opensOneAccount_consistent (ctx : Ctx) (input : CreateInput)
    (clock : Clock) (s : Store) (r : result Account.t) (s' : Store) :
  opensOneAccount ctx input clock s r s' -> consistent s -> consistent s'.
Proof.
  intros [[e [_ [_ [-> _]]]] | [n [_ [Hacc [Htx [Htype Hnum]]]]]] Hs;
    [exact Hs|].
  destruct Hs as [Hids Hnums Hkeys Htxids Href].
  unfold getAccount in Htype, Hnum.
  constructor; rewrite ?Hacc, ?Htx, ?map_app; simpl; try assumption.
  - apply NoDup_snoc; [exact Hids | apply nextId_not_in].
  - apply NoDup_snoc; [exact Hnums|]. intros Hin.
    apply in_map_iff in Hin. destruct Hin as [a [Ha Hin]].
    pose proof (find_none _ _ Hnum a Hin) as Hf. unfold byAccountNumber in Hf.
    rewrite Ha, String.eqb_refl in Hf. discriminate.
  - apply NoDup_snoc; [exact Hkeys|]. intros Hin.
    apply in_map_iff in Hin. destruct Hin as [a [Ha Hin]].
    pose proof (find_none _ _ Htype a Hin) as Hf.
    unfold byUserAndType in Hf. unfold ownerAndType in Ha.
    injection Ha as Hu Ht. rewrite Hu, Ht, Z.eqb_refl in Hf.
    destruct (accountType input); discriminate.
  - intros t Ht. unfold referencesHold in Href. rewrite Htx in Ht.
    destruct (Href t Ht) as [a [Hin Hid]]. exists a.
    split; [|exact Hid]. rewrite Hacc. apply in_or_app. left. exact Hin.
Qed.

(** ** [fundAccount] *)

Lemma inserted_transaction_is_read_back (clock : Clock) (input : FundInput)
    (s : Store) :
  getTransaction (nextId (map Transaction.id (transactions s)))
    (updateBalance (amount input) (accountId input)
       (withDeposit clock input s))
  = Some (depositRow clock input s).
Proof.
  unfold getTransaction, updateBalance, withDeposit. simpl.
  rewrite find_app_none.
  - simpl. rewrite Z.eqb_refl. reflexivity.
  - apply find_all_false. intros t Ht. apply Z.eqb_neq. intros Heq.
    apply (@nextId_not_in (map Transaction.id (transactions s))).
    rewrite <- Heq. apply in_map. exact Ht.
Qed.

Lemma runFunding_shape (engine : Engine) (clock : Clock) (input : FundInput)
    (account : Account.t) (s : Store) :
  let call := runFunding engine clock input (amount input) account s in
  (exists e, fst call = Err e /\ snd call = s)
  \/ (exists res,
         fst call = Ok res
         /\ accounts (snd call)
            = map (fun a => if byId (accountId input) a
                            then credit (amount input) a else a)
                (accounts s)
         /\ transactions (snd call)
            = (transactions s ++ [depositRow clock input s])%list
         /\ transaction res = Some (depositRow clock input s)).
Proof.
  pose proof (inserted_transaction_is_read_back clock input s) as Hread.
  unfold runFunding, Db.transaction, funding, uncaught, throw.
  rewrite insertTransaction_deposit.
  destruct engine as [fi fu ft fb fc]; simpl.
  destruct fi; [left; eexists; split; reflexivity|].
  destruct (getBalance (accountId input) s);
    [|left; eexists; split; reflexivity].
  destruct fu; [left; eexists; split; reflexivity|].
  destruct ft; [left; eexists; split; reflexivity|].
  destruct fb; [left; eexists; split; reflexivity|].
  destruct fc; [left; eexists; split; reflexivity|].
  right. eexists. simpl. repeat split. exact Hread.
Qed.

Lemma AccountTs_fundAccount_shape :
  forall engine clock ctx input s,
    let call := AccountTs.fundAccount engine clock ctx input s in
    fundsOnce clock ctx input s (fst call) (snd call).
Proof.
  intros engine clock ctx input s.
  unfold AccountTs.fundAccount, AccountTs.fundAccount_with,
    AccountTs.fundAccount_begin, AccountTs.fundAccount_resume, quiet,
    JS.parseFloat_toString.
  destruct (AccountTs.amountIssues (amount input));
    [|left; eexists; split; reflexivity].
  destruct (getAccount (byIdAndUser (accountId input) (user_id ctx)) s)
    as [account|] eqn:Hacc; [|left; eexists; split; reflexivity].
  destruct (String.eqb_spec (Account.status account) "active") as [Hst|_];
    [|left; eexists; split; reflexivity].
  simpl.
  destruct (runFunding_shape engine clock input account s)
    as [[e [He Hs]] | [res [Hr [Ha [Ht Hrow]]]]].
  - left. exists e. split; assumption.
  - right. exists res, account. repeat split; assumption.
Qed.

Lemma Part002_fundAccount_shape :
  forall validateCardNumber engine clock ctx input s,
    let call :=
      Part002.fundAccount validateCardNumber engine clock ctx input s in
    fundsOnce clock ctx input s (fst call) (snd call).
Proof.
  intros validateCardNumber engine clock ctx input s.
  unfold Part002.fundAccount, Part002.fundAccount_with,
    Part002.fundAccount_begin, Part002.fundAccount_resume, quiet,
    JS.parseFloat_toString.
  destruct (Part002.inputIssues input);
    [|left; eexists; split; reflexivity].
  destruct (Part002.checkAmount (amount input));
    [left; eexists; split; reflexivity|].
  destruct (getAccount (byIdAndUser (accountId input) (user_id ctx)) s)
    as [account|] eqn:Hacc; [|left; eexists; split; reflexivity].
  destruct (String.eqb_spec (Account.status account) "active") as [Hst|_];
    [|left; eexists; split; reflexivity].
  simpl.
  destruct (Part002.checkFundingSource validateCardNumber
              (fundingSource input));
    [left; eexists; split; reflexivity|].
  destruct (runFunding_shape engine clock input account s)
    as [[e [He Hs]] | [res [Hr [Ha [Ht Hrow]]]]].
  - left. exists e. split; assumption.
  - right. exists res, account. repeat split; assumption.
Qed.

Lemma map_credit_same (B : Type) (f : Account.t -> B) (i : Z)
    (amt : JS.number) (l : list Account.t) :
  (forall a, f (credit amt a) = f a) ->
  map f (map (fun a => if byId i a then credit amt a else a) l) = map f l.
Proof.
  intros Hf. rewrite map_map. apply map_ext. intros a.
  destruct (byId i a); [apply Hf | reflexivity].
Qed.

Lemma fundsOnce_consistent (clock : Clock) (ctx : Ctx) (input : FundInput)
    (s : Store) (r : result FundResult) (s' : Store) :
  fundsOnce clock ctx input s r s' -> consistent s -> consistent s'.
Proof.
  intros [[e [_ ->]] | [res [account [_ [Hacc [_ [Ha [Ht _]]]]]]]] Hs;
    [exact Hs|].
  destruct Hs as [Hids Hnums Hkeys Htxids Href].
  constructor; rewrite ?Ha, ?Ht.
  - rewrite map_credit_same by reflexivity. exact Hids.
  - rewrite map_credit_same by reflexivity. exact Hnums.
  - rewrite map_credit_same by reflexivity. exact Hkeys.
  - rewrite map_app. simpl. apply NoDup_snoc; [exact Htxids|].
    apply nextId_not_in.
  - assert (Hsame :
      forall a, In a (accounts s) ->
                exists a', In a' (accounts s') /\ Account.id a' = Account.id a).
    { intros a Hin. rewrite Ha.
      exists (if byId (accountId input) a then credit (amount input) a else a).
      split.
      - apply (in_map
                 (fun a => if byId (accountId input) a
                           then credit (amount input) a else a)).
        exact Hin.
      - destruct (byId (accountId input) a); reflexivity. }
    intros t Hin. rewrite Ht in Hin. apply in_app_or in Hin.
    destruct Hin as [Hin | [<-|[]]].
    + destruct (Href t Hin) as [a [Hain Hid]].
      destruct (Hsame a Hain) as [a' [Hin' Hid']]. exists a'.
      split; [exact Hin' | congruence].
    + unfold getAccount in Hacc. apply find_some in Hacc.
      destruct Hacc as [Hain Hp]. unfold byIdAndUser in Hp.
      apply andb_prop in Hp. destruct Hp as [Hi _]. apply Z.eqb_eq in Hi.
      destruct (Hsame account Hain) as [a' [Hin' Hid']]. exists a'.
      split; [exact Hin'|]. simpl. congruence.
Qed.

(** ** What the procedures do to the store *)

Lemma store3_consistent : consistent store3.
Proof.
  constructor; simpl.
  - repeat constructor; simpl; intuition discriminate.
  - repeat constructor; simpl; intuition discriminate.
  - repeat constructor; simpl; intuition discriminate.
  - repeat constructor; simpl; intuition.
  - intros t [<-|[]]. exists account1. simpl. split; [left|]; reflexivity.
Qed.

(** X1.  When no other request touches the database while the handler is
    suspended, a call of [createAccount] that returns, in either revision,
    has done one of two things: with an account of that type already there
    for the caller it answers [CONFLICT] and leaves the store alone;
    otherwise it appends exactly one row to [accounts] (fresh id, the
    caller as owner, balance 0, status active, an account number no row
    had) and answers with that very row, leaving [transactions] alone.
    The account number is one of those the call drew from
    [generateAccountNumber]. *)
Theorem createAccount_opens_one_account :
  (forall fuel random clock ctx input s r s',
      AccountTs.createAccount_with quiet fuel random clock ctx input s
      = Some (r, s') ->
      opensOneAccount ctx input clock s r s'
      /\ (forall a, r = Ok a ->
                     exists k,
                       Account.accountNumber a
                       = AccountTs.generateAccountNumber (random k)))
  /\ (forall fuel random clock ctx input s r s',
         Part002.createAccount_with quiet fuel random clock ctx input s
         = Some (r, s') ->
         opensOneAccount ctx input clock s r s'
         /\ (forall a, r = Ok a ->
                        exists k,
                          Account.accountNumber a
                          = Part002.generateAccountNumber (random k))).
Proof.
  split.
  - apply AccountTs_createAccount_shape.
  - apply Part002_createAccount_shape.
Qed.

Lemma createAccount_opens_one_account_witness :
  opensOneAccount bob openChecking clock0 store3
    (Ok (openedRow bob openChecking "0000000008" clock0 store3))
    {| accounts :=
         accounts store3
         ++ [openedRow bob openChecking "0000000008" clock0 store3];
       transactions := transactions store3 |}
  /\ opensOneAccount alice openChecking clock0 store3
       (throw CONFLICT "You already have a checking account") store3.
Proof.
  split.
  - apply (proj2 createAccount_opens_one_account 1%nat eightBytesForEver
             clock0 bob openChecking store3). reflexivity.
  - apply (proj1 createAccount_opens_one_account 0%nat sevenForEver
             clock0 alice openChecking store3). reflexivity.
Defined.

(** X2.  When no other request touches the database while the handler is
    suspended, [createAccount] keeps the keys of the store, in either
    revision: from a store where account ids, account numbers and (owner,
    type) pairs are pairwise different, transaction ids are pairwise
    different and every transaction refers to an account, it leads to
    such a store.  (Nothing but the handler's own check keeps an owner
    from having two accounts of a type, so that this is a property of a
    call that runs alone.) *)
Theorem createAccount_keeps_store_consistent :
  (forall fuel random clock ctx input s r s',
      consistent s ->
      AccountTs.createAccount_with quiet fuel random clock ctx input s
      = Some (r, s') ->
      consistent s')
  /\ (forall fuel random clock ctx input s r s',
         consistent s ->
         Part002.createAccount_with quiet fuel random clock ctx input s
         = Some (r, s') ->
         consistent s').
Proof.
  split; intros fuel random clock ctx input s r s' Hs H.
  - apply AccountTs_createAccount_shape in H.
    exact (opensOneAccount_consistent (proj1 H) Hs).
  - apply Part002_createAccount_shape in H.
    exact (opensOneAccount_consistent (proj1 H) Hs).
Qed.

Lemma createAccount_keeps_store_consistent_witness :
  consistent store3
  /\ consistent
       {| accounts :=
            accounts store3
            ++ [openedRow bob openChecking "0000000008" clock0 store3];
          transactions := transactions store3 |}.
Proof.
  split; [exact store3_consistent|].
  apply (proj2 createAccount_keeps_store_consistent 1%nat eightBytesForEver
           clock0 bob openChecking store3
           (Ok (openedRow bob openChecking "0000000008" clock0 store3))).
  - exact store3_consistent.
  - reflexivity.
Defined.




(** X4.  [fundAccount] keeps the keys of the store, in either revision
    and whatever statement of the engine throws. *)
Theorem fundAccount_keeps_store_consistent :
  (forall engine clock ctx input s,
      consistent s ->
      consistent (snd (AccountTs.fundAccount engine clock ctx input s)))
  /\ (forall validateCardNumber engine clock ctx input s,
         consistent s ->
         consistent
           (snd (Part002.fundAccount validateCardNumber engine clock ctx
                   input s))).
Proof.
  split.
  - intros engine clock ctx input s Hs.
    exact (fundsOnce_consistent
             (AccountTs_fundAccount_shape engine clock ctx input s) Hs).
  - intros validateCardNumber engine clock ctx input s Hs.
    exact (fundsOnce_consistent
             (Part002_fundAccount_shape validateCardNumber engine clock ctx
                input s) Hs).
Qed.

Lemma fundAccount_keeps_store_consistent_witness :
  consistent store3
  /\ consistent
       (snd (Part002.fundAccount validateCard reliable clock0 alice
               (withCard "4242 4242 4242 4242" (JS.Fin 25)) store3)).
Proof.
  split; [exact store3_consistent|].
  apply (proj2 fundAccount_keeps_store_consistent). exact store3_consistent.
Defined.

Lemma fundsOnce_touchesOneBalance (clock : Clock) (ctx : Ctx)
    (input : FundInput) (s : Store) (r : result FundResult) (s' : Store) :
  fundsOnce clock ctx input s r s' ->
  touchesOneBalance (accountId input) s s'.
Proof.
  intros [[e [_ ->]] | [res [account [_ [_ [_ [Ha [Ht _]]]]]]]].
  - split; [reflexivity|]. split; [intros j _; split; reflexivity|].
    exists []. rewrite app_nil_r. split; [reflexivity | simpl; lia].
  - split; [|split].
    + rewrite Ha. apply map_credit_same. reflexivity.
    + intros j Hj. split.
      * pose proof (@getBalance_other (accountId input) j (amount input) s Hj)
          as H.
        unfold getBalance, getAccount, updateBalance in H |- *. simpl in H.
        rewrite Ha. exact H.
      * unfold transactionsOf. rewrite Ht, filter_app. simpl.
        destruct (Z.eqb_spec (accountId input) j); [congruence|].
        apply app_nil_r.
    + exists [depositRow clock input s]. split; [exact Ht | simpl; lia].
Qed.

(** X5.  A call of [fundAccount], in either revision, successful or not,
    changes nothing of any account but a balance, changes neither the
    balance nor the transactions of any account other than the one named
    in the input, and never removes or rewrites a transaction row: the
    table only grows, by one row at most. *)
Theorem fundAccount_touches_one_balance :
  (forall engine clock ctx input s,
      touchesOneBalance (accountId input) s
        (snd (AccountTs.fundAccount engine clock ctx input s)))
  /\ (forall validateCardNumber engine clock ctx input s,
         touchesOneBalance (accountId input) s
           (snd (Part002.fundAccount validateCardNumber engine clock ctx
                   input s))).
Proof.
  split.
  - intros engine clock ctx input s.
    exact (fundsOnce_touchesOneBalance
             (AccountTs_fundAccount_shape engine clock ctx input s)).
  - intros validateCardNumber engine clock ctx input s.
    exact (fundsOnce_touchesOneBalance
             (Part002_fundAccount_shape validateCardNumber engine clock ctx
                input s)).
Qed.

Lemma fundAccount_touches_one_balance_witness :
  getBalance 2
    (snd (AccountTs.fundAccount reliable clock0 alice (fromBank (JS.Fin 25))
            store3))
  = getBalance 2 store3.
Proof.
  apply (proj1 (proj2 (proj1 fundAccount_touches_one_balance reliable clock0
                         alice (fromBank (JS.Fin 25)) store3))).
  simpl. lia.
Defined.

Lemma fundsOnce_returns_row (clock : Clock) (ctx : Ctx) (input : FundInput)
    (s : Store) (res : FundResult) (s' : Store) :
  fundsOnce clock ctx input s (Ok res) s' ->
  transaction res = Some (depositRow clock input s)
  /\ transactions s' = (transactions s ++ [depositRow clock input s])%list
  /\ forall t, In t (transactions s) ->
               Transaction.id t < Transaction.id (depositRow clock input s).
Proof.
  intros [[e [He _]] | [res' [account [Hr [_ [_ [_ [Ht Hrow]]]]]]]];
    [discriminate|].
  injection Hr as <-. split; [exact Hrow|]. split; [exact Ht|].
  intros t Hin. simpl. apply nextId_above. apply in_map. exact Hin.
Qed.

(** X6.  The [transaction] a successful [fundAccount] returns, in either
    revision, is the row the call inserted, the last row of the table: a
    completed deposit of the amount on the account, described as "Funding
    from card" or "Funding from bank", with an id above every id the
    table held. *)
Theorem fundAccount_returns_inserted_row :
  (forall engine clock ctx input s res s',
      AccountTs.fundAccount engine clock ctx input s = (Ok res, s') ->
      transaction res = Some (depositRow clock input s)
      /\ transactions s' = (transactions s ++ [depositRow clock input s])%list
      /\ forall t, In t (transactions s) ->
                   Transaction.id t
                   < Transaction.id (depositRow clock input s))
  /\ (forall validateCardNumber engine clock ctx input s res s',
         Part002.fundAccount validateCardNumber engine clock ctx input s
         = (Ok res, s') ->
         transaction res = Some (depositRow clock input s)
         /\ transactions s'
            = (transactions s ++ [depositRow clock input s])%list
         /\ forall t, In t (transactions s) ->
                      Transaction.id t
                      < Transaction.id (depositRow clock input s)).
Proof.
  split.
  - intros engine clock ctx input s res s' H.
    pose proof (AccountTs_fundAccount_shape engine clock ctx input s) as Hs.
    rewrite H in Hs. exact (fundsOnce_returns_row Hs).
  - intros validateCardNumber engine clock ctx input s res s' H.
    pose proof (Part002_fundAccount_shape validateCardNumber engine clock
                  ctx input s) as Hs.
    rewrite H in Hs. exact (fundsOnce_returns_row Hs).
Qed.

Lemma fundAccount_returns_inserted_row_witness :
  exists res,
    fst (AccountTs.fundAccount reliable clock0 alice (fromBank (JS.Fin 25))
           store3) = Ok res
    /\ transaction res
       = Some (depositRow clock0 (fromBank (JS.Fin 25)) store3).
Proof.
  assert (H : exists res s',
             AccountTs.fundAccount reliable clock0 alice
               (fromBank (JS.Fin 25)) store3 = (Ok res, s')).
  { eexists. eexists. reflexivity. }
  destruct H as [res [s' H]]. exists res. split.
  - rewrite H. reflexivity.
  - exact (proj1 (proj1 fundAccount_returns_inserted_row reliable clock0
                    alice (fromBank (JS.Fin 25)) store3 res s' H)).
Defined.

(** ** [getTransactions], the two revisions side by side *)

Lemma find_byId_unique (l : list Account.t) (a : Account.t) :
  NoDup (map Account.id l) -> In a l -> find (byId (Account.id a)) l = Some a.
Proof.
  induction l as [|b l IH]; intros Hnd Hin; [contradiction|].
  simpl in Hnd. inversion Hnd as [|? ? Hnotin Hnd']; subst. simpl.
  unfold byId at 1. destruct (Z.eqb_spec (Account.id b) (Account.id a))
    as [Heq|Hneq].
  - destruct Hin as [->|Hin]; [reflexivity|].
    exfalso. apply Hnotin. rewrite Heq. apply in_map. exact Hin.
  - destruct Hin as [->|Hin]; [congruence|]. apply IH; assumption.
Qed.

Lemma owned_is_first_with_id (i u : Z) (s : Store) (account : Account.t) :
  NoDup (map Account.id (accounts s)) ->
  getAccount (byIdAndUser i u) s = Some account ->
  getAccount (byId i) s = Some account.
Proof.
  intros Hnd Hacc. unfold getAccount in *. apply find_some in Hacc.
  destruct Hacc as [Hin Hp]. unfold byIdAndUser in Hp.
  apply andb_prop in Hp. destruct Hp as [Hi _]. apply Z.eqb_eq in Hi.
  rewrite <- Hi. apply find_byId_unique; assumption.
Qed.

(** X7.  With account ids pairwise different, the two revisions of
    [getTransactions] answer alike: both fail with the same error, or both
    succeed with the same enriched rows, each as often in the one answer
    as in the other, those of the later revision in the order of
    [created_at], most recent first, whatever the order among rows of the
    same [created_at].  Asking the store for the account again for every
    row gives the account type the ownership check had read. *)
Theorem getTransactions_revisions_agree :
  forall ctx input s,
    NoDup (map Account.id (accounts s)) ->
    match AccountTs.getTransactions ctx input s,
          Part002.getTransactions ctx input s with
    | Ok rows1, Ok rows2 =>
        Permutation rows1 rows2
        /\ mostRecentFirst (map row rows2)
        /\ exists account,
            getAccount (byIdAndUser (forAccountId input) (user_id ctx)) s
            = Some account
            /\ Forall
                 (fun r =>
                    enrichedAccountType r
                    = Some (Account.accountType account))
                 rows1
    | Err e1, Err e2 => e1 = e2
    | _, _ => False
    end.
Proof.
  intros ctx input s Hnd.
  unfold AccountTs.getTransactions, Part002.getTransactions.
  destruct (getAccount (byIdAndUser (forAccountId input) (user_id ctx)) s)
    as [account|] eqn:Hacc; [|reflexivity].
  pose proof (owned_is_first_with_id _ _ _ Hnd Hacc) as Hfirst.
  assert (Henrich :
    map (fun transaction =>
           {| row := transaction;
              enrichedAccountType :=
                option_map Account.accountType
                  (getAccount (byId (Transaction.accountId transaction)) s) |})
      (transactionsOf (forAccountId input) s)
    = map (fun transaction =>
             {| row := transaction;
                enrichedAccountType := Some (Account.accountType account) |})
        (transactionsOf (forAccountId input) s)).
  { apply map_ext_in. intros t Ht. unfold transactionsOf in Ht.
    apply filter_In in Ht. destruct Ht as [_ Hid]. apply Z.eqb_eq in Hid.
    rewrite Hid, Hfirst. reflexivity. }
  rewrite Henrich. split; [|split].
  - apply Permutation_map. apply Permutation_sym.
    apply orderByCreatedAtDesc_perm.
  - rewrite !map_map. simpl. rewrite !map_id.
    apply orderByCreatedAtDesc_sorted.
  - exists account. split; [reflexivity|]. apply Forall_forall.
    intros r Hr. apply in_map_iff in Hr. destruct Hr as [t [<- _]].
    reflexivity.
Qed.

Lemma getTransactions_revisions_agree_witness :
  match AccountTs.getTransactions alice history store2,
        Part002.getTransactions alice history store2 with
  | Ok rows1, Ok rows2 =>
      map (fun r => Transaction.id (row r)) rows1 = [1; 2]
      /\ Permutation rows1 rows2
      /\ mostRecentFirst (map row rows2)
  | _, _ => False
  end.
Proof.
  assert (Hnd : NoDup (map Account.id (accounts store2))).
  { repeat constructor. simpl. intuition. }
  pose proof (getTransactions_revisions_agree alice history store2 Hnd) as H.
  destruct (AccountTs.getTransactions alice history store2) as [rows1|e1]
    eqn:H1;
    destruct (Part002.getTransactions alice history store2) as [rows2|e2]
      eqn:H2; try contradiction.
  - split; [injection H1 as <-; reflexivity|].
    split; [apply H | apply H].
  - discriminate H1.
Defined.

(** X8.  In either revision [getTransactions] answers with rows of the
    account asked for and with no others: a transaction is among the rows
    exactly when it is in the table with that account id. *)
Theorem getTransactions_only_own_rows :
  (forall ctx input s rows,
      AccountTs.getTransactions ctx input s = Ok rows ->
      forall t,
        In t (map row rows)
        <-> In t (transactions s)
            /\ Transaction.accountId t = forAccountId input)
  /\ (forall ctx input s rows,
         Part002.getTransactions ctx input s = Ok rows ->
         forall t,
           In t (map row rows)
           <-> In t (transactions s)
               /\ Transaction.accountId t = forAccountId input).
Proof.
  split; intros ctx input s rows H t.
  - unfold AccountTs.getTransactions in H.
    destruct (getAccount (byIdAndUser (forAccountId input) (user_id ctx)) s);
      [|discriminate].
    injection H as <-. rewrite map_map. simpl. rewrite map_id.
    unfold transactionsOf. rewrite filter_In, Z.eqb_eq. reflexivity.
  - unfold Part002.getTransactions in H.
    destruct (getAccount (byIdAndUser (forAccountId input) (user_id ctx)) s);
      [|discriminate].
    injection H as <-. rewrite map_map. simpl. rewrite map_id.
    unfold transactionsOf. split.
    + intros Hin.
      apply (Permutation_in _ (orderByCreatedAtDesc_perm _)) in Hin.
      apply filter_In in Hin. rewrite Z.eqb_eq in Hin. exact Hin.
    + intros Hin.
      apply (Permutation_in _
               (Permutation_sym (orderByCreatedAtDesc_perm _))).
      apply filter_In. rewrite Z.eqb_eq. exact Hin.
Qed.

Lemma getTransactions_only_own_rows_witness :
  In (deposit 2 (JS.Fin 30) "2024-05-02 10:00:00")
    [deposit 1 (JS.Fin 20) "2024-05-01 10:00:00";
     deposit 2 (JS.Fin 30) "2024-05-02 10:00:00"]
  <-> In (deposit 2 (JS.Fin 30) "2024-05-02 10:00:00") (transactions store2)
      /\ Transaction.accountId (deposit 2 (JS.Fin 30) "2024-05-02 10:00:00")
         = 1.
Proof.
  exact (proj1 getTransactions_only_own_rows alice history store2 _ eq_refl
           (deposit 2 (JS.Fin 30) "2024-05-02 10:00:00")).
Defined.

(** X9.  In the later revision [getTransactions] answers the owner of an
    account with the transactions of the account, each exactly once,
    ordered by [created_at] with the most recent first, every row carrying
    the type of the account. *)
Theorem Part002_getTransactions_most_recent_first :
  forall ctx input s account,
    getAccount (byIdAndUser (forAccountId input) (user_id ctx)) s
    = Some account ->
    exists rows,
      Part002.getTransactions ctx input s = Ok rows
      /\ Permutation (map row rows) (transactionsOf (forAccountId input) s)
      /\ mostRecentFirst (map row rows)
      /\ Forall
           (fun r =>
              enrichedAccountType r = Some (Account.accountType account))
           rows.
Proof.
  intros ctx input s account Hacc.
  exact (Part002_getTransactions_ordered ctx input s Hacc).
Qed.

Lemma Part002_getTransactions_most_recent_first_witness :
  exists rows,
    Part002.getTransactions alice history store2 = Ok rows
    /\ Permutation (map row rows) (transactionsOf 1 store2)
    /\ mostRecentFirst (map row rows)
    /\ Forall (fun r => enrichedAccountType r = Some checking) rows.
Proof.
  exact (Part002_getTransactions_most_recent_first alice history store2
           (account := account1) eq_refl).
Defined.

(** ** The later revision: what [fundAccount] and [createAccount] check *)

(** X10.  In the later revision [fundAccount] checks its preconditions
    before any write: an amount that is not strictly positive and finite
    is answered with [BAD_REQUEST]; for an input the schema accepts, an
    account the caller does not own is answered with [NOT_FOUND] and an
    account that is not active with [BAD_REQUEST]; a call that succeeds
    had a good amount and an active account of the caller; every call
    that fails leaves the store as it was. *)
Theorem Part002_fundAccount_checks_first :
  forall validateCardNumber engine clock ctx input s,
    let call :=
      Part002.fundAccount validateCardNumber engine clock ctx input s in
    let owned :=
      getAccount (byIdAndUser (accountId input) (user_id ctx)) s in
    (strictlyPositiveFinite (amount input) = false ->
     exists e, fst call = Err e /\ code e = BAD_REQUEST /\ snd call = s)
    /\ (Part002.inputIssues input = [] -> owned = None ->
        call = (throw NOT_FOUND "Account not found", s))
    /\ (forall account,
           Part002.inputIssues input = [] -> owned = Some account ->
           Account.status account <> "active" ->
           call = (throw BAD_REQUEST "Account is not active", s))
    /\ (forall r,
           fst call = Ok r ->
           strictlyPositiveFinite (amount input) = true
           /\ exists account,
               owned = Some account /\ Account.status account = "active")
    /\ (forall e, fst call = Err e -> snd call = s).
Proof.
  exact Part002_fundAccount_preconditions.
Qed.

Lemma Part002_fundAccount_checks_first_witness :
  exists e,
    fst (Part002.fundAccount validateCard reliable clock0 alice
           (fromBank (JS.Fin 0)) store3) = Err e
    /\ code e = BAD_REQUEST
    /\ snd (Part002.fundAccount validateCard reliable clock0 alice
              (fromBank (JS.Fin 0)) store3) = store3.
Proof.
  apply (proj1 (Part002_fundAccount_checks_first validateCard reliable clock0
                  alice (fromBank (JS.Fin 0)) store3)).
  reflexivity.
Defined.

(** X11.  In the later revision [createAccount] never answers with an
    account it did not read from the store, whatever other requests do to
    the database between its insert and its query: a successful answer is
    a row of [accounts], and when the query finds no row the answer is
    [INTERNAL_SERVER_ERROR]. *)
Theorem Part002_createAccount_never_fabricates :
  forall between fuel random clock ctx input s,
    (forall account s',
        Part002.createAccount_with between fuel random clock ctx input s
        = Some (Ok account, s') ->
        In account (accounts s'))
    /\ (forall accountNumber draws,
           getAccount (byUserAndType (user_id ctx) (accountType input)) s
           = None ->
           uniqueAccountNumber fuel
             (fun k => Part002.generateAccountNumber (random k)) 0 s
           = Some (accountNumber, draws) ->
           getAccount (byAccountNumber accountNumber)
             (between
                (insertAccount (user_id ctx) accountNumber
                   (accountType input) (JS.Fin 0) "active" clock s))
           = None ->
           exists e s',
             Part002.createAccount_with between fuel random clock ctx input s
             = Some (Err e, s')
             /\ code e = INTERNAL_SERVER_ERROR).
Proof.
  intros between fuel random clock ctx input s. split.
  - intros account s'. apply Part002_createAccount_returns_what_it_read.
  - intros accountNumber draws.
    apply Part002_createAccount_fetch_fails.
Qed.

Lemma Part002_createAccount_never_fabricates_witness :
  exists e s',
    Part002.createAccount_with accountsDeleted 1 sevenBytesForEver clock0
      alice openSavings emptyStore
    = Some (Err e, s')
    /\ code e = INTERNAL_SERVER_ERROR.
Proof.
  apply (proj2 (Part002_createAccount_never_fabricates accountsDeleted 1
                  sevenBytesForEver clock0 alice openSavings emptyStore)
           "0000000007" 1%nat); reflexivity.
Defined.

(** X12.  When no one else touches the store, the [newBalance] a
    successful [fundAccount] returns, in either revision, is the balance
    the store holds for the account after the call. *)
Theorem fundAccount_returns_stored_balance :
  (forall engine clock ctx input s r s',
      AccountTs.fundAccount engine clock ctx input s = (Ok r, s') ->
      getBalance (accountId input) s' = Some (newBalance r))
  /\ (forall validateCardNumber engine clock ctx input s r s',
         Part002.fundAccount validateCardNumber engine clock ctx input s
         = (Ok r, s') ->
         getBalance (accountId input) s' = Some (newBalance r)).
Proof.
  exact fundAccount_newBalance_is_stored.
Qed.

Lemma fundAccount_returns_stored_balance_witness :
  exists r s',
    AccountTs.fundAccount reliable clock0 alice (fromBank (JS.Fin 25)) store3
    = (Ok r, s')
    /\ getBalance 1 s' = Some (newBalance r)
    /\ newBalance r = JS.Fin 75.
Proof.
  assert (H : exists r s',
             AccountTs.fundAccount reliable clock0 alice
               (fromBank (JS.Fin 25)) store3 = (Ok r, s')
             /\ newBalance r = JS.Fin 75).
  { eexists. eexists. split; reflexivity. }
  destruct H as [r [s' [H Hb]]]. exists r, s'.
  split; [exact H|]. split; [|exact Hb].
  exact (proj1 fundAccount_returns_stored_balance reliable clock0 alice
           (fromBank (JS.Fin 25)) store3 r s' H).
Defined.

Lemma Part002_fundAccount_ok_inputs :
  forall validateCardNumber engine clock ctx input s r,
    fst (Part002.fundAccount validateCardNumber engine clock ctx input s)
    = Ok r ->
    Part002.inputIssues input = []
    /\ Part002.checkFundingSource validateCardNumber (fundingSource input)
       = None.
Proof.
  intros validateCardNumber engine clock ctx input s r.
  unfold Part002.fundAccount, Part002.fundAccount_with,
    Part002.fundAccount_begin, Part002.fundAccount_resume, quiet.
  destruct (Part002.inputIssues input); [|discriminate].
  destruct (Part002.checkAmount _); [discriminate|].
  destruct (getAccount _ s) as [account|]; [|discriminate].
  destruct (negb _); [discriminate|].
  destruct (Part002.checkFundingSource validateCardNumber
              (fundingSource input)); [discriminate|].
  intros _. split; reflexivity.
Qed.

(** X13.  In the later revision a call of [fundAccount] that succeeds had
    a finite amount of at least 0.01 and at most 10000. *)
Theorem Part002_fundAccount_amount_bounds :
  forall validateCardNumber engine clock ctx input s r,
    fst (Part002.fundAccount validateCardNumber engine clock ctx input s)
    = Ok r ->
    exists q,
      amount input = JS.Fin q /\ (1 # 100 <= q)%Q /\ (q <= 10000)%Q.
Proof.
  intros validateCardNumber engine clock ctx input s r H.
  apply Part002_fundAccount_ok_inputs in H. destruct H as [H _].
  apply Part002_inputIssues_none in H. revert H.
  unfold Part002.amountIssues.
  destruct (amount input) as [| | |q]; simpl; try discriminate.
  destruct (Qle_bool q 0); simpl; [discriminate|].
  destruct (Qle_bool (1 # 100) q) eqn:Hmin; simpl; [|discriminate].
  destruct (Qle_bool q 10000) eqn:Hmax; simpl; [|discriminate].
  intros _. exists q. split; [reflexivity|].
  split; apply Qle_bool_iff; assumption.
Qed.

Lemma Part002_fundAccount_amount_bounds_witness :
  exists q,
    amount (fromBank (JS.Fin 25)) = JS.Fin q
    /\ (1 # 100 <= q)%Q /\ (q <= 10000)%Q.
Proof.
  assert (H : exists r,
             fst (Part002.fundAccount validateCard reliable clock0 alice
                    (fromBank (JS.Fin 25)) store3) = Ok r).
  { eexists. reflexivity. }
  destruct H as [r H].
  exact (Part002_fundAccount_amount_bounds validateCard reliable clock0 alice
           (fromBank (JS.Fin 25)) store3 H).
Defined.

(** X14.  In the later revision a call of [fundAccount] that succeeds
    came with a funding source the handler accepts: for a card, a card
    number [validateCardNumber] calls valid; for a bank, a routing number
    of exactly nine decimal digits. *)
Theorem Part002_fundAccount_funding_source :
  forall validateCardNumber engine clock ctx input s r,
    fst (Part002.fundAccount validateCardNumber engine clock ctx input s)
    = Ok r ->
    match FundingSource.type (fundingSource input) with
    | card =>
        Part002.valid
          (validateCardNumber
             (FundingSource.accountNumber (fundingSource input)))
        = true
    | bank =>
        exists routing,
          FundingSource.routingNumber (fundingSource input) = Some routing
          /\ String.length routing = 9%nat
          /\ JS.allDigits routing = true
    end.
Proof.
  intros validateCardNumber engine clock ctx input s r H.
  apply Part002_fundAccount_ok_inputs in H. destruct H as [_ H]. revert H.
  unfold Part002.checkFundingSource.
  destruct (FundingSource.type (fundingSource input)).
  - destruct (Part002.valid _); [reflexivity | discriminate].
  - destruct (FundingSource.routingNumber (fundingSource input))
      as [routing|]; [|discriminate].
    destruct (Part002.routingNumberMissing (Some routing)); [discriminate|].
    destruct (Part002.nineDigits routing) eqn:Hnine; [|discriminate].
    intros _. exists routing. split; [reflexivity|].
    unfold Part002.nineDigits in Hnine. apply andb_prop in Hnine.
    destruct Hnine as [Hlen Hdigits]. apply Nat.eqb_eq in Hlen.
    split; assumption.
Qed.

Lemma Part002_fundAccount_funding_source_witness :
  exists routing,
    FundingSource.routingNumber (fundingSource (fromBank (JS.Fin 25)))
    = Some routing
    /\ String.length routing = 9%nat
    /\ JS.allDigits routing = true.
Proof.
  assert (H : exists r,
             fst (Part002.fundAccount validateCard reliable clock0 alice
                    (fromBank (JS.Fin 25)) store3) = Ok r).
  { eexists. reflexivity. }
  destruct H as [r H].
  exact (Part002_fundAccount_funding_source validateCard reliable clock0
           alice (fromBank (JS.Fin 25)) store3 H).
Defined.

(** * [lib/card-validation.ts] *)

Section CardNumbers.
Import CardValidation.

Lemma clean_idempotent (s : string) : clean (clean s) = clean s.
Proof.
  induction s as [|c s IH]; simpl; [reflexivity|].
  destruct (isSeparator c) eqn:Hc; [exact IH|].
  simpl. rewrite Hc, IH. reflexivity.
Qed.

Lemma validateCardNumber_clean (s : string) :
  validateCardNumber (clean s) = validateCardNumber s.
Proof.
  unfold validateCardNumber, validateCardFormat, detectCardType, validateLuhn.
  rewrite !clean_idempotent. reflexivity.
Qed.

Lemma detectInPrefixes_fits (info : CardTypeInfo) (cleaned : string) :
  forall l,
    detectInPrefixes info l cleaned
    = existsb (fun p => startsWith p cleaned) l
      && includes (lengths info) (String.length cleaned).
Proof.
  induction l as [|p l IH]; simpl; [reflexivity|].
  rewrite IH.
  destruct (startsWith p cleaned);
    destruct (includes (lengths info) (String.length cleaned));
    simpl; try reflexivity.
  - rewrite andb_false_r. reflexivity.
Qed.

Lemma startsWith_comparable (p p' s : string) :
  startsWith p s = true -> startsWith p' s = true ->
  startsWith p p' = true \/ startsWith p' p = true.
Proof.
  revert p' s. induction p as [|a p IH]; intros p' s Hp Hp';
    [left; reflexivity|].
  destruct p' as [|a' p']; [right; reflexivity|].
  destruct s as [|b s]; [discriminate|]. simpl in *.
  apply andb_prop in Hp. destruct Hp as [Hab Hp].
  apply andb_prop in Hp'. destruct Hp' as [Hab' Hp'].
  apply Ascii.eqb_eq in Hab, Hab'. subst.
  rewrite Ascii.eqb_refl. simpl. exact (IH _ _ Hp Hp').
Qed.

Lemma apart_fits (a b : CardTypeInfo) (cleaned : string) :
  apart a b = true -> fits a cleaned = true -> fits b cleaned = false.
Proof.
  intros Hapart Ha. unfold fits in *.
  apply andb_prop in Ha. destruct Ha as [Ha _].
  apply existsb_exists in Ha. destruct Ha as [p [Hp Hs]].
  destruct (existsb (fun p0 => startsWith p0 cleaned) (prefixes b)) eqn:Hb;
    [|reflexivity].
  exfalso. apply existsb_exists in Hb. destruct Hb as [p' [Hp' Hs']].
  unfold apart in Hapart. rewrite forallb_forall in Hapart.
  specialize (Hapart p Hp). rewrite forallb_forall in Hapart.
  specialize (Hapart p' Hp'). apply andb_prop in Hapart.
  destruct Hapart as [H1 H2].
  destruct (startsWith_comparable _ _ _ Hs Hs') as [H|H];
    rewrite H in *; discriminate.
Qed.

Lemma CardType_eqb_eq (x y : CardType) : CardType_eqb x y = true <-> x = y.
Proof. destruct x, y; simpl; split; intros H; congruence. Qed.

Lemma allApart_pair :
  forall types a b,
    allApart types = true -> In a types -> In b types ->
    a = b
    \/ ((apart a b = true \/ apart b a = true) /\ type a <> type b).
Proof.
  induction types as [|c types IH]; intros a b Hall Ha Hb; [contradiction|].
  simpl in Hall. apply andb_prop in Hall. destruct Hall as [Hc Hrest].
  rewrite forallb_forall in Hc.
  assert (Hfrom : forall d, In d types ->
                            apart c d = true /\ type c <> type d).
  { intros d Hd. specialize (Hc d Hd). apply andb_prop in Hc.
    destruct Hc as [H1 H2]. split; [exact H1|]. intros Heq.
    apply CardType_eqb_eq in Heq. rewrite Heq in H2. discriminate. }
  destruct Ha as [<-|Ha], Hb as [<-|Hb].
  - left. reflexivity.
  - right. destruct (Hfrom b Hb) as [H1 H2]. split; [left|]; assumption.
  - right. destruct (Hfrom a Ha) as [H1 H2].
    split; [right; exact H1 | congruence].
  - apply (IH a b Hrest Ha Hb).
Qed.

Lemma detectInTypes_cases (cleaned : string) :
  forall types,
    (exists info,
        In info types /\ fits info cleaned = true
        /\ detectInTypes types cleaned = type info)
    \/ (detectInTypes types cleaned = unknown
        /\ forall info, In info types -> fits info cleaned = false).
Proof.
  induction types as [|a types IH]; simpl.
  - right. split; [reflexivity | intros info []].
  - rewrite detectInPrefixes_fits. fold (fits a cleaned).
    destruct (fits a cleaned) eqn:Ha.
    + left. exists a. repeat split; [left; reflexivity | exact Ha].
    + destruct IH as [[info [Hin [Hfit Hd]]] | [Hd Hnone]].
      * left. exists info. repeat split; [right|..]; assumption.
      * right. split; [exact Hd|]. intros info [<-|Hin];
          [exact Ha | apply Hnone; exact Hin].
Qed.

Lemma CARD_TYPES_apart : allApart CARD_TYPES = true.
Proof. vm_compute. reflexivity. Qed.

Lemma CARD_TYPES_known :
  forall info, In info CARD_TYPES -> type info <> unknown.
Proof.
  intros info Hin. simpl in Hin.
  repeat (destruct Hin as [<-|Hin]; [discriminate|]). contradiction.
Qed.

Lemma detectInTypes_fits (cleaned : string) (info : CardTypeInfo) :
  In info CARD_TYPES ->
  (detectInTypes CARD_TYPES cleaned = type info <-> fits info cleaned = true).
Proof.
  intros Hin.
  destruct (detectInTypes_cases cleaned CARD_TYPES)
    as [[info' [Hin' [Hfit Hd]]] | [Hd Hnone]].
  - destruct (@allApart_pair CARD_TYPES info info' CARD_TYPES_apart Hin Hin')
      as [<- | [Hapart Htypes]].
    + split; intros _; assumption.
    + split.
      * intros H. rewrite Hd in H. congruence.
      * intros Hfit'. exfalso. destruct Hapart as [Hapart|Hapart].
        -- rewrite (@apart_fits info info' cleaned Hapart Hfit') in Hfit.
           discriminate.
        -- rewrite (@apart_fits info' info cleaned Hapart Hfit) in Hfit'.
           discriminate.
  - split.
    + intros H. rewrite Hd in H. exfalso.
      apply (@CARD_TYPES_known info Hin). congruence.
    + intros Hfit. rewrite (Hnone info Hin) in Hfit. discriminate.
Qed.

Lemma detectCardType_unfold (s : string) :
  detectCardType s
  = if onlyDigits (clean s) then detectInTypes CARD_TYPES (clean s)
    else unknown.
Proof.
  unfold detectCardType. destruct (onlyDigits (clean s)); reflexivity.
Qed.

(** X15.  [detectCardType] does not depend on the order of its table: it
    answers with a card type exactly when the number, spaces and dashes
    removed, is made of digits, begins with one of the prefixes of that
    type and has one of its lengths; it answers [unknown] exactly when the
    number is not made of digits or fits no type.  No number fits two
    types. *)
Theorem detectCardType_fits :
  forall s,
    (forall info,
        In info CARD_TYPES ->
        (detectCardType s = type info
         <-> onlyDigits (clean s) = true /\ fits info (clean s) = true))
    /\ (detectCardType s = unknown
        <-> onlyDigits (clean s) = false
            \/ forall info, In info CARD_TYPES -> fits info (clean s) = false)
    /\ (forall info info',
          In info CARD_TYPES -> In info' CARD_TYPES ->
          fits info (clean s) = true -> fits info' (clean s) = true ->
          info = info').
Proof.
  intros s. rewrite detectCardType_unfold.
  split; [|split];
    [| |intros info info' Hin Hin' Hfit Hfit';
        destruct (@allApart_pair CARD_TYPES info info' CARD_TYPES_apart
                    Hin Hin') as [Heq | [[Hap | Hap] _]];
        [ exact Heq
        | rewrite (@apart_fits info info' (clean s) Hap Hfit) in Hfit';
          discriminate
        | rewrite (@apart_fits info' info (clean s) Hap Hfit') in Hfit;
          discriminate ]].
  - intros info Hin. destruct (onlyDigits (clean s)).
    + rewrite (detectInTypes_fits (clean s) Hin). tauto.
    + split; [|intros [H _]; discriminate].
      intros H. exfalso. apply (@CARD_TYPES_known info Hin). congruence.
  - destruct (onlyDigits (clean s)); [|tauto].
    destruct (detectInTypes_cases (clean s) CARD_TYPES)
      as [[info [Hin [Hfit Hd]]] | [Hd Hnone]].
    + split.
      * intros H. exfalso. apply (@CARD_TYPES_known info Hin). congruence.
      * intros [H|H]; [discriminate|]. rewrite (H info Hin) in Hfit.
        discriminate.
    + split; [right; exact Hnone | intros _; exact Hd].
Qed.

Ltac card_step :=
  cbn [negb formatValid error valid errors cardType app Datatypes.length
       Nat.eqb String.length CardType_eqb].

Lemma validateCardNumber_verdict (s : string) :
  let r := validateCardNumber s in
  (valid r = true <-> errors r = [])
  /\ (valid r = true
      <-> onlyDigits (clean s) = true
          /\ (13 <= String.length (clean s) <= 19)%nat
          /\ (exists info,
                 In info CARD_TYPES /\ fits info (clean s) = true
                 /\ cardType r = type info)
          /\ validateLuhn s = true)
  /\ (forall e, In e (errors r) -> In e cardMessages).
Proof.
  unfold validateCardNumber, validateCardFormat.
  assert (Hluhn : validateLuhn (clean s) = validateLuhn s).
  { unfold validateLuhn. rewrite clean_idempotent. reflexivity. }
  rewrite Hluhn. clear Hluhn.
  destruct (Nat.eqb_spec (String.length (clean s)) 0) as [Hzero|Hnz]; card_step.
  { split; [split; discriminate|]. split.
    - split; [discriminate|]. intros [_ [[H _] _]]. lia.
    - intros e [<-|[]]. simpl. tauto. }
  destruct (onlyDigits (clean s)) eqn:Hdigits; card_step.
  2:{ split; [split; discriminate|]. split.
      - split; [discriminate|]. intros [H _]. discriminate.
      - intros e [<-|[]]. simpl. tauto. }
  destruct (Nat.ltb_spec (String.length (clean s)) 13) as [Hshort|Hlong];
    card_step.
  { split; [split; discriminate|]. split.
    - split; [discriminate|]. intros [_ [[H _] _]]. lia.
    - intros e [<-|[]]. simpl. tauto. }
  destruct (Nat.ltb_spec 19 (String.length (clean s))) as [Hover|Hfits];
    card_step.
  { split; [split; discriminate|]. split.
    - split; [discriminate|]. intros [_ [[_ H] _]]. lia.
    - intros e [<-|[]]. simpl. tauto. }
  rewrite detectCardType_unfold, clean_idempotent, Hdigits.
  destruct (detectInTypes_cases (clean s) CARD_TYPES)
    as [[info [Hin [Hfit Hd]]] | [Hd Hnone]]; rewrite Hd.
  - assert (Hknown : CardType_eqb (type info) unknown = false).
    { destruct (CardType_eqb (type info) unknown) eqn:H; [|reflexivity].
      apply CardType_eqb_eq in H. exfalso.
      exact (@CARD_TYPES_known info Hin H). }
    rewrite Hknown. card_step.
    assert (Hfind :
      find (fun ct => CardType_eqb (type ct) (type info)) CARD_TYPES
      = Some info).
    { destruct (find (fun ct => CardType_eqb (type ct) (type info))
                  CARD_TYPES) as [info'|] eqn:Hf.
      - apply find_some in Hf. destruct Hf as [Hin' Heq].
        apply CardType_eqb_eq in Heq.
        destruct (@allApart_pair CARD_TYPES info info' CARD_TYPES_apart
                    Hin Hin') as [<- | [_ Hne]];
          [reflexivity | congruence].
      - pose proof (find_none _ _ Hf info Hin) as H. simpl in H.
        assert (Hrefl : CardType_eqb (type info) (type info) = true)
          by (apply CardType_eqb_eq; reflexivity).
        congruence. }
    rewrite Hfind.
    assert (Hlen : includes (lengths info) (String.length (clean s)) = true).
    { unfold fits in Hfit. apply andb_prop in Hfit. apply Hfit. }
    rewrite Hlen. card_step.
    destruct (validateLuhn s); card_step.
    + split; [split; reflexivity|]. split.
      * split; [|reflexivity]. intros _. repeat split; try lia.
        exists info. repeat split; assumption.
      * intros e [].
    + split; [split; discriminate|]. split.
      * split; [discriminate|]. intros [_ [_ [_ H]]]. discriminate.
      * intros e [<-|[]]. simpl. tauto.
  - card_step.
    destruct (validateLuhn s); card_step.
    + split; [split; discriminate|]. split.
      * split; [discriminate|].
        intros [_ [_ [[info [Hin [Hfit _]]] _]]].
        rewrite (Hnone info Hin) in Hfit. discriminate.
      * intros e [<-|[]]. simpl. tauto.
    + split; [split; discriminate|]. split.
      * split; [discriminate|]. intros [_ [_ [_ H]]]. discriminate.
      * intros e [<-|[<-|[]]]; simpl; tauto.
Qed.

(** X16.  [validateCardNumber] calls a number valid exactly when, spaces
    and dashes removed, it is made of 13 to 19 digits, fits a card type
    (which is the [cardType] of the answer) and passes the Luhn check;
    [valid] is true exactly when [errors] is empty; and every error is one
    of six messages: the message about the length of the detected type is
    never given, since a type is detected only for a number of one of its
    lengths. *)
Theorem validateCardNumber_valid_iff :
  forall s,
    let r := validateCardNumber s in
    (valid r = true <-> errors r = [])
    /\ (valid r = true
        <-> onlyDigits (clean s) = true
            /\ (13 <= String.length (clean s) <= 19)%nat
            /\ (exists info,
                   In info CARD_TYPES /\ fits info (clean s) = true
                   /\ cardType r = type info)
            /\ validateLuhn s = true)
    /\ (forall e, In e (errors r) -> In e cardMessages).
Proof.
  exact validateCardNumber_verdict.
Qed.

(** X17.  [validateCardNumber] looks at nothing but the characters that
    are neither white space nor dashes: two card numbers that are the same
    once these are removed get the same answer. *)
Theorem validateCardNumber_ignores_separators :
  forall s s',
    clean s = clean s' -> validateCardNumber s = validateCardNumber s'.
Proof.
  intros s s' H.
  rewrite <- (validateCardNumber_clean s), <- (validateCardNumber_clean s').
  rewrite H. reflexivity.
Qed.

Lemma validateCardNumber_ignores_separators_witness :
  validateCardNumber "4242 4242 4242 4242"
  = validateCardNumber "4242-4242-4242-4242".
Proof.
  apply validateCardNumber_ignores_separators. reflexivity.
Defined.

Lemma detectCardType_fits_witness :
  detectCardType "4242 4242 4242 4242" = visa.
Proof.
  pose (info := {| type := visa; prefixes := ["4"];
                   lengths := [13; 16]%nat |}).
  change visa with (type info).
  apply (proj1 (detectCardType_fits "4242 4242 4242 4242") info).
  - left. reflexivity.
  - split; reflexivity.
Defined.

Lemma validateCardNumber_valid_iff_witness :
  errors (validateCardNumber "4242 4242 4242 4242") = [].
Proof.
  destruct (validateCardNumber_valid_iff "4242 4242 4242 4242")
    as [Hvalid _].
  apply Hvalid. reflexivity.
Defined.

(** ** The Luhn check *)

Lemma luhnLoop_sum (l : list ascii) :
  forall isEven sum, luhnLoop l isEven sum = sum + luhnLoop l isEven 0.
Proof.
  induction l as [|c l IH]; intros isEven sum; cbn [luhnLoop]; [lia|].
  rewrite (IH _ (sum + _)), (IH _ (0 + _)). lia.
Qed.

Lemma luhnLoop_change (l1 l2 : list ascii) (a b : ascii) :
  forall isEven sum,
  exists isEven',
    luhnLoop (l1 ++ a :: l2)%list isEven sum
    - luhnLoop (l1 ++ b :: l2)%list isEven sum
    = luhnDigit isEven' (digitValue a) - luhnDigit isEven' (digitValue b).
Proof.
  induction l1 as [|c l1 IH]; intros isEven sum; simpl.
  - exists isEven.
    rewrite (luhnLoop_sum l2 _ (sum + luhnDigit isEven (digitValue a))),
      (luhnLoop_sum l2 _ (sum + luhnDigit isEven (digitValue b))).
    lia.
  - apply IH.
Qed.

Lemma digitValue_range (c : ascii) :
  JS.isDigit c = true -> 0 <= digitValue c <= 9.
Proof.
  unfold JS.isDigit, digitValue. intros H. apply andb_prop in H.
  destruct H as [Hlo Hhi]. apply N.leb_le in Hlo, Hhi. lia.
Qed.

Lemma digitValue_inj (a b : ascii) :
  digitValue a = digitValue b -> a = b.
Proof.
  unfold digitValue. intros H.
  assert (Hn : N_of_ascii a = N_of_ascii b) by lia.
  rewrite <- (ascii_N_embedding a), <- (ascii_N_embedding b), Hn.
  reflexivity.
Qed.

Lemma luhnDigit_gap (isEven : bool) (x y : Z) :
  0 <= x <= 9 -> 0 <= y <= 9 -> x <> y ->
  (luhnDigit isEven x - luhnDigit isEven y) mod 10 <> 0.
Proof.
  intros Hx Hy Hne H. apply Z.mod_divide in H; [|lia].
  destruct H as [k Hk]. revert Hk. unfold luhnDigit.
  destruct isEven; [|lia].
  destruct (Z.gtb_spec (x * 2) 9), (Z.gtb_spec (y * 2) 9); lia.
Qed.

Lemma list_ascii_of_string_app (x y : string) :
  list_ascii_of_string (x ++ y)
  = (list_ascii_of_string x ++ list_ascii_of_string y)%list.
Proof.
  induction x as [|c x IH]; simpl; [reflexivity|]. rewrite IH. reflexivity.
Qed.

Lemma allDigits_app (x y : string) :
  JS.allDigits (x ++ y) = JS.allDigits x && JS.allDigits y.
Proof.
  induction x as [|c x IH]; simpl; [reflexivity|].
  rewrite IH, andb_assoc. reflexivity.
Qed.

Lemma onlyDigits_allDigits (x : string) :
  onlyDigits x = true -> JS.allDigits x = true.
Proof.
  destruct x; [discriminate | exact (fun H => H)].
Qed.

Lemma digit_in_the_middle (pre post : string) (c : ascii) :
  onlyDigits (pre ++ String c post) = true -> JS.isDigit c = true.
Proof.
  intros H. apply onlyDigits_allDigits in H. rewrite allDigits_app in H.
  apply andb_prop in H. destruct H as [_ H]. simpl in H.
  apply andb_prop in H. apply H.
Qed.

Lemma validateLuhn_one_digit (s s' pre post : string) (a b : ascii) :
  clean s = pre ++ String a post ->
  clean s' = pre ++ String b post ->
  a <> b ->
  validateLuhn s = true ->
  validateLuhn s' = false.
Proof.
  unfold validateLuhn. intros Hs Hs' Hne. rewrite Hs, Hs'.
  destruct (onlyDigits (pre ++ String a post)) eqn:Ha; [|discriminate].
  destruct (onlyDigits (pre ++ String b post)) eqn:Hb; [|reflexivity].
  cbn [negb].
  destruct (String.length (pre ++ String a post) <? 13)%nat; [discriminate|].
  destruct (String.length (pre ++ String b post) <? 13)%nat; [reflexivity|].
  apply digit_in_the_middle in Ha, Hb.
  rewrite !list_ascii_of_string_app. cbn [list_ascii_of_string].
  rewrite !rev_app_distr. cbn [rev]. rewrite <- !app_assoc.
  cbn [app].
  destruct (luhnLoop_change (rev (list_ascii_of_string post))
              (rev (list_ascii_of_string pre)) a b false 0)
    as [isEven' Hgap].
  intros Hsum. apply Z.eqb_eq in Hsum. apply Z.eqb_neq. intros Hsum'.
  apply (@luhnDigit_gap isEven' (digitValue a) (digitValue b)).
  - apply digitValue_range. exact Ha.
  - apply digitValue_range. exact Hb.
  - intros H. apply Hne. apply digitValue_inj. exact H.
  - rewrite <- Hgap. rewrite Zminus_mod, Hsum, Hsum'. reflexivity.
Qed.

(** X18.  The Luhn check catches every single wrong character: when a
    card number passes [validateLuhn], the number that differs from it in
    one place (spaces and dashes aside) does not pass. *)
Theorem validateLuhn_catches_one_wrong_digit :
  forall s s' pre post a b,
    clean s = pre ++ String a post ->
    clean s' = pre ++ String b post ->
    a <> b ->
    validateLuhn s = true ->
    validateLuhn s' = false.
Proof.
  exact validateLuhn_one_digit.
Qed.

Lemma validateLuhn_catches_one_wrong_digit_witness :
  validateLuhn "4242 4242 4242 4243" = false.
Proof.
  apply (@validateLuhn_catches_one_wrong_digit
           "4242 4242 4242 4242" "4242 4242 4242 4243"
           "424242424242424" "" "2"%char "3"%char).
  - reflexivity.
  - reflexivity.
  - discriminate.
  - reflexivity.
Defined.

(** ** [formatCardNumber] *)

Lemma isSpace_isSeparator (c : ascii) :
  JS.isSpace c = true -> isSeparator c = true.
Proof.
  unfold isSeparator. intros ->. reflexivity.
Qed.

Lemma clean_trimStart (x : string) : clean (JS.trimStart x) = clean x.
Proof.
  induction x as [|c x IH]; [reflexivity|].
  cbn [JS.trimStart]. destruct (JS.isSpace c) eqn:Hc; [|reflexivity].
  rewrite IH. cbn [clean]. rewrite (isSpace_isSeparator c Hc). reflexivity.
Qed.

Lemma clean_rev_string (x : string) :
  forall acc,
    clean (JS.rev_string acc x) = JS.rev_string (clean acc) (clean x).
Proof.
  induction x as [|c x IH]; intros acc; [reflexivity|].
  cbn [JS.rev_string]. rewrite IH. cbn [clean].
  destruct (isSeparator c); reflexivity.
Qed.

Lemma rev_string_rev_string (x : string) :
  forall a b,
    JS.rev_string a (JS.rev_string b x) = JS.rev_string (x ++ a) b.
Proof.
  induction x as [|c x IH]; intros a b; [reflexivity|].
  cbn [JS.rev_string]. rewrite IH. reflexivity.
Qed.

Lemma append_empty (x : string) : x ++ "" = x.
Proof.
  induction x as [|c x IH]; simpl; [reflexivity|]. rewrite IH. reflexivity.
Qed.

Lemma clean_trim (x : string) : clean (JS.trim x) = clean x.
Proof.
  unfold JS.trim.
  rewrite clean_rev_string, clean_trimStart, clean_rev_string,
    clean_trimStart.
  cbn [clean]. rewrite rev_string_rev_string. cbn [JS.rev_string].
  apply append_empty.
Qed.

Lemma clean_group4_upto (n : nat) :
  forall x, (String.length x <= n)%nat -> clean (group4 x) = clean x.
Proof.
  induction n as [n IH] using lt_wf_ind. intros x Hlen.
  destruct x as [|a [|b [|c [|d rest]]]]; try reflexivity.
  cbn [group4 clean].
  assert (Hrest : clean (group4 rest) = clean rest).
  { apply (IH (String.length rest)); [|lia].
    cbn [String.length] in Hlen. lia. }
  assert (Hspace : isSeparator " " = true) by reflexivity.
  rewrite Hspace, Hrest. reflexivity.
Qed.

Lemma clean_group4 (x : string) : clean (group4 x) = clean x.
Proof.
  apply (@clean_group4_upto (String.length x)). lia.
Qed.

Lemma clean_formatCardNumber (s : string) :
  clean (formatCardNumber s) = clean s.
Proof.
  unfold formatCardNumber.
  rewrite clean_trim, clean_group4. apply clean_idempotent.
Qed.

(** X19.  [formatCardNumber] only moves the separators: the digits of the
    formatted number are those of the number given, formatting twice is
    formatting once, and [validateCardNumber] gives the formatted number
    the answer it gives the number itself. *)
Theorem formatCardNumber_keeps_the_number :
  forall s,
    clean (formatCardNumber s) = clean s
    /\ formatCardNumber (formatCardNumber s) = formatCardNumber s
    /\ validateCardNumber (formatCardNumber s) = validateCardNumber s.
Proof.
  intros s. pose proof (clean_formatCardNumber s) as H.
  split; [exact H|]. split.
  - unfold formatCardNumber at 1. rewrite H. reflexivity.
  - rewrite <- (validateCardNumber_clean (formatCardNumber s)), H.
    apply validateCardNumber_clean.
Qed.

(** ** The router with this validator *)

(** X20.  With the validator of [lib/card-validation.ts], a call of
    [fundAccount] of the later revision that succeeds for a card came with
    a card number that, spaces and dashes removed, is made of 13 to 19
    digits, fits one of the six card types and passes the Luhn check. *)
Theorem Part002_fundAccount_card_is_valid :
  forall engine clock ctx input s r,
    fst (Part002.fundAccount validateCard engine clock ctx input s) = Ok r ->
    FundingSource.type (fundingSource input) = card ->
    let number := FundingSource.accountNumber (fundingSource input) in
    onlyDigits (clean number) = true
    /\ (13 <= String.length (clean number) <= 19)%nat
    /\ (exists info, In info CARD_TYPES /\ fits info (clean number) = true)
    /\ validateLuhn number = true.
Proof.
  intros engine clock ctx input s r H Hcard number.
  apply Part002_fundAccount_ok_inputs in H. destruct H as [_ H].
  unfold Part002.checkFundingSource in H. rewrite Hcard in H.
  fold number in H.
  destruct (Part002.valid (validateCard number)) eqn:Hvalid;
    [|discriminate].
  unfold validateCard in Hvalid. cbn [Part002.valid] in Hvalid.
  destruct (validateCardNumber_verdict number) as [_ [Hiff _]].
  apply Hiff in Hvalid.
  destruct Hvalid as [Hd [Hlen [[info [Hin [Hfit _]]] Hluhn]]].
  repeat split; try assumption; try lia.
  exists info. split; assumption.
Qed.

Lemma Part002_fundAccount_card_is_valid_witness :
  validateLuhn "4242 4242 4242 4242" = true.
Proof.
  assert (H : exists r,
             fst (Part002.fundAccount validateCard reliable clock0 alice
                    (withCard "4242 4242 4242 4242" (JS.Fin 25)) store3)
             = Ok r).
  { eexists. reflexivity. }
  destruct H as [r H].
  apply (Part002_fundAccount_card_is_valid reliable clock0 alice
           (withCard "4242 4242 4242 4242" (JS.Fin 25)) store3 H).
  reflexivity.
Defined.

End CardNumbers.

(** * The account number and the number drawn *)

Section Draws.
Import JS.

Lemma decimalValue_padStart_toString (n : N) :
  decimalValue (padStart 10 "0" (toString n)) = n.
Proof.
  unfold padStart.
  destruct (10 <=? String.length (toString n))%nat.
  - apply decimalValue_toString.
  - rewrite fill_zero by auto.
    rewrite decimalValue_zeros_append. apply decimalValue_toString.
Qed.

Lemma readUInt32BE_range (b0 b1 b2 b3 : byte) :
  (Part002.readUInt32BE b0 b1 b2 b3 < 4294967296)%N.
Proof.
  unfold Part002.readUInt32BE.
  pose proof (Byte.to_N_bounded b0). pose proof (Byte.to_N_bounded b1).
  pose proof (Byte.to_N_bounded b2). pose proof (Byte.to_N_bounded b3).
  lia.
Qed.

Lemma byte_onto (n : N) : (n < 256)%N -> exists b, Byte.to_N b = n.
Proof.
  intros Hn. destruct (Byte.of_N n) as [b|] eqn:Hb.
  - exists b. apply Byte.to_of_N. exact Hb.
  - apply Byte.of_N_None_iff in Hb. lia.
Qed.

Lemma readUInt32BE_onto (x : N) :
  (x < 4294967296)%N ->
  exists b0 b1 b2 b3, Part002.readUInt32BE b0 b1 b2 b3 = x.
Proof.
  intros Hx.
  pose proof (N.div_mod x 16777216) as H0.
  pose proof (N.mod_lt x 16777216) as H0'.
  pose proof (N.div_mod (x mod 16777216) 65536) as H1.
  pose proof (N.mod_lt (x mod 16777216) 65536) as H1'.
  pose proof (N.div_mod ((x mod 16777216) mod 65536) 256) as H2.
  pose proof (N.mod_lt ((x mod 16777216) mod 65536) 256) as H2'.
  destruct (@byte_onto (x / 16777216)%N) as [b0 Hb0].
  { apply N.Div0.div_lt_upper_bound. exact Hx. }
  destruct (@byte_onto ((x mod 16777216) / 65536)%N) as [b1 Hb1].
  { apply N.Div0.div_lt_upper_bound. lia. }
  destruct (@byte_onto (((x mod 16777216) mod 65536) / 256)%N) as [b2 Hb2].
  { apply N.Div0.div_lt_upper_bound. lia. }
  destruct (@byte_onto (((x mod 16777216) mod 65536) mod 256)%N)
    as [b3 Hb3].
  { lia. }
  exists b0, b1, b2, b3. unfold Part002.readUInt32BE.
  rewrite Hb0, Hb1, Hb2, Hb3. lia.
Qed.

Lemma Part002_generateAccountNumber_value (b0 b1 b2 b3 : byte) :
  decimalValue (Part002.generateAccountNumber (b0, b1, b2, b3))
  = (Part002.readUInt32BE b0 b1 b2 b3 mod 1000000000)%N.
Proof.
  unfold Part002.generateAccountNumber.
  apply decimalValue_padStart_toString.
Qed.

(** X21.  The account number is the decimal writing of the number drawn:
    read as a decimal number it gives back [Math.floor(Math.random() *
    1000000000)], the product being the binary64 product, in [account.ts]
    and the 32-bit number modulo 10^9 in the later revision.  There the account number written for [n] comes
    from the draws [n + k * 10^9] below 2^32 and no others: five draws
    for [n] below 294967296, four for the other numbers, the four bytes
    read by [readUInt32BE] giving every number below 2^32 and no other. *)
Theorem generateAccountNumber_writes_the_draw :
  (forall random,
      randomNumber random ->
      exists q,
        mul (Fin random) (Fin 1000000000) = Fin q
        /\ Z.of_N (decimalValue (AccountTs.generateAccountNumber random))
           = floor q)
  /\ (forall b0 b1 b2 b3,
        decimalValue (Part002.generateAccountNumber (b0, b1, b2, b3))
        = (Part002.readUInt32BE b0 b1 b2 b3 mod 1000000000)%N)
  /\ (forall b0 b1 b2 b3 n,
        (n < 1000000000)%N ->
        (Part002.generateAccountNumber (b0, b1, b2, b3)
         = padStart 10 "0" (toString n)
         <-> exists k,
               (k <= if n <? 294967296 then 4 else 3)%N
               /\ Part002.readUInt32BE b0 b1 b2 b3
                  = (n + k * 1000000000)%N))
  /\ (forall x,
        (x < 4294967296)%N <->
        exists b0 b1 b2 b3, Part002.readUInt32BE b0 b1 b2 b3 = x).
Proof.
  split; [|split; [exact Part002_generateAccountNumber_value|split]];
    [| |intros x; split;
        [apply readUInt32BE_onto
        |intros [b0 [b1 [b2 [b3 <-]]]]; apply readUInt32BE_range]].
  - intros random Hr. unfold AccountTs.generateAccountNumber.
    destruct (floor_scaled_random Hr) as [q [Hq [Hlo Hhi]]].
    exists q. split; [exact Hq|]. rewrite Hq.
    unfold floorToString, integerToString.
    destruct (Z.ltb_spec (floor q) 0) as [Hneg|_]; [lia|].
    rewrite decimalValue_padStart_toString. lia.
  - intros b0 b1 b2 b3 n Hn.
    pose proof (readUInt32BE_range b0 b1 b2 b3) as Hrange.
    pose proof (Part002_generateAccountNumber_value b0 b1 b2 b3) as Hvalue.
    split.
    + intros H. rewrite H, decimalValue_padStart_toString in Hvalue.
      exists (Part002.readUInt32BE b0 b1 b2 b3 / 1000000000)%N.
      pose proof (N.div_mod (Part002.readUInt32BE b0 b1 b2 b3) 1000000000)
        as Hdiv.
      destruct (N.ltb_spec n 294967296); split; try lia.
      all: pose proof (N.Div0.div_lt_upper_bound
                  (Part002.readUInt32BE b0 b1 b2 b3) 1000000000 5) as Hk.
      all: lia.
    + intros [k [Hk Hx]]. unfold Part002.generateAccountNumber.
      rewrite Hx. replace ((n + k * 1000000000) mod 1000000000)%N with n;
        [reflexivity|].
      rewrite N.Div0.mod_add. symmetry. apply N.mod_small. exact Hn.
Qed.

Lemma generateAccountNumber_writes_the_draw_witness :
  Part002.generateAccountNumber (x00, x00, x00, x07)
  = padStart 10 "0" (toString 7).
Proof.
  destruct generateAccountNumber_writes_the_draw as [_ [_ [H _]]].
  apply (H x00 x00 x00 x07 7%N).
  - reflexivity.
  - exists 0%N. split; [discriminate | reflexivity].
Defined.

End Draws.
